(** * wacom-keymapper: a shallow embedding of [main.py]

    The script reads a JSON key-mapping file, resolves the tablet device
    through [xsetwacom --list devices], audits the current button mappings
    with [xsetwacom get] and, after confirmation on the console, applies
    them with [xsetwacom set].

    Python [str] values are embedded as [string]; a character stands for
    the code point of the same number (code points below 256).  The
    external world (the [xsetwacom] process, the file system) is a state
    threaded through a small state-and-exception monad that also records
    every console and process interaction in a trace.  A call of
    [subprocess.run] either returns the completed process with its output
    as text or raises, as it does for output that is no text; the rule
    list is typed as the data model has it: a list of lists of strings,
    where a rule that is too short raises [IndexError] as in Python.  The two [while True] loops run on
    fuel; [configure_map__total] shows that the fuel never decides the
    result once it exceeds the number of console lines left. *)

From Stdlib Require Import List String Ascii Bool Arith ZArith QArith Lia.
Import ListNotations.

Local Open Scope list_scope.
Local Open Scope nat_scope.
Local Open Scope string_scope.

(** ** Text primitives of the Python runtime *)

Module PyStr.

Definition code (c : ascii) : nat := nat_of_ascii c.

(** [str.isspace] on one code point, which is also the class [\s] of
    [re] on [str] patterns: the ASCII white space, the four separators
    FS, GS, RS, US, NEL and the no-break space. *)
Definition isspace (c : ascii) : bool :=
  let n := code c in
  (((9 <=? n) && (n <=? 13)) || ((28 <=? n) && (n <=? 32))
   || (n =? 133) || (n =? 160))%nat.

(** The decimal digits, class [\d]: below 256 only [0-9]. *)
Definition isdigit (c : ascii) : bool :=
  let n := code c in ((48 <=? n) && (n <=? 57))%nat.

(** The class of [.] without DOTALL: everything but line feed. *)
Definition notnewline (c : ascii) : bool := negb (code c =? 10)%nat.

Definition nl : string := String (ascii_of_nat 10) "".

Fixpoint lstrip (s : string) : string :=
  match s with
  | String c s' => if isspace c then lstrip s' else s
  | EmptyString => EmptyString
  end.

(** [rstrip] keeps a character when it is not white space or when
    something is left to its right after stripping. *)
Fixpoint rstrip (s : string) : string :=
  match s with
  | String c s' =>
      match rstrip s' with
      | EmptyString => if isspace c then EmptyString else String c EmptyString
      | r => String c r
      end
  | EmptyString => EmptyString
  end.

(** [str.strip()] with no argument. *)
Definition strip (s : string) : string := rstrip (lstrip s).

(** The line boundaries of [str.splitlines] below 256, carriage return
    apart: LF, VT, FF, FS, GS, RS, NEL. *)
Definition islinebreak (c : ascii) : bool :=
  let n := code c in
  (((10 <=? n) && (n <=? 12)) || ((28 <=? n) && (n <=? 30))
   || (n =? 133))%nat.

Definition snoc (s : string) (c : ascii) : string := s ++ String c "".

(** [str.splitlines()]: no line boundary is kept, CR LF counts once and
    a final boundary opens no empty last line. *)
Fixpoint splitlines_from (cur : option string) (s : string) : list string :=
  match s with
  | EmptyString => match cur with Some l => [l] | None => [] end
  | String c s' =>
      let l := match cur with Some l => l | None => "" end in
      if (code c =? 13)%nat then
        match s' with
        | String d s'' =>
            if (code d =? 10)%nat then l :: splitlines_from None s''
            else l :: splitlines_from None s'
        | EmptyString => [l]
        end
      else if islinebreak c then l :: splitlines_from None s'
      else splitlines_from (Some (snoc l c)) s'
  end.

Definition splitlines (s : string) : list string := splitlines_from None s.

Fixpoint spaces (n : nat) : string :=
  match n with O => "" | S m => String " " (spaces m) end.

(** Format specifications [{x:<w}] and [{x:>w}] of a [str]. *)
Definition ljust (w : nat) (s : string) : string :=
  s ++ spaces (w - String.length s).
Definition rjust (w : nat) (s : string) : string :=
  spaces (w - String.length s) ++ s.

End PyStr.

(** ** Paths of [pathlib]

    [str(pathlib.Path(s))] on a POSIX system: the text is cut at the
    slashes, empty components and the component [.] are dropped, and the
    rest is joined by single slashes after the root.  The root is [/]
    for a text that starts with a slash, except that exactly two leading
    slashes are kept; a path without root and components is [.]. *)

Module PyPath.

(** [s.split("/")], [cur] being the component read so far. *)
Fixpoint split_from (cur : string) (s : string) : list string :=
  match s with
  | EmptyString => [cur]
  | String c s' =>
      if Ascii.eqb c "/" then cur :: split_from "" s'
      else split_from (cur ++ String c "") s'
  end.

Definition parts (s : string) : list string :=
  filter (fun x => negb (String.eqb x "" || String.eqb x ".")) (split_from "" s).

Definition root (s : string) : string :=
  match s with
  | String "/" (String "/" (String "/" _)) => "/"
  | String "/" (String "/" _) => "//"
  | String "/" _ => "/"
  | _ => ""
  end.

Fixpoint join (l : list string) : string :=
  match l with
  | [] => ""
  | [x] => x
  | x :: l' => x ++ "/" ++ join l'
  end.

Definition text (s : string) : string :=
  match root s, parts s with
  | EmptyString, [] => "."
  | r, ps => r ++ join ps
  end.

End PyPath.

(** ** The backtracking matcher of [re], for flat patterns

    A compiled pattern is a sequence of items, as [sre] compiles a
    pattern without alternation: anchors, literals, group marks and
    repetitions of one character class, greedy or lazy, tried in the
    order in which the backtracking engine tries them. *)

Module Re.

Inductive item : Type :=
| AtBeginning                                   (* ^ *)
| AtEnd                                         (* $ *)
| Literal (c : ascii)
| Mark (i : nat)                                (* 2g-2 opens group g, 2g-1 closes it *)
| Repeat (greedy : bool) (min : nat) (cls : ascii -> bool).

Definition pattern := list item.

(** The matcher's position: characters consumed, text left, marks set. *)
Record mstate : Type := MState {
  ptr : nat;
  rest : string;
  marks : list (nat * nat)
}.

(** [cls*] or [cls*?] followed by the continuation [k]. *)
Fixpoint star (greedy : bool) (cls : ascii -> bool)
    (k : mstate -> option mstate)
    (mk : list (nat * nat)) (p : nat) (s : string) {struct s}
    : option mstate :=
  let here := k (MState p s mk) in
  match s with
  | String c s' =>
      if cls c then
        if greedy then
          match star greedy cls k mk (S p) s' with
          | Some r => Some r
          | None => here
          end
        else
          match here with
          | Some r => Some r
          | None => star greedy cls k mk (S p) s'
          end
      else here
  | EmptyString => here
  end.

(** [min] compulsory characters of the class, then the star. *)
Fixpoint repeat_ (greedy : bool) (min : nat) (cls : ascii -> bool)
    (k : mstate -> option mstate)
    (mk : list (nat * nat)) (p : nat) (s : string) {struct min}
    : option mstate :=
  match min with
  | O => star greedy cls k mk p s
  | S m =>
      match s with
      | String c s' =>
          if cls c then repeat_ greedy m cls k mk (S p) s' else None
      | EmptyString => None
      end
  end.

(** [$] holds at the end of the text and before a final line feed. *)
Definition at_end (s : string) : bool :=
  match s with
  | EmptyString => true
  | String c EmptyString => (PyStr.code c =? 10)%nat
  | _ => false
  end.

(** Running a pattern for [fullmatch]: success only at the end of the
    text, else the engine backtracks. *)
Fixpoint run (prog : pattern) (st : mstate) {struct prog} : option mstate :=
  match prog with
  | [] => match rest st with EmptyString => Some st | _ => None end
  | AtBeginning :: k => if (ptr st =? 0)%nat then run k st else None
  | AtEnd :: k => if at_end (rest st) then run k st else None
  | Literal c :: k =>
      match rest st with
      | String d s' =>
          if Ascii.eqb c d then run k (MState (S (ptr st)) s' (marks st))
          else None
      | EmptyString => None
      end
  | Mark i :: k => run k (MState (ptr st) (rest st) ((i, ptr st) :: marks st))
  | Repeat g min cls :: k =>
      repeat_ g min cls (run k) (marks st) (ptr st) (rest st)
  end.

Fixpoint literal (s : string) : pattern :=
  match s with
  | String c s' => Literal c :: literal s'
  | EmptyString => []
  end.

Fixpoint get_mark (i : nat) (mk : list (nat * nat)) : option nat :=
  match mk with
  | (j, p) :: mk' => if (i =? j)%nat then Some p else get_mark i mk'
  | [] => None
  end.

(** A match object: the text and the marks of the successful run. *)
Record Match : Type := MkMatch { text : string; spans : list (nat * nat) }.

Definition fullmatch (prog : pattern) (s : string) : option Match :=
  match run prog (MState 0 s []) with
  | Some st => Some (MkMatch s (marks st))
  | None => None
  end.

(** [m.group(g)] for a group that took part in the match. *)
Definition group (m : Match) (g : nat) : string :=
  match get_mark (2 * g - 2) (spans m), get_mark (2 * g - 1) (spans m) with
  | Some a, Some b => substring a (b - a) (text m)
  | _, _ => ""
  end.

End Re.

(** ** Constants of the script *)

(** [re.compile(r'^(.+?)\s+id:\s+(\d+)\s+type:\s+(.*?)\s*$')] *)
Definition device_matcher_ : Re.pattern :=
  ([Re.AtBeginning;
    Re.Mark 0; Re.Repeat false 1 PyStr.notnewline; Re.Mark 1;
    Re.Repeat true 1 PyStr.isspace]
   ++ Re.literal "id:" ++
   [Re.Repeat true 1 PyStr.isspace;
    Re.Mark 2; Re.Repeat true 1 PyStr.isdigit; Re.Mark 3;
    Re.Repeat true 1 PyStr.isspace]
   ++ Re.literal "type:" ++
   [Re.Repeat true 1 PyStr.isspace;
    Re.Mark 4; Re.Repeat false 0 PyStr.notnewline; Re.Mark 5;
    Re.Repeat true 0 PyStr.isspace;
    Re.AtEnd])%list.

(** ** Values, exceptions and the interaction trace *)

(** What [json.load] can return.  Of a float only its being zero is ever
    observed by the script. *)
#[local] Set Warnings "-register-all".

Inductive json : Type :=
| JNull
| JBool (b : bool)
| JInt (z : Z)
| JFloat (q : Q)
| JStr (s : string)
| JList (l : list json)
| JDict (kv : list (string * json)).

Inductive exn : Type :=
| TypeError
| IndexError
| KeyError
| EOFError
| UnicodeDecodeError        (* captured output that is no text *)
| ValueError                (* a null character in an argument of a process *)
| OSError                   (* a process that cannot be started *)
| SystemExit                (* raised by [exit()] *)
| OutsideModel.             (* a document whose fields are not typed as the data model has them *)

Inductive outcome (A : Type) : Type :=
| Ok (a : A)
| Raise (e : exn)
| OutOfFuel.
Arguments Ok {A} a.
Arguments Raise {A} e.
Arguments OutOfFuel {A}.

(** The result of [subprocess.run(..., capture_output=True, text=True)]. *)
Record CompletedProcess : Type := {
  returncode : Z;
  stdout : string;
  stderr : string
}.

Inductive event : Type :=
| ERun (argv : list string)                       (* a call of [subprocess.run] *)
| EPrint (line : string)                          (* [print] *)
| EInput (prompt : string) (answer : option string). (* [input]; [None] at end of input *)

(** The attempt [open(file_); json.load(_fp)]. *)
Inductive load_result : Type :=
| OpenFails
| DecodeFails
| Loaded (doc : json).

(** An entry of a list of map locations: a [pathlib.Path], a [str] or
    [None]; and the argument of [find_mapping_file_], one [str] or such a
    list. *)
Inductive location : Type :=
| LPath (p : string)          (* a path, by its text *)
| LStr (s : string)
| LNone.

Inductive file_arg : Type :=
| ArgStr (s : string)
| ArgList (l : list location).

(** How a loop body ends: it runs to its end or meets [continue], it
    meets [break], or the function returns. *)
Inductive ctl (R : Type) : Type :=
| Next
| Break
| Return (r : R).
Arguments Next {R}.
Arguments Break {R}.
Arguments Return {R} r.

(** A mapping rule [[property, parameter, expectedValue, label?]] and the
    rule list of a document. *)
Definition rule := list string.
Definition mapping := list rule.

(** ** Pure helpers of the Python runtime *)

(** [k in v] for a [str] key [k]. *)
Definition py_in (k : string) (v : json) : outcome bool :=
  match v with
  | JDict kv => Ok (existsb (fun e => String.eqb k (fst e)) kv)
  | JList l =>
      Ok (existsb (fun x => match x with
                            | JStr s => String.eqb k s
                            | _ => false
                            end) l)
  | JStr s => Ok (match index 0 k s with Some _ => true | None => false end)
  | _ => Raise TypeError
  end.

(** Truth value of a JSON value. *)
Definition py_bool (v : json) : bool :=
  match v with
  | JNull => false
  | JBool b => b
  | JInt z => negb (z =? 0)%Z
  | JFloat q => negb (Qnum q =? 0)%Z
  | JStr s => negb (String.eqb s "")
  | JList l => match l with [] => false | _ => true end
  | JDict kv => match kv with [] => false | _ => true end
  end.

Fixpoint dict_get (k : string) (kv : list (string * json)) : option json :=
  match kv with
  | (k', v) :: kv' => if String.eqb k k' then Some v else dict_get k kv'
  | [] => None
  end.

(** [v[k]] for a [str] key [k]. *)
Definition py_getitem (v : json) (k : string) : outcome json :=
  match v with
  | JDict kv => match dict_get k kv with Some x => Ok x | None => Raise KeyError end
  | _ => Raise TypeError
  end.

(** The typed views of the data model. *)
Definition as_str (v : json) : option string :=
  match v with JStr s => Some s | _ => None end.

Fixpoint as_rule (l : list json) : option rule :=
  match l with
  | [] => Some []
  | x :: l' =>
      match as_str x, as_rule l' with
      | Some s, Some r => Some (s :: r)
      | _, _ => None
      end
  end.

Fixpoint as_rules (l : list json) : option mapping :=
  match l with
  | [] => Some []
  | JList r :: l' =>
      match as_rule r, as_rules l' with
      | Some r', Some m => Some (r' :: m)
      | _, _ => None
      end
  | _ :: _ => None
  end.

Definition as_mapping (v : json) : option mapping :=
  match v with JList l => as_rules l | _ => None end.

(** Binding keyword arguments to a signature: a keyword that names no
    parameter is a [TypeError]. *)
Definition accepts (params kwargs : list string) : bool :=
  forallb (fun k => existsb (String.eqb k) params) kwargs.

(** ** The script over an external world *)

Section Script.

(** The world outside the interpreter: the processes it can start, the
    files it can read and the executables on the search path. *)
Variable World : Type.
Variable subprocess_run : list string -> World -> CompletedProcess * World.

(** When a call of [subprocess.run] raises instead of returning: the
    exception and the world it leaves.  With [text=True] captured output
    that does not decode raises [UnicodeDecodeError] after the process
    has run; an argument with a null character raises [ValueError] and a
    program that cannot be started [OSError], before any process runs. *)
Variable run_raises : list string -> World -> option (exn * World).

Variable load_json : string -> World -> load_result.
Variable is_file : string -> World -> bool.
Variable which : string -> World -> bool.

(** [default_map_locations_], computed once from the home directory,
    the environment variable MY_WACOM_KEYMAP and the script's directory. *)
Variable default_map_locations_ : list location.

Record state : Type := State {
  world : World;
  stdin : list string;        (* the lines still to be read by [input] *)
  trace : list event          (* what happened so far, oldest first *)
}.

Definition M (A : Type) : Type := state -> outcome A * state.

Definition ret {A} (a : A) : M A := fun st => (Ok a, st).

Definition bind {A B} (m : M A) (f : A -> M B) : M B :=
  fun st =>
    match m st with
    | (Ok a, st') => f a st'
    | (Raise e, st') => (Raise e, st')
    | (OutOfFuel, st') => (OutOfFuel, st')
    end.

Definition raise {A} (e : exn) : M A := fun st => (Raise e, st).

Definition lift {A} (o : outcome A) : M A := fun st => (o, st).

Notation "x <- m ;; k" := (bind m (fun x => k))
  (at level 61, m at next level, right associativity).
Notation "m ;; k" := (bind m (fun _ => k))
  (at level 61, right associativity).

Definition log (e : event) (st : state) : state :=
  State (world st) (stdin st) (trace st ++ [e])%list.

(** [subprocess.run(argv, ...)] without [check=True]: the exit status is
    part of the result and raises nothing; the call raises when
    [run_raises] says so. *)
Definition run_ (argv : list string) : M CompletedProcess :=
  fun st =>
    match run_raises argv (world st) with
    | Some (e, w) => (Raise e, State w (stdin st) (trace st ++ [ERun argv])%list)
    | None =>
        let (cp, w) := subprocess_run argv (world st) in
        (Ok cp, State w (stdin st) (trace st ++ [ERun argv])%list)
    end.

Definition print (line : string) : M unit :=
  fun st => (Ok tt, log (EPrint line) st).

(** [input(prompt)]: the next line of standard input, [EOFError] at
    its end. *)
Definition input (prompt : string) : M string :=
  fun st =>
    match stdin st with
    | l :: ls =>
        (Ok l, State (world st) ls (trace st ++ [EInput prompt (Some l)])%list)
    | [] => (Raise EOFError, log (EInput prompt None) st)
    end.

Definition exit {A} : M A := raise SystemExit.

(** [_a[i]] on a list. *)
Definition item (_a : rule) (i : nat) : M string :=
  match nth_error _a i with
  | Some x => ret x
  | None => raise IndexError
  end.

(** [for x in l: body(x)] with no [break] or [return] in the body. *)
Fixpoint for_ {A} (l : list A) (body : A -> M unit) : M unit :=
  match l with
  | [] => ret tt
  | x :: l' => body x ;; for_ l' body
  end.

(** The same, with one local variable assigned in the body. *)
Fixpoint for_var {A V} (l : list A) (v : V) (body : A -> V -> M V) : M V :=
  match l with
  | [] => ret v
  | x :: l' => v' <- body x v ;; for_var l' v' body
  end.

(** [while True: body].  [None] when the loop was left by [break],
    [Some r] when the body returned [r] from the function. *)
Fixpoint while_true {R} (fuel : nat) (body : M (ctl R)) : M (option R) :=
  match fuel with
  | O => fun st => (OutOfFuel, st)
  | S n =>
      c <- body ;;
      match c with
      | Next => while_true n body
      | Break => ret None
      | Return r => ret (Some r)
      end
  end.

(** A call with keyword arguments [kwargs] of a function whose
    parameters are [params]. *)
Definition call {A} (params kwargs : list string) (body : M A) : M A :=
  if accepts params kwargs then body else raise TypeError.

(** *** [get_device_id_] *)

(** The loop over the lines of the listing. *)
Fixpoint get_device_id_for (name_ type_ : string) (lines : list string)
    : option string :=
  match lines with
  | [] => None
  | _c :: lines' =>
      match Re.fullmatch device_matcher_ _c with
      | Some _d =>
          if String.eqb (Re.group _d 1) name_
             && String.eqb (Re.group _d 3) type_
          then Some (Re.group _d 2)
          else get_device_id_for name_ type_ lines'
      | None => get_device_id_for name_ type_ lines'
      end
  end.

Definition get_device_id_ (name_ type_ : string) : M (option string) :=
  _a <- run_ ["xsetwacom"; "--list"; "devices"] ;;
  match get_device_id_for name_ type_ (PyStr.splitlines (stdout _a)) with
  | Some i => ret (Some i)
  | None =>
      print ("Couldn't find device: " ++ name_ ++ ", type: " ++ type_) ;;
      ret None
  end.

(** *** [parse_mapping_file_] *)

Fixpoint parse_mapping_file_for (_a : json) (keys : list string)
    : M (option json) :=
  match keys with
  | [] => ret (Some _a)
  | _b :: keys' =>
      present <- lift (py_in _b _a) ;;
      if negb present then
        print "Map file is missing value: {_b}" ;;
        ret None
      else parse_mapping_file_for _a keys'
  end.

Definition parse_mapping_file_ (file_ : string) : M (option json) :=
  fun st =>
    match load_json file_ (world st) with
    | Loaded _a => parse_mapping_file_for _a ["name"; "type"; "map"] st
    | OpenFails | DecodeFails =>
        (print ("Failed to parse file: " ++ file_) ;; ret None) st
    end.

(** *** [apply_map_] *)

Definition apply_map_params : list string := ["id_"; "map_"].

Definition apply_map_body (id_ : string) (_a : rule) : M unit :=
  a0 <- item _a 0 ;;
  a1 <- item _a 1 ;;
  a2 <- item _a 2 ;;
  run_ ["xsetwacom"; "set"; id_; a0; a1; a2] ;;
  ret tt.

Definition apply_map_ (id_ : string) (map_ : mapping) : M unit :=
  for_ map_ (apply_map_body id_).

(** *** [check_map_] *)

Definition check_map_body (id_ : string) (_a : rule) (_m : bool) : M bool :=
  a0 <- item _a 0 ;;
  a1 <- item _a 1 ;;
  _b <- run_ ["xsetwacom"; "get"; id_; a0; a1] ;;
  a2 <- item _a 2 ;;
  if String.eqb (PyStr.strip (stdout _b)) (PyStr.strip a2) then
    let _c := " YES | " ++ PyStr.ljust 6 a0 ++ " | " ++ PyStr.rjust 2 a1
              ++ " | " ++ PyStr.ljust 25 a2 in
    _c <- (if (4 <=? List.length _a)%nat
           then a3 <- item _a 3 ;; ret (_c ++ " | " ++ a3)
           else ret _c) ;;
    print _c ;;
    ret _m
  else
    print ("> NO | " ++ a0 ++ " " ++ a1 ++ " = " ++ stdout _b
           ++ " | SHOULD BE: " ++ a2) ;;
    ret false.

Definition check_map_ (name_ type_ id_ : string) (map_ : mapping) : M bool :=
  print ("NAME: " ++ name_ ++ PyStr.nl ++ "TYPE: " ++ type_) ;;
  _m <- for_var map_ true (check_map_body id_) ;;
  (if negb _m then print "MAPPING DID NOT MATCH!" else print "ALL GOOD!") ;;
  ret _m.

(** *** [configure_map_] *)

Definition apply_prompt : string :=
  PyStr.nl ++ "Would you like to apply this map? (y/n): ".

(** The body of the inner loop: one prompt and the reaction to the
    answer. *)
Definition configure_map_ask (id_ : string) (map_ : mapping) : M (ctl bool) :=
  _b <- input apply_prompt ;;
  if String.eqb _b "y" then
    call apply_map_params ["id_"; "map_"; "name_"; "type_"]
         (apply_map_ id_ map_) ;;
    ret Break
  else if String.eqb _b "n" then ret (Return false)
  else ret Next.

(** The body of the outer loop: a Checking pass, then the prompt loop
    when some rule mismatched. *)
Definition configure_map_turn (fuel : nat) (name_ type_ id_ : string)
    (map_ : mapping) : M (ctl bool) :=
  _a <- check_map_ name_ type_ id_ map_ ;;
  if _a then ret (Return true)
  else
    r <- while_true fuel (configure_map_ask id_ map_) ;;
    match r with
    | Some v => ret (Return v)
    | None => ret Next
    end.

(** [None] stands for control falling off the end of the function. *)
Definition configure_map_ (fuel : nat) (name_ type_ id_ : string)
    (map_ : mapping) : M (option bool) :=
  while_true fuel (configure_map_turn fuel name_ type_ id_ map_).

(** *** [find_mapping_file_] *)

(** [pathlib.Path(_a)] leaves a path as it is and normalises a [str];
    the path is what [is_file] is asked about and what is returned. *)
Fixpoint find_mapping_file_for (l : list location) : M (option string) :=
  match l with
  | [] => print "No mapping file." ;; ret None
  | _a :: l' =>
      match _a with
      | LNone => find_mapping_file_for l'
      | LStr "" => find_mapping_file_for l'
      | LStr s =>
          let _b := PyPath.text s in
          fun st =>
            if is_file _b (world st) then (Ok (Some _b), st)
            else find_mapping_file_for l' st
      | LPath _b =>
          fun st =>
            if is_file _b (world st) then (Ok (Some _b), st)
            else find_mapping_file_for l' st
      end
  end.

Definition find_mapping_file_ (map_location_list_ : file_arg)
    : M (option string) :=
  find_mapping_file_for
    match map_location_list_ with
    | ArgStr s => [LStr s]
    | ArgList l => l
    end.

(** *** The script *)

(** [arg] is the optional positional argument as [argparse] delivers it. *)
Definition script_ (fuel : nat) (arg : option string) : M unit :=
  found <- (fun st => (Ok (which "xsetwacom" (world st)), st)) ;;
  (if negb found
   then print "Couldn't find executable: xsetwacom" ;; exit
   else ret tt) ;;
  let args_file_ :=
    match arg with
    | Some s => ArgStr s
    | None => ArgList default_map_locations_
    end in
  file_ <- find_mapping_file_ args_file_ ;;
  match file_ with
  | None => exit
  | Some file_ =>
      dict_ <- parse_mapping_file_ file_ ;;
      match dict_ with
      | None => exit
      | Some dict_ =>
          if negb (py_bool dict_) then exit
          else
            name_ <- lift (py_getitem dict_ "name") ;;
            type_ <- lift (py_getitem dict_ "type") ;;
            match as_str name_, as_str type_ with
            | Some name_, Some type_ =>
                id_ <- get_device_id_ name_ type_ ;;
                match id_ with
                | None => exit
                | Some id_ =>
                    if String.eqb id_ "" then exit
                    else
                      map_ <- lift (py_getitem dict_ "map") ;;
                      match as_mapping map_ with
                      | Some map_ =>
                          configure_map_ fuel name_ type_ id_ map_ ;;
                          ret tt
                      | None => raise OutsideModel
                      end
                end
            | _, _ => raise OutsideModel
            end
      end
  end.

End Script.

Arguments State {World} world stdin trace.
Arguments ret {World A} a _.
Arguments bind {World A B} m f _.
Arguments raise {World A} e _.
Arguments lift {World A} o _.
Arguments log {World} e st.
Arguments print {World} line _.
Arguments input {World} prompt _.
Arguments exit {World A} _.
Arguments item {World} _a i _.
Arguments for_ {World A} l body.
Arguments for_var {World A V} l v body.
Arguments while_true {World R} fuel body.
Arguments call {World A} params kwargs body.
Arguments world {World} s.
Arguments stdin {World} s.
Arguments trace {World} s.

(** The worlds in which every call of [subprocess.run] returns. *)
Definition returns_always {World : Type} (argv : list string) (w : World)
    : option (exn * World) := None.

(** ** Vocabulary of the specification *)

(** The components of the specification as they show in the trace: the
    State Reader is a run of [xsetwacom get], the State Writer a run of
    [xsetwacom set], the apply prompt a call of [input]. *)
Definition is_reader (e : event) : bool :=
  match e with
  | ERun (tool :: verb :: _) => String.eqb tool "xsetwacom" && String.eqb verb "get"
  | _ => false
  end.

Definition is_writer (e : event) : bool :=
  match e with
  | ERun (tool :: verb :: _) => String.eqb tool "xsetwacom" && String.eqb verb "set"
  | _ => false
  end.

Definition is_prompt (e : event) : bool :=
  match e with EInput _ _ => true | _ => false end.

(** Events of the Reconciler: reads, writes and prompts. *)
Definition is_reconciler (e : event) : bool :=
  is_reader e || is_writer e || is_prompt e.

(** Events of a Checking pass: reads and printed rows. *)
Definition is_audit (e : event) : bool :=
  match e with
  | EPrint _ => true
  | _ => is_reader e
  end.

(** The two kinds of row of the audit, told by their first column. *)
Definition is_yes_row (e : event) : bool :=
  match e with EPrint row => prefix " YES |" row | _ => false end.

Definition is_no_row (e : event) : bool :=
  match e with EPrint row => prefix "> NO |" row | _ => false end.

(** An answer at the apply prompt that is neither accept nor decline. *)
Definition other_answer (a : string) : bool :=
  negb (String.eqb a "y") && negb (String.eqb a "n").

Definition prompted (answers : list string) : list event :=
  map (fun a => EInput apply_prompt (Some a)) answers.

Definition get_cmd (id_ p q : string) : list string :=
  ["xsetwacom"; "get"; id_; p; q].

Definition set_cmd (id_ p q v : string) : list string :=
  ["xsetwacom"; "set"; id_; p; q; v].

Definition list_cmd : list string := ["xsetwacom"; "--list"; "devices"].

(** What the State Writer is to send for a rule. *)
Definition writer_event (id_ : string) (r : rule) : event :=
  ERun (set_cmd id_ (nth 0 r "") (nth 1 r "") (nth 2 r "")).

(** A rule list whose rules all have property, parameter and value. *)
Definition well_shaped (map_ : mapping) : Prop :=
  Forall (fun r : rule => 3 <= List.length r) map_.

(** The rows of the audit. *)
Definition yes_row (p q e : string) (label : list string) : string :=
  let _c := " YES | " ++ PyStr.ljust 6 p ++ " | " ++ PyStr.rjust 2 q ++ " | "
            ++ PyStr.ljust 25 e in
  match label with
  | [] => _c
  | l :: _ => _c ++ " | " ++ l
  end.

Definition no_row (p q e observed : string) : string :=
  "> NO | " ++ p ++ " " ++ q ++ " = " ++ observed ++ " | SHOULD BE: " ++ e.

(** A line of the listing as the Device Locator parses it. *)
Definition parse_device_line (l : string) : option (string * string * string) :=
  match Re.fullmatch device_matcher_ l with
  | Some m => Some (Re.group m 1, Re.group m 2, Re.group m 3)
  | None => None
  end.

Section Checking.

Variable World : Type.
Variable subprocess_run : list string -> World -> CompletedProcess * World.

(** Trimmed observed value against trimmed expected value. *)
Definition rule_matches (e : string) (cp : CompletedProcess) : bool :=
  String.eqb (PyStr.strip (stdout cp)) (PyStr.strip e).

(** Every rule matches when read in document order from [w]. *)
Fixpoint all_matched (id_ : string) (map_ : mapping) (w : World) : bool :=
  match map_ with
  | [] => true
  | (p :: q :: e :: _) :: map' =>
      let (cp, w') := subprocess_run (get_cmd id_ p q) w in
      rule_matches e cp && all_matched id_ map' w'
  | _ :: _ => false
  end.

(** The listing as [get_device_id_] sees it from a state. *)
Definition listed (st : state World) : list string :=
  PyStr.splitlines (stdout (fst (subprocess_run list_cmd (world st)))).

End Checking.

(** ** A simulated tablet, to run the script on concrete inputs *)

Module Sim.

Record tablet : Type := Tablet {
  listing : string;                               (* output of the device listing *)
  settings : list (string * string * string);     (* property, parameter, value *)
  get_status : Z;                                 (* exit status of [get] *)
  files : list (string * load_result);
  tool_installed : bool
}.

Fixpoint lookup (p q : string) (l : list (string * string * string)) : string :=
  match l with
  | (p', q', v) :: l' =>
      if String.eqb p p' && String.eqb q q' then v else lookup p q l'
  | [] => ""
  end.

Definition completed (code : Z) (out : string) : CompletedProcess :=
  {| returncode := code; stdout := out; stderr := "" |}.

Definition subprocess_run (argv : list string) (w : tablet)
    : CompletedProcess * tablet :=
  match argv with
  | [_; "--list"; "devices"] => (completed 0 (listing w), w)
  | [_; "get"; _; p; q] =>
      (completed (get_status w) (lookup p q (settings w)), w)
  | [_; "set"; _; p; q; v] =>
      (completed 0 "",
       Tablet (listing w) ((p, q, v) :: settings w) (get_status w)
              (files w) (tool_installed w))
  | _ => (completed 2 "", w)
  end.

Fixpoint load_json (f : string) (l : list (string * load_result)) : load_result :=
  match l with
  | (f', r) :: l' => if String.eqb f f' then r else load_json f l'
  | [] => OpenFails
  end.

Fixpoint is_file (f : string) (l : list (string * load_result)) : bool :=
  match l with
  | (f', _) :: l' => String.eqb f f' || is_file f l'
  | [] => false
  end.

Definition M := M tablet.

(** On the simulated tablet every call of [subprocess.run] returns. *)
Definition check_map_body := check_map_body tablet subprocess_run returns_always.
Definition check_map_ := check_map_ tablet subprocess_run returns_always.
Definition apply_map_ := apply_map_ tablet subprocess_run returns_always.
Definition configure_map_ := configure_map_ tablet subprocess_run returns_always.
Definition get_device_id_ := get_device_id_ tablet subprocess_run returns_always.
Definition parse_mapping_file_ :=
  parse_mapping_file_ tablet (fun f w => load_json f (files w)).
Definition script_ :=
  script_ tablet subprocess_run returns_always
    (fun f w => load_json f (files w))
    (fun f w => is_file f (files w))
    (fun _ w => tool_installed w)
    [LPath "/home/user/.config/my-stuff/wacom-keymap.json"; LNone;
     LPath "/opt/wacom-keymapper/default.json"].

(** The end-to-end scenario of the specification: one rule, device X of
    type PAD listed with id 7, button 1 currently sending key b. *)
Definition scenario_doc : json :=
  JDict [("name", JStr "X"); ("type", JStr "PAD");
         ("map", JList [JList [JStr "Button"; JStr "1"; JStr "key a"]])].

Definition scenario_map : mapping := [["Button"; "1"; "key a"]].

Definition scenario_files : list (string * load_result) :=
  [("map.json", Loaded scenario_doc);
   ("five.json", Loaded (JInt 5));
   ("list.json", Loaded (JList [JStr "name"; JStr "type"; JStr "map"]));
   ("broken.json", DecodeFails)].

Definition scenario : tablet :=
  Tablet ("X  id: 7  type: PAD" ++ PyStr.nl)
         [("Button", "1", "key b" ++ PyStr.nl)] 0 scenario_files true.

(** The same tablet with button 1 already sending key a. *)
Definition converged : tablet :=
  Tablet ("X  id: 7  type: PAD" ++ PyStr.nl)
         [("Button", "1", "key a" ++ PyStr.nl)] 0 scenario_files true.

(** A tablet whose [get] prints the expected value and exits with
    status 1. *)
Definition failing_reader : tablet :=
  Tablet ("X  id: 7  type: PAD" ++ PyStr.nl)
         [("Button", "1", "key a" ++ PyStr.nl)] 1 scenario_files true.

(** A tablet whose [get] prints nothing and exits with status 1. *)
Definition silent_failure : tablet :=
  Tablet ("X  id: 7  type: PAD" ++ PyStr.nl) [] 1 scenario_files true.

(** The rule of the scenario with a label. *)
Definition labelled_map : mapping := [["Button"; "1"; "key a"; "undo"]].

(** A tablet whose [get] prints the value followed by one space. *)
Definition padded : tablet :=
  Tablet ("X  id: 7  type: PAD" ++ PyStr.nl)
         [("Button", "1", "3 ")] 0 scenario_files true.


(** A listing with lines that are no device lines around the device. *)
Definition noisy : tablet :=
  Tablet ("List of devices" ++ PyStr.nl ++ "X  id: seven  type: PAD"
          ++ PyStr.nl ++ "X  id: 7  type: PAD" ++ PyStr.nl ++ "--")
         [] 0 scenario_files true.

Definition start (w : tablet) (answers : list string) : state tablet :=
  State w answers [].

End Sim.

(** ** Vocabulary for the properties of the other functions *)

(** Every character of a text is in a class. *)
Fixpoint all_chars (cls : ascii -> bool) (s : string) : bool :=
  match s with
  | String c s' => cls c && all_chars cls s'
  | EmptyString => true
  end.

Definition not_colon (c : ascii) : bool := negb (Ascii.eqb c ":").

(** A text that is empty or starts outside a class. *)
Definition outside (cls : ascii -> bool) (s : string) : bool :=
  match s with
  | String c _ => negb (cls c)
  | EmptyString => true
  end.

(** A text that is empty or ends outside a class. *)
Fixpoint ends_outside (cls : ascii -> bool) (s : string) : bool :=
  match s with
  | String c s' =>
      match s' with
      | EmptyString => negb (cls c)
      | String _ _ => ends_outside cls s'
      end
  | EmptyString => true
  end.

(** Trimming as the specification has it, said without [str.strip]:
    [t] is [s] with leading and trailing white space removed when [s]
    is [t] between two runs of white space, and [t] neither starts nor
    ends with white space. *)
Definition trims_to (s t : string) : Prop :=
  exists a b,
    s = a ++ t ++ b
    /\ all_chars PyStr.isspace a = true
    /\ all_chars PyStr.isspace b = true
    /\ outside PyStr.isspace t = true
    /\ ends_outside PyStr.isspace t = true.

(** Two texts that are equal once trimmed. *)
Definition same_trimmed (s e : string) : Prop :=
  exists core, trims_to s core /\ trims_to e core.

(** A pattern matches a text to its end, wherever the text starts. *)
Definition accepted (prog : Re.pattern) (s : string) : Prop :=
  forall p mk, Re.run prog (Re.MState p s mk) <> None.

(** The paths that [find_mapping_file_] looks at, from the entries of a
    location list: [None] and the empty [str] are passed over, any other
    [str] is made a path. *)
Definition candidate (l : location) : option string :=
  match l with
  | LNone => None
  | LStr "" => None
  | LStr s => Some (PyPath.text s)
  | LPath p => Some p
  end.

Fixpoint candidates (l : list location) : list string :=
  match l with
  | [] => []
  | x :: l' =>
      match candidate x with
      | Some p => p :: candidates l'
      | None => candidates l'
      end
  end.

Definition is_process (e : event) : bool :=
  match e with ERun _ => true | _ => false end.

(** The processes started, in order. *)
Definition processes (evs : list event) : list event := filter is_process evs.

Definition no_writer (evs : list event) : bool :=
  forallb (fun e => negb (is_writer e)) evs.

Definition is_listing (e : event) : bool :=
  match e with
  | ERun [tool; a; b] =>
      String.eqb tool "xsetwacom" && String.eqb a "--list"
      && String.eqb b "devices"
  | _ => false
  end.

(** An event that is no process, or a process that only asks: the
    listing or a State Reader call. *)
Definition harmless (e : event) : bool :=
  negb (is_process e) || is_reader e || is_listing e.

(** The argument of [find_mapping_file_] in the script: the positional
    argument when there is one, else the list of default locations. *)
Definition args_file_ (default_map_locations_ : list location)
    (arg : option string) : file_arg :=
  match arg with
  | Some s => ArgStr s
  | None => ArgList default_map_locations_
  end.

(** A computation that, however it ends, adds only harmless events. *)
Definition writes_nothing {World A : Type} (m : M World A) : Prop :=
  forall st : state World,
  exists evs,
    trace (snd (m st)) = (trace st ++ evs)%list
    /\ forallb harmless evs = true.

(** What the State Reader is to ask for a rule. *)
Definition reader_event (id_ : string) (r : rule) : event :=
  ERun (get_cmd id_ (nth 0 r "") (nth 1 r "")).

(** The last line of the audit. *)
Definition verdict_line (ok : bool) : string :=
  if ok then "ALL GOOD!" else "MAPPING DID NOT MATCH!".

Section Reading.

Variable World : Type.
Variable subprocess_run : list string -> World -> CompletedProcess * World.
Variable run_raises : list string -> World -> option (exn * World).

(** Every State Reader call of a Checking pass that starts in [w]
    returns: no call of [subprocess.run] raises.  A rule without value
    ends the pass after its read, a rule without parameter before it. *)
Fixpoint reads_return (id_ : string) (map_ : mapping) (w : World) : bool :=
  match map_ with
  | [] => true
  | (p :: q :: rest) :: map' =>
      match run_raises (get_cmd id_ p q) w with
      | Some _ => false
      | None =>
          match rest with
          | [] => true
          | _ :: _ =>
              reads_return id_ map' (snd (subprocess_run (get_cmd id_ p q) w))
          end
      end
  | _ :: _ => true
  end.

End Reading.

(** More runs of the simulated tablet. *)
Module Bench.

Definition no_tool : Sim.tablet :=
  Sim.Tablet ("X  id: 7  type: PAD" ++ PyStr.nl)
             [("Button", "1", "key b" ++ PyStr.nl)] 0 Sim.scenario_files false.

(** A tablet whose [get] prints the bare value 3. *)
Definition plain : Sim.tablet :=
  Sim.Tablet ("X  id: 7  type: PAD" ++ PyStr.nl)
             [("Button", "1", "3")] 0 Sim.scenario_files true.

(** Two rules, the second with a label. *)
Definition two_rules : mapping :=
  [["Button"; "1"; "key a"]; ["Button"; "2"; "key b"; "undo"]].

(** A rule list whose second rule lacks its value. *)
Definition short_map : mapping := [["Button"; "1"; "key a"]; ["Button"; "2"]].

(** A tablet whose [get] prints bytes that are no text: the call of
    [subprocess.run] raises once the process has run. *)
Definition garbled_get (argv : list string) (w : Sim.tablet)
    : option (exn * Sim.tablet) :=
  match argv with
  | [_; "get"; _; _; _] => Some (UnicodeDecodeError, w)
  | _ => None
  end.

Definition garbled_check_map_body :=
  check_map_body Sim.tablet Sim.subprocess_run garbled_get.

Definition garbled_script_ :=
  script_ Sim.tablet Sim.subprocess_run garbled_get
    (fun f w => Sim.load_json f (Sim.files w))
    (fun f w => Sim.is_file f (Sim.files w))
    (fun _ w => Sim.tool_installed w)
    [].

(** Candidate locations: nothing, a file that is absent, the scenario's
    file written with a leading [./], another file. *)
Definition locations : list location :=
  [LNone; LStr ""; LPath "/home/user/.config/my-stuff/wacom-keymap.json";
   LStr "./map.json"; LPath "five.json"].

End Bench.

(** ** Text lemmas *)

Lemma append_assoc (s1 s2 s3 : string) : (s1 ++ s2) ++ s3 = s1 ++ (s2 ++ s3).
Proof. induction s1 as [|c s1 IH]; cbn; [reflexivity | now rewrite IH]. Qed.

Lemma append_empty_r (s : string) : s ++ "" = s.
Proof. induction s as [|c s IH]; cbn; [reflexivity | now rewrite IH]. Qed.

Lemma length_append (s1 s2 : string) :
  String.length (s1 ++ s2) = String.length s1 + String.length s2.
Proof. induction s1 as [|c s1 IH]; cbn; [reflexivity | now rewrite IH]. Qed.

Lemma substring_whole (s t : string) :
  substring 0 (String.length s) (s ++ t) = s.
Proof. induction s as [|c s IH]; cbn; [now destruct t | now rewrite IH]. Qed.

Lemma substring_skip (a s : string) (n : nat) :
  substring (String.length a) n (a ++ s) = substring 0 n s.
Proof. induction a as [|c a IH]; cbn; [reflexivity | exact IH]. Qed.

Lemma substring_middle (a b c : string) :
  substring (String.length a) (String.length b) (a ++ b ++ c) = b.
Proof. rewrite substring_skip. apply substring_whole. Qed.

Lemma all_chars_append (cls : ascii -> bool) (s t : string) :
  all_chars cls (s ++ t) = all_chars cls s && all_chars cls t.
Proof.
  induction s as [|c s IH]; cbn; [reflexivity|].
  now rewrite IH, andb_assoc.
Qed.

(** *** White space around the values *)

Lemma lstrip_space (ws s : string) :
  all_chars PyStr.isspace ws = true ->
  PyStr.lstrip (ws ++ s) = PyStr.lstrip s.
Proof.
  induction ws as [|c ws IH]; cbn; [reflexivity|].
  intros H. apply andb_prop in H as [Hc Hws]. rewrite Hc. now apply IH.
Qed.

Lemma rstrip_space (ws : string) :
  all_chars PyStr.isspace ws = true -> PyStr.rstrip ws = "".
Proof.
  induction ws as [|c ws IH]; cbn; [reflexivity|].
  intros H. apply andb_prop in H as [Hc Hws]. now rewrite (IH Hws), Hc.
Qed.

Lemma rstrip_append_space (s ws : string) :
  all_chars PyStr.isspace ws = true ->
  PyStr.rstrip (s ++ ws) = PyStr.rstrip s.
Proof.
  intros H. induction s as [|c s IH]; cbn [append PyStr.rstrip].
  - now apply rstrip_space.
  - now rewrite IH.
Qed.

Lemma lstrip_all_space (ws : string) :
  all_chars PyStr.isspace ws = true -> PyStr.lstrip ws = "".
Proof.
  induction ws as [|c ws IH]; cbn; [reflexivity|].
  intros H. apply andb_prop in H as [Hc Hws]. rewrite Hc. now apply IH.
Qed.

Lemma strip_padding (a s b : string) :
  all_chars PyStr.isspace a = true ->
  all_chars PyStr.isspace b = true ->
  PyStr.strip (a ++ s ++ b) = PyStr.strip s.
Proof.
  intros Ha Hb. unfold PyStr.strip. rewrite (lstrip_space a _ Ha).
  clear a Ha. induction s as [|c s IH]; cbn [append].
  - rewrite (lstrip_all_space b Hb). reflexivity.
  - cbn [PyStr.lstrip]. destruct (PyStr.isspace c); [exact IH|].
    apply (rstrip_append_space (String c s) b Hb).
Qed.

(** *** Trimming is what [str.strip] does *)

Lemma lstrip_split (s : string) :
  exists a,
    s = a ++ PyStr.lstrip s
    /\ all_chars PyStr.isspace a = true
    /\ outside PyStr.isspace (PyStr.lstrip s) = true.
Proof.
  induction s as [|c s (a & Hs & Ha & Ho)].
  - exists "". repeat split.
  - cbn [PyStr.lstrip]. destruct (PyStr.isspace c) eqn:Hc.
    + exists (String c a). cbn [append all_chars]. rewrite Hc, Ha.
      repeat split; [now rewrite <- Hs | exact Ho].
    + exists "". cbn [append all_chars outside]. now rewrite Hc.
Qed.

Lemma rstrip_split (s : string) :
  exists b,
    s = PyStr.rstrip s ++ b
    /\ all_chars PyStr.isspace b = true
    /\ ends_outside PyStr.isspace (PyStr.rstrip s) = true.
Proof.
  induction s as [|c s (b & Hs & Hb & Ho)].
  - exists "". repeat split.
  - cbn [PyStr.rstrip]. destruct (PyStr.rstrip s) as [|d r] eqn:R.
    + cbn [append] in Hs. subst b.
      destruct (PyStr.isspace c) eqn:Hc.
      * exists (String c s). cbn [append all_chars]. now rewrite Hc, Hb.
      * exists s. cbn [append ends_outside]. now rewrite Hc, Hb.
    + exists b. cbn [append] in *. rewrite <- Hs.
      repeat split; [exact Hb | exact Ho].
Qed.

Lemma rstrip_outside (s : string) :
  outside PyStr.isspace s = true ->
  outside PyStr.isspace (PyStr.rstrip s) = true.
Proof.
  destruct s as [|c s]; [reflexivity|]. cbn [outside PyStr.rstrip].
  intros Hc. apply negb_true_iff in Hc.
  destruct (PyStr.rstrip s); rewrite ?Hc; cbn [outside]; now rewrite Hc.
Qed.

Lemma lstrip_fixed (t : string) :
  outside PyStr.isspace t = true -> PyStr.lstrip t = t.
Proof.
  destruct t as [|c t]; [reflexivity|]. cbn [outside PyStr.lstrip].
  intros Hc. apply negb_true_iff in Hc. now rewrite Hc.
Qed.

Lemma rstrip_fixed (t : string) :
  ends_outside PyStr.isspace t = true -> PyStr.rstrip t = t.
Proof.
  induction t as [|c t IH]; [reflexivity|].
  cbn [ends_outside PyStr.rstrip]. destruct t as [|d t].
  - intros Hc. apply negb_true_iff in Hc. cbn [PyStr.rstrip]. now rewrite Hc.
  - intros H. now rewrite (IH H).
Qed.

(** White space among the ASCII characters: the blank and the five
    controls from tab to carriage return, and no printable character. *)
Lemma isspace_ascii (c : ascii) :
  ((9 <= PyStr.code c <= 13 \/ PyStr.code c = 32) -> PyStr.isspace c = true)
  /\ (33 <= PyStr.code c <= 126 -> PyStr.isspace c = false).
Proof.
  unfold PyStr.isspace. split; intros H.
  - rewrite !orb_true_iff, !andb_true_iff, !Nat.leb_le, !Nat.eqb_eq. lia.
  - apply not_true_is_false.
    rewrite !orb_true_iff, !andb_true_iff, !Nat.leb_le, !Nat.eqb_eq. lia.
Qed.

(** [str.strip] trims, and nothing else does. *)
Lemma strip_trims (s : string) : trims_to s (PyStr.strip s).
Proof.
  unfold PyStr.strip.
  destruct (lstrip_split s) as (a & Hs & Ha & Ho).
  destruct (rstrip_split (PyStr.lstrip s)) as (b & Hl & Hb & He).
  exists a, b. repeat split; try assumption.
  - now rewrite <- Hl.
  - now apply rstrip_outside.
Qed.

Lemma trims_strip (s t : string) : trims_to s t -> PyStr.strip s = t.
Proof.
  intros (a & b & -> & Ha & Hb & Ho & He).
  rewrite (strip_padding a t b Ha Hb). unfold PyStr.strip.
  now rewrite (lstrip_fixed t Ho), (rstrip_fixed t He).
Qed.

Lemma same_trimmed_strip (s e : string) :
  same_trimmed s e <-> PyStr.strip s = PyStr.strip e.
Proof.
  split.
  - intros (core & Hs & He).
    now rewrite (trims_strip s core Hs), (trims_strip e core He).
  - intros H. exists (PyStr.strip s). split; [apply strip_trims|].
    rewrite H. apply strip_trims.
Qed.

(** ** The Checking pass and the State Writer *)

Section Reconciler.

Variable World : Type.
Variable subprocess_run : list string -> World -> CompletedProcess * World.

(** In this section every call of [subprocess.run] returns; the calls
    that raise are the matter of Section [ReaderFailure]. *)

#[local] Abbreviation check_map_body := (check_map_body World subprocess_run returns_always).
#[local] Abbreviation check_map_ := (check_map_ World subprocess_run returns_always).
#[local] Abbreviation apply_map_ := (apply_map_ World subprocess_run returns_always).
#[local] Abbreviation apply_map_body := (apply_map_body World subprocess_run returns_always).
#[local] Abbreviation configure_map_ := (configure_map_ World subprocess_run returns_always).
#[local] Abbreviation configure_map_turn := (configure_map_turn World subprocess_run returns_always).
#[local] Abbreviation configure_map_ask := (configure_map_ask World subprocess_run returns_always).
#[local] Abbreviation all_matched := (all_matched World subprocess_run).
#[local] Abbreviation state := (state World).

(** One turn of the loop of [check_map_] on a rule with its three
    elements: one read, one row, and the flag lowered on a mismatch. *)
Lemma check_map_body_run (id_ p q e : string) (label : list string)
    (_m : bool) (st : state) :
  check_map_body id_ (p :: q :: e :: label) _m st =
  let cp := fst (subprocess_run (get_cmd id_ p q) (world st)) in
  (Ok (if rule_matches e cp then _m else false),
   State (snd (subprocess_run (get_cmd id_ p q) (world st))) (stdin st)
     (trace st ++ [ERun (get_cmd id_ p q);
                   EPrint (if rule_matches e cp then yes_row p q e label
                           else no_row p q e (stdout cp))])%list).
Proof.
  unfold check_map_body, bind, item, run_, returns_always, print, ret, log,
    rule_matches, get_cmd.
  cbn [nth_error world stdin trace].
  destruct (subprocess_run _ (world st)) as [cp w]; cbn [fst snd].
  destruct (String.eqb (PyStr.strip (stdout cp)) (PyStr.strip e)).
  - destruct label as [|l label]; cbn [List.length Nat.leb nth_error];
      cbn [world stdin trace]; rewrite <- app_assoc; reflexivity.
  - cbn [world stdin trace]; rewrite <- app_assoc; reflexivity.
Qed.

(** The whole loop of [check_map_] on well-shaped rules: it reads, prints
    and computes [all_matched]. *)
Lemma check_loop_run (id_ : string) (map_ : mapping) :
  well_shaped map_ ->
  forall (_m : bool) (st : state),
  exists w' evs,
    for_var map_ _m (check_map_body id_) st =
      (Ok (_m && all_matched id_ map_ (world st)),
       State w' (stdin st) (trace st ++ evs)%list)
    /\ forallb is_audit evs = true.
Proof.
  induction 1 as [|r map_ Hr Hmap IH]; intros _m st.
  - exists (world st), []. cbn. rewrite app_nil_r, andb_true_r.
    destruct st; auto.
  - destruct r as [|p [|q [|e label]]]; cbn in Hr; try lia.
    cbn [for_var]. unfold bind at 1. rewrite check_map_body_run.
    cbv zeta. cbn [all_matched].
    destruct (subprocess_run (get_cmd id_ p q) (world st)) as [cp w] eqn:E.
    cbn [fst snd].
    match goal with |- context [for_var map_ ?m _ ?s] =>
      destruct (IH m s) as (w' & evs & Heq & Hev) end.
    rewrite Heq. cbn [world stdin trace].
    exists w'. eexists. split.
    + rewrite <- app_assoc. f_equal.
      destruct (rule_matches e cp); cbn; [reflexivity|].
      now rewrite andb_false_r.
    + cbn [app forallb]. now rewrite Hev.
Qed.

Lemma all_matched_well_shaped (id_ : string) (map_ : mapping) :
  forall w, all_matched id_ map_ w = true -> well_shaped map_.
Proof.
  induction map_ as [|r map_ IH]; intros w H; [constructor|].
  destruct r as [|p [|q [|e label]]];
    cbn [all_matched] in H; try discriminate.
  destruct (subprocess_run (get_cmd id_ p q) w) as [cp w'].
  apply andb_prop in H as [_ H].
  constructor; [cbn; lia | exact (IH w' H)].
Qed.

(** [check_map_] on well-shaped rules. *)
Lemma check_map__run (name_ type_ id_ : string) (map_ : mapping) (st : state) :
  well_shaped map_ ->
  exists w' evs,
    check_map_ name_ type_ id_ map_ st =
      (Ok (all_matched id_ map_ (world st)),
       State w' (stdin st) (trace st ++ evs)%list)
    /\ forallb is_audit evs = true.
Proof.
  intros Hws. unfold check_map_.
  unfold bind at 1. unfold print at 1. unfold bind at 1.
  destruct (check_loop_run id_ map_ Hws true
              (log (EPrint ("NAME: " ++ name_ ++ PyStr.nl ++ "TYPE: " ++ type_)) st))
    as (w' & evs & Heq & Hev).
  rewrite Heq. cbn [andb log world stdin trace].
  exists w'.
  exists ([EPrint ("NAME: " ++ name_ ++ PyStr.nl ++ "TYPE: " ++ type_)]
          ++ evs
          ++ [EPrint (if all_matched id_ map_ (world st)
                      then "ALL GOOD!" else "MAPPING DID NOT MATCH!")])%list.
  split.
  - destruct (all_matched id_ map_ (world st));
      cbn [negb]; unfold bind, print, ret, log; cbn [world stdin trace];
      rewrite <- !app_assoc; reflexivity.
  - cbn [app forallb is_audit]. rewrite forallb_app, Hev. reflexivity.
Qed.

(** *** The prompt loop *)

Lemma ask_other (id_ : string) (map_ : mapping) (st : state) a rest :
  stdin st = a :: rest ->
  other_answer a = true ->
  configure_map_ask id_ map_ st =
    (Ok Next, State (world st) rest (trace st ++ prompted [a])%list).
Proof.
  intros Hin Ha. unfold other_answer in Ha.
  apply andb_prop in Ha as [Hy Hn].
  apply negb_true_iff in Hy, Hn.
  unfold configure_map_ask, bind, input.
  rewrite Hin, Hy, Hn. reflexivity.
Qed.

Lemma ask_decline (id_ : string) (map_ : mapping) (st : state) rest :
  stdin st = "n" :: rest ->
  configure_map_ask id_ map_ st =
    (Ok (Return false),
     State (world st) rest (trace st ++ prompted ["n"])%list).
Proof.
  intros Hin. unfold configure_map_ask, bind, input.
  rewrite Hin. reflexivity.
Qed.

(** The call of [apply_map_] passes the keywords [name_] and [type_],
    which [apply_map_] does not have: the call raises before the body of
    [apply_map_] runs. *)
Lemma ask_accept (id_ : string) (map_ : mapping) (st : state) rest :
  stdin st = "y" :: rest ->
  configure_map_ask id_ map_ st =
    (Raise TypeError,
     State (world st) rest (trace st ++ prompted ["y"])%list).
Proof.
  intros Hin. unfold configure_map_ask, bind, input.
  rewrite Hin. reflexivity.
Qed.

Lemma prompt_loop_decline (id_ : string) (map_ : mapping) (junk : list string) :
  forall (fuel : nat) (st : state) (rest : list string),
  forallb other_answer junk = true ->
  List.length junk < fuel ->
  stdin st = (junk ++ "n" :: rest)%list ->
  while_true fuel (configure_map_ask id_ map_) st =
    (Ok (Some false),
     State (world st) rest (trace st ++ prompted (junk ++ ["n"]))%list).
Proof.
  induction junk as [|a junk IH]; intros fuel st rest Hj Hf Hin;
    destruct fuel as [|fuel]; cbn [List.length] in Hf; try lia;
    cbn [while_true]; unfold bind at 1.
  - rewrite (ask_decline id_ map_ st rest Hin). reflexivity.
  - cbn [forallb] in Hj. apply andb_prop in Hj as [Ha Hj].
    rewrite (ask_other id_ map_ st a (junk ++ "n" :: rest)%list Hin Ha).
    rewrite (IH fuel _ rest Hj); [|lia|reflexivity].
    cbn [world trace]. rewrite <- app_assoc. reflexivity.
Qed.

Lemma prompt_loop_accept (id_ : string) (map_ : mapping) (junk : list string) :
  forall (fuel : nat) (st : state) (rest : list string),
  forallb other_answer junk = true ->
  List.length junk < fuel ->
  stdin st = (junk ++ "y" :: rest)%list ->
  while_true fuel (configure_map_ask id_ map_) st =
    (Raise TypeError,
     State (world st) rest (trace st ++ prompted (junk ++ ["y"]))%list).
Proof.
  induction junk as [|a junk IH]; intros fuel st rest Hj Hf Hin;
    destruct fuel as [|fuel]; cbn [List.length] in Hf; try lia;
    cbn [while_true]; unfold bind at 1.
  - rewrite (ask_accept id_ map_ st rest Hin). reflexivity.
  - cbn [forallb] in Hj. apply andb_prop in Hj as [Ha Hj].
    rewrite (ask_other id_ map_ st a (junk ++ "y" :: rest)%list Hin Ha).
    rewrite (IH fuel _ rest Hj); [|lia|reflexivity].
    cbn [world trace]. rewrite <- app_assoc. reflexivity.
Qed.

(** The prompt loop cannot be left by [break], and it ends as soon as the
    fuel exceeds the number of answers left. *)
Lemma prompt_loop_total (id_ : string) (map_ : mapping) :
  forall (fuel : nat) (st : state),
  List.length (stdin st) < fuel ->
  fst (while_true fuel (configure_map_ask id_ map_) st) <> OutOfFuel
  /\ fst (while_true fuel (configure_map_ask id_ map_) st) <> Ok None.
Proof.
  induction fuel as [|fuel IH]; intros st Hf; [lia|].
  cbn [while_true]. unfold bind.
  destruct (stdin st) as [|a rest] eqn:Hin.
  - unfold configure_map_ask, bind, input. rewrite Hin.
    cbn. split; discriminate.
  - destruct (String.eqb a "y") eqn:Hy.
    + apply String.eqb_eq in Hy. subst a.
      rewrite (ask_accept id_ map_ st rest Hin). cbn. split; discriminate.
    + destruct (String.eqb a "n") eqn:Hn.
      * apply String.eqb_eq in Hn. subst a.
        rewrite (ask_decline id_ map_ st rest Hin). cbn. split; discriminate.
      * rewrite (ask_other id_ map_ st a rest Hin)
          by (unfold other_answer; now rewrite Hy, Hn).
        apply IH. cbn in *. lia.
Qed.

(** One turn of the outer loop of [configure_map_]. *)
Lemma configure_map_turn_run (fuel : nat) (name_ type_ id_ : string)
    (map_ : mapping) (st : state) :
  configure_map_turn fuel name_ type_ id_ map_ st =
  match check_map_ name_ type_ id_ map_ st with
  | (Ok true, st1) => (Ok (Return true), st1)
  | (Ok false, st1) =>
      match while_true fuel (configure_map_ask id_ map_) st1 with
      | (Ok (Some v), st2) => (Ok (Return v), st2)
      | (Ok None, st2) => (Ok Next, st2)
      | (Raise e, st2) => (Raise e, st2)
      | (OutOfFuel, st2) => (OutOfFuel, st2)
      end
  | (Raise e, st1) => (Raise e, st1)
  | (OutOfFuel, st1) => (OutOfFuel, st1)
  end.
Proof.
  unfold configure_map_turn. unfold bind at 1.
  destruct (check_map_ name_ type_ id_ map_ st) as [[[|]|e|] st1];
    try reflexivity.
  unfold bind at 1.
  destruct (while_true fuel (configure_map_ask id_ map_) st1)
    as [[[v|]|e|] st2]; reflexivity.
Qed.

Lemma configure_map__step (fuel : nat) (name_ type_ id_ : string)
    (map_ : mapping) (st : state) :
  configure_map_ (S fuel) name_ type_ id_ map_ st =
  match configure_map_turn (S fuel) name_ type_ id_ map_ st with
  | (Ok Next, st1) =>
      while_true fuel (configure_map_turn (S fuel) name_ type_ id_ map_) st1
  | (Ok Break, st1) => (Ok None, st1)
  | (Ok (Return r), st1) => (Ok (Some r), st1)
  | (Raise e, st1) => (Raise e, st1)
  | (OutOfFuel, st1) => (OutOfFuel, st1)
  end.
Proof.
  unfold configure_map_. cbn [while_true]. unfold bind at 1.
  destruct (configure_map_turn (S fuel) name_ type_ id_ map_ st)
    as [[[| |r]|e|] st1]; reflexivity.
Qed.

(** *** Claims on the Reconciler *)

(** C2. When every rule's trimmed observed value equals its trimmed
    expected value, [configure_map_] returns [True] after exactly one
    Checking pass: nothing is read from the console, and no event of the
    run is a prompt or a State Writer call. *)
Theorem converged_on_first_pass (fuel : nat) (name_ type_ id_ : string)
    (map_ : mapping) (st : state) :
  all_matched id_ map_ (world st) = true ->
  exists st' evs,
    configure_map_ (S fuel) name_ type_ id_ map_ st = (Ok (Some true), st')
    /\ st' = snd (check_map_ name_ type_ id_ map_ st)
    /\ stdin st' = stdin st
    /\ trace st' = (trace st ++ evs)%list
    /\ forallb (fun e => negb (is_prompt e) && negb (is_writer e)) evs = true.
Proof.
  intros Hall.
  destruct (check_map__run name_ type_ id_ map_ st
              (all_matched_well_shaped id_ map_ _ Hall))
    as (w' & evs & Heq & Hev).
  rewrite Hall in Heq.
  exists (State w' (stdin st) (trace st ++ evs)%list), evs.
  rewrite configure_map__step, configure_map_turn_run, Heq.
  cbn [snd stdin trace].
  repeat split.
  rewrite forallb_forall in *. intros e He. specialize (Hev e He).
  destruct e as [[|tool [|verb argv]]| |]; cbn in *; try reflexivity;
    try discriminate.
  apply andb_prop in Hev as [Ht Hv]. rewrite Ht. cbn.
  apply String.eqb_eq in Hv. subst verb. reflexivity.
Qed.

(** C3. When some rule mismatches and the user declines (after any
    number of answers that are neither y nor n), [configure_map_] returns
    [False]; from the end of the Checking pass on, the only events are the
    prompts, and the device is left as the Checking pass left it. *)
Theorem declined_leaves_device_alone (fuel : nat) (name_ type_ id_ : string)
    (map_ : mapping) (st : state) (others rest : list string) :
  well_shaped map_ ->
  all_matched id_ map_ (world st) = false ->
  forallb other_answer others = true ->
  List.length others < fuel ->
  stdin st = (others ++ "n" :: rest)%list ->
  let checked := snd (check_map_ name_ type_ id_ map_ st) in
  configure_map_ fuel name_ type_ id_ map_ st =
    (Ok (Some false),
     State (world checked) rest
           (trace checked ++ prompted (others ++ ["n"]))%list)
  /\ forallb is_prompt (prompted (others ++ ["n"])) = true.
Proof.
  intros Hws Hall Hj Hf Hin checked. subst checked.
  destruct fuel as [|fuel]; [lia|].
  destruct (check_map__run name_ type_ id_ map_ st Hws)
    as (w' & evs & Heq & Hev).
  rewrite Hall in Heq.
  rewrite configure_map__step, configure_map_turn_run, Heq. cbn [snd].
  rewrite (prompt_loop_decline id_ map_ others (S fuel)
             (State w' (stdin st) (trace st ++ evs)%list) rest Hj Hf Hin).
  split; [reflexivity|].
  unfold prompted. rewrite forallb_forall. intros e He.
  apply in_map_iff in He as (a & <- & _). reflexivity.
Qed.

(** C4. On a rule with its three elements the Checking pass prints a YES
    row exactly when the observed value with leading and trailing white
    space removed equals the expected value with leading and trailing
    white space removed, and a NO row (lowering the flag) otherwise.
    Removing is meant as the specification has it, not as the code does
    it: the two texts share a core that neither starts nor ends with
    white space and differ from it by white space before and after only.
    That is the test of [str.strip], which trims both values; white
    space is, among the ASCII characters, the blank and the controls
    from tab to carriage return.  An observed value "3 " matches the
    expected value "3". *)
Theorem check_compares_trimmed_text (id_ p q e : string)
    (label : list string) (_m : bool) (st : state)
    (cp : CompletedProcess) (w' : World) :
  subprocess_run (get_cmd id_ p q) (world st) = (cp, w') ->
  exists row,
    check_map_body id_ (p :: q :: e :: label) _m st =
      (Ok (if is_yes_row row then _m else false),
       State w' (stdin st) (trace st ++ [ERun (get_cmd id_ p q); row])%list)
    /\ (is_yes_row row = true <->
        exists core, trims_to (stdout cp) core /\ trims_to e core)
    /\ (is_no_row row = true <->
        ~ exists core, trims_to (stdout cp) core /\ trims_to e core)
    /\ (is_yes_row row = true <-> PyStr.strip (stdout cp) = PyStr.strip e)
    /\ (is_no_row row = true <-> PyStr.strip (stdout cp) <> PyStr.strip e)
    /\ trims_to (stdout cp) (PyStr.strip (stdout cp))
    /\ trims_to e (PyStr.strip e)
    /\ (forall c, (9 <= PyStr.code c <= 13 \/ PyStr.code c = 32) ->
                  PyStr.isspace c = true)
    /\ (forall c, 33 <= PyStr.code c <= 126 -> PyStr.isspace c = false)
    /\ (stdout cp = "3 " -> e = "3" -> is_yes_row row = true).
Proof.
  intros Hrun. rewrite check_map_body_run, Hrun. cbn [fst snd].
  unfold rule_matches.
  pose proof (fun c => proj1 (isspace_ascii c)) as Hsp.
  pose proof (fun c => proj2 (isspace_ascii c)) as Hpr.
  pose proof (same_trimmed_strip (stdout cp) e) as Hcore.
  unfold same_trimmed in Hcore.
  pose proof (strip_trims (stdout cp)) as Hs.
  pose proof (strip_trims e) as He.
  destruct (String.eqb_spec (PyStr.strip (stdout cp)) (PyStr.strip e)) as [E|E].
  - exists (EPrint (yes_row p q e label)).
    assert (Hy : is_yes_row (EPrint (yes_row p q e label)) = true)
      by (destruct label; reflexivity).
    assert (Hn : is_no_row (EPrint (yes_row p q e label)) = false)
      by (destruct label; reflexivity).
    rewrite Hy, Hn. apply Hcore in E.
    repeat split; auto; try discriminate; tauto.
  - exists (EPrint (no_row p q e (stdout cp))).
    assert (Hy : is_yes_row (EPrint (no_row p q e (stdout cp))) = false)
      by reflexivity.
    assert (Hn : is_no_row (EPrint (no_row p q e (stdout cp))) = true)
      by reflexivity.
    rewrite Hy, Hn.
    repeat split; auto; try discriminate; try tauto.
    intros H3 H4. subst e. rewrite H3 in E. now contradiction E.
Qed.

(** *** Claims on the State Writer *)

Lemma apply_map__labels (id_ : string) (map_ : mapping) :
  forall st : state,
  apply_map_ id_ map_ st = apply_map_ id_ (map (firstn 3) map_) st.
Proof.
  unfold apply_map_.
  induction map_ as [|r map_ IH]; intros st; [reflexivity|].
  cbn [map for_]. unfold bind.
  assert (Hr : apply_map_body id_ (firstn 3 r) st = apply_map_body id_ r st)
    by (destruct r as [|a [|b [|c r']]]; reflexivity).
  rewrite Hr.
  destruct (apply_map_body id_ r st) as [[[]|e|] s1]; try reflexivity.
  apply IH.
Qed.
Lemma apply_map_body_run (id_ p q e : string) (label : list string)
    (st : state) :
  apply_map_body id_ (p :: q :: e :: label) st =
    (Ok tt,
     State (snd (subprocess_run (set_cmd id_ p q e) (world st))) (stdin st)
           (trace st ++ [ERun (set_cmd id_ p q e)])%list).
Proof.
  unfold apply_map_body, bind, item, run_, returns_always, ret, set_cmd.
  cbn [nth_error].
  destruct (subprocess_run _ (world st)); reflexivity.
Qed.

Lemma apply_map__run (id_ : string) (map_ : mapping) :
  well_shaped map_ ->
  forall st : state,
  exists w',
    apply_map_ id_ map_ st =
      (Ok tt, State w' (stdin st) (trace st ++ map (writer_event id_) map_)%list).
Proof.
  unfold apply_map_.
  induction 1 as [|r map_ Hr Hmap IH]; intros st.
  - exists (world st). cbn. rewrite app_nil_r. destruct st; reflexivity.
  - destruct r as [|p [|q [|e label]]]; cbn in Hr; try lia.
    cbn [for_ map]. unfold bind at 1. rewrite apply_map_body_run.
    match goal with |- context [for_ map_ _ ?s] =>
      destruct (IH s) as (w' & Heq) end.
    exists w'. rewrite Heq. cbn [stdin trace].
    rewrite <- app_assoc. reflexivity.
Qed.

(** C10. [apply_map_] sends to [xsetwacom set] the device id and the
    first three elements of each rule and nothing else: a rule list and
    the same list cut to three elements per rule behave alike, and on
    well-shaped rules the run is exactly one set command per rule, each
    with property, parameter and expected value. *)
Theorem writer_sends_first_three (id_ : string) (map_ : mapping) (st : state) :
  apply_map_ id_ map_ st = apply_map_ id_ (map (firstn 3) map_) st
  /\ (well_shaped map_ ->
      exists w',
        apply_map_ id_ map_ st =
          (Ok tt,
           State w' (stdin st) (trace st ++ map (writer_event id_) map_)%list)).
Proof.
  split; [apply apply_map__labels | intros H; now apply apply_map__run].
Qed.

(** *** The accept branch *)

(** Accepting the prompt ends [configure_map_] with the [TypeError] of
    the call of [apply_map_]; nothing is written. *)
Lemma accept_raises (fuel : nat) (name_ type_ id_ : string)
    (map_ : mapping) (st : state) (others rest : list string) :
  well_shaped map_ ->
  all_matched id_ map_ (world st) = false ->
  forallb other_answer others = true ->
  List.length others < fuel ->
  stdin st = (others ++ "y" :: rest)%list ->
  let checked := snd (check_map_ name_ type_ id_ map_ st) in
  configure_map_ fuel name_ type_ id_ map_ st =
    (Raise TypeError,
     State (world checked) rest
           (trace checked ++ prompted (others ++ ["y"]))%list).
Proof.
  intros Hws Hall Hj Hf Hin checked. subst checked.
  destruct fuel as [|fuel]; [lia|].
  destruct (check_map__run name_ type_ id_ map_ st Hws)
    as (w' & evs & Heq & Hev).
  rewrite Hall in Heq.
  rewrite configure_map__step, configure_map_turn_run, Heq. cbn [snd].
  rewrite (prompt_loop_accept id_ map_ others (S fuel)
             (State w' (stdin st) (trace st ++ evs)%list) rest Hj Hf Hin).
  reflexivity.
Qed.

(** *** Enough fuel *)

Lemma check_map_body_stdin (id_ : string) (r : rule) (_m : bool) (st : state) :
  stdin (snd (check_map_body id_ r _m st)) = stdin st.
Proof.
  destruct r as [|p [|q [|e label]]]; try reflexivity.
  - unfold check_map_body, bind, item, run_, returns_always. cbn [nth_error].
    unfold ret at 1 2. cbn [nth_error].
    destruct (subprocess_run _ (world st)); reflexivity.
  - rewrite check_map_body_run. reflexivity.
Qed.

Lemma check_loop_stdin (id_ : string) (map_ : mapping) :
  forall (_m : bool) (st : state),
  stdin (snd (for_var map_ _m (check_map_body id_) st)) = stdin st.
Proof.
  induction map_ as [|r map_ IH]; intros _m st; [reflexivity|].
  cbn [for_var]. unfold bind.
  pose proof (check_map_body_stdin id_ r _m st) as H.
  destruct (check_map_body id_ r _m st) as [[b|e|] s1]; cbn [snd] in *;
    try assumption.
  rewrite IH. assumption.
Qed.

Lemma check_map__stdin (name_ type_ id_ : string) (map_ : mapping) (st : state) :
  stdin (snd (check_map_ name_ type_ id_ map_ st)) = stdin st.
Proof.
  unfold check_map_. unfold bind at 1. unfold print at 1.
  unfold bind at 1.
  match goal with |- context [for_var map_ true _ ?s] =>
    pose proof (check_loop_stdin id_ map_ true s) as H;
    destruct (for_var map_ true (check_map_body id_) s) as [[b|e|] s1]
  end; cbn [snd log stdin] in *; try assumption.
  destruct b; exact H.
Qed.

Lemma check_loop_fuel (id_ : string) (map_ : mapping) :
  forall (_m : bool) (st : state),
  fst (for_var map_ _m (check_map_body id_) st) <> OutOfFuel.
Proof.
  induction map_ as [|r map_ IH]; intros _m st; [discriminate|].
  cbn [for_var]. unfold bind.
  destruct (check_map_body id_ r _m st) as [[b|e|] s1] eqn:E.
  - apply IH.
  - discriminate.
  - exfalso. revert E.
    destruct r as [|p [|q [|e' label]]]; try discriminate.
    + unfold check_map_body, bind, item, run_, returns_always.
      cbn [nth_error]. unfold ret at 1 2.
      destruct (subprocess_run _ (world st)); discriminate.
    + rewrite check_map_body_run. discriminate.
Qed.

Lemma check_map__fuel (name_ type_ id_ : string) (map_ : mapping) (st : state) :
  fst (check_map_ name_ type_ id_ map_ st) <> OutOfFuel.
Proof.
  unfold check_map_. unfold bind at 1. unfold print at 1.
  unfold bind at 1.
  match goal with |- context [for_var map_ true _ ?s] =>
    pose proof (check_loop_fuel id_ map_ true s) as H;
    destruct (for_var map_ true (check_map_body id_) s) as [[b|e|] s1]
  end; cbn [fst] in *; try discriminate; try congruence.
  destruct b; discriminate.
Qed.

(** The fuel stands for nothing in the program: whenever it exceeds the
    number of lines left on the console, [configure_map_] ends by a
    return or an exception, whatever the rules and the device. *)
Lemma configure_map__total (fuel : nat) (name_ type_ id_ : string)
    (map_ : mapping) (st : state) :
  List.length (stdin st) < fuel ->
  fst (configure_map_ fuel name_ type_ id_ map_ st) <> OutOfFuel
  /\ fst (configure_map_ fuel name_ type_ id_ map_ st) <> Ok None.
Proof.
  intros Hf. destruct fuel as [|fuel]; [lia|].
  rewrite configure_map__step, configure_map_turn_run.
  pose proof (check_map__stdin name_ type_ id_ map_ st) as Hin.
  pose proof (check_map__fuel name_ type_ id_ map_ st) as Hck.
  destruct (check_map_ name_ type_ id_ map_ st) as [[[|]|e|] st1];
    cbn [snd fst] in *; try (split; discriminate); try congruence.
  rewrite <- Hin in Hf.
  destruct (prompt_loop_total id_ map_ (S fuel) st1 Hf) as [H1 H2].
  destruct (while_true (S fuel) (configure_map_ask id_ map_) st1)
    as [[[v|]|e|] st2]; cbn [fst] in *; try (split; discriminate);
    congruence.
Qed.

(** *** The Checking pass reads every rule *)

Lemma check_loop_reads (id_ : string) (map_ : mapping) :
  well_shaped map_ ->
  forall (_m : bool) (st : state),
  exists w' evs,
    for_var map_ _m (check_map_body id_) st =
      (Ok (_m && all_matched id_ map_ (world st)),
       State w' (stdin st) (trace st ++ evs)%list)
    /\ processes evs = map (reader_event id_) map_
    /\ List.length evs = 2 * List.length map_.
Proof.
  induction 1 as [|r map_ Hr Hmap IH]; intros _m st.
  - exists (world st), []. cbn. rewrite app_nil_r, andb_true_r.
    destruct st; auto.
  - destruct r as [|p [|q [|e label]]]; cbn in Hr; try lia.
    cbn [for_var]. unfold bind at 1.
    rewrite check_map_body_run.
    cbv zeta. cbn [all_matched].
    destruct (subprocess_run (get_cmd id_ p q) (world st)) as [cp w] eqn:E.
    cbn [fst snd].
    match goal with |- context [for_var map_ ?m _ ?s] =>
      destruct (IH m s) as (w' & evs & Heq & Hp & Hl) end.
    rewrite Heq. cbn [world stdin trace].
    exists w'. eexists. split; [|split].
    + rewrite <- app_assoc. f_equal.
      destruct (rule_matches e cp); cbn; [reflexivity|].
      now rewrite andb_false_r.
    + cbn [app processes filter is_process map]. fold (processes evs).
      rewrite Hp. reflexivity.
    + cbn [app List.length]. rewrite Hl. lia.
Qed.

End Reconciler.

(** ** A State Reader call that fails *)

Section ReaderFailure.

Variable World : Type.
Variable subprocess_run : list string -> World -> CompletedProcess * World.
Variable run_raises : list string -> World -> option (exn * World).

#[local] Abbreviation returning_body :=
  (check_map_body World subprocess_run returns_always).
#[local] Abbreviation returning_check_map_ :=
  (check_map_ World subprocess_run returns_always).
#[local] Abbreviation check_map_body :=
  (check_map_body World subprocess_run run_raises).
#[local] Abbreviation check_map_ := (check_map_ World subprocess_run run_raises).
#[local] Abbreviation configure_map_ :=
  (configure_map_ World subprocess_run run_raises).
#[local] Abbreviation configure_map_turn :=
  (configure_map_turn World subprocess_run run_raises).
#[local] Abbreviation configure_map_ask :=
  (configure_map_ask World subprocess_run run_raises).
#[local] Abbreviation all_matched := (all_matched World subprocess_run).
#[local] Abbreviation reads_return :=
  (reads_return World subprocess_run run_raises).
#[local] Abbreviation state := (state World).

(** A read that raises ends the turn of the loop, and with it the
    Checking pass, with its exception. *)
Lemma check_map_body_raises (id_ p q : string) (rest : list string)
    (_m : bool) (st : state) (e : exn) (w : World) :
  run_raises (get_cmd id_ p q) (world st) = Some (e, w) ->
  check_map_body id_ (p :: q :: rest) _m st =
    (Raise e,
     State w (stdin st) (trace st ++ [ERun (get_cmd id_ p q)])%list).
Proof.
  intros H.
  cbv [check_map_body bind item run_ ret nth_error get_cmd] in *.
  rewrite H. reflexivity.
Qed.

(** A read that returns: the turn is the one of a world in which every
    call returns. *)
Lemma check_map_body_returns (id_ p q : string) (rest : list string)
    (_m : bool) (st : state) :
  run_raises (get_cmd id_ p q) (world st) = None ->
  check_map_body id_ (p :: q :: rest) _m st =
  returning_body id_ (p :: q :: rest) _m st.
Proof.
  intros H.
  cbv [check_map_body bind item run_ ret nth_error get_cmd
       returns_always] in *.
  rewrite H. reflexivity.
Qed.

Lemma check_loop_returns (id_ : string) (map_ : mapping) :
  forall (_m : bool) (st : state),
  reads_return id_ map_ (world st) = true ->
  for_var map_ _m (check_map_body id_) st =
  for_var map_ _m (returning_body id_) st.
Proof.
  induction map_ as [|r map_ IH]; intros _m st H; [reflexivity|].
  cbn [for_var]. unfold bind.
  destruct r as [|p [|q rest]]; try reflexivity.
  cbn [reads_return] in H.
  destruct (run_raises (get_cmd id_ p q) (world st)) eqn:R; [discriminate|].
  rewrite (check_map_body_returns id_ p q rest _m st R).
  destruct rest as [|e label].
  - cbv [check_map_body bind item run_ ret nth_error returns_always raise].
    destruct (subprocess_run _ (world st)); reflexivity.
  - rewrite (check_map_body_run World subprocess_run). cbv zeta.
    apply IH. exact H.
Qed.

Lemma check_map__returns (name_ type_ id_ : string) (map_ : mapping)
    (st : state) :
  reads_return id_ map_ (world st) = true ->
  check_map_ name_ type_ id_ map_ st =
  returning_check_map_ name_ type_ id_ map_ st.
Proof.
  intros H. unfold check_map_.
  unfold bind at 1 3. unfold print at 1 3. unfold bind at 1 2.
  rewrite (check_loop_returns id_ map_ true
             (log (EPrint ("NAME: " ++ name_ ++ PyStr.nl ++ "TYPE: " ++ type_))
                  st) H).
  reflexivity.
Qed.

Lemma while_true_step {R : Type} (n : nat) (body : M World (ctl R))
    (st : state) :
  while_true (S n) body st =
  match body st with
  | (Ok Next, st1) => while_true n body st1
  | (Ok Break, st1) => (Ok None, st1)
  | (Ok (Return r), st1) => (Ok (Some r), st1)
  | (Raise e, st1) => (Raise e, st1)
  | (OutOfFuel, st1) => (OutOfFuel, st1)
  end.
Proof.
  cbn [while_true]. unfold bind.
  destruct (body st) as [[[| |r]|e|] st1]; reflexivity.
Qed.

(** C8, as amended.  A State Reader call that exits with a nonzero
    status or produces unexpected output does not abort the run as long
    as the call of [subprocess.run] returns, which it does unless the
    output is no text: then the call raises, the Checking pass ends with
    that exception and so does the run.  The exit status is never looked
    at.  A call that returns is reported as a mismatch for its rule
    exactly when its output with leading and trailing white space
    removed differs from the expected value with leading and trailing
    white space removed, and lowers the flag; otherwise the flag of the
    other rules is passed on.  When every read of a pass returns, the
    pass reads every rule, prints the verdict, and [configure_map_]
    goes on to return or to prompt as after any pass. *)
Theorem reader_failure_judged_by_output (fuel : nat)
    (name_ type_ id_ : string) (map_ : mapping) (st : state) :
  (forall (p q e : string) (label : list string) (_m : bool) (s : state)
          (cp : CompletedProcess) (w' : World),
     run_raises (get_cmd id_ p q) (world s) = None ->
     subprocess_run (get_cmd id_ p q) (world s) = (cp, w') ->
     exists row,
       check_map_body id_ (p :: q :: e :: label) _m s =
         (Ok (if is_no_row row then false else _m),
          State w' (stdin s) (trace s ++ [ERun (get_cmd id_ p q); row])%list)
       /\ (is_no_row row = true <->
           ~ exists core, trims_to (stdout cp) core /\ trims_to e core)
       /\ (is_no_row row = false <->
           exists core, trims_to (stdout cp) core /\ trims_to e core))
  /\ (forall (p q : string) (rest : list string) (_m : bool) (s : state)
             (ex : exn) (w' : World),
        run_raises (get_cmd id_ p q) (world s) = Some (ex, w') ->
        check_map_body id_ (p :: q :: rest) _m s =
          (Raise ex,
           State w' (stdin s) (trace s ++ [ERun (get_cmd id_ p q)])%list))
  /\ (well_shaped map_ ->
      reads_return id_ map_ (world st) = true ->
      exists checked evs,
        check_map_ name_ type_ id_ map_ st =
          (Ok (all_matched id_ map_ (world st)), checked)
        /\ stdin checked = stdin st
        /\ trace checked =
             (trace st
              ++ [EPrint ("NAME: " ++ name_ ++ PyStr.nl ++ "TYPE: " ++ type_)]
              ++ evs
              ++ [EPrint (verdict_line (all_matched id_ map_ (world st)))])%list
        /\ processes evs = map (reader_event id_) map_
        /\ configure_map_ (S fuel) name_ type_ id_ map_ st =
             if all_matched id_ map_ (world st)
             then (Ok (Some true), checked)
             else
               match while_true (S fuel) (configure_map_ask id_ map_) checked
               with
               | (Ok (Some v), st2) => (Ok (Some v), st2)
               | (Ok None, st2) =>
                   while_true fuel
                     (configure_map_turn (S fuel) name_ type_ id_ map_) st2
               | (Raise ex, st2) => (Raise ex, st2)
               | (OutOfFuel, st2) => (OutOfFuel, st2)
               end).
Proof.
  split; [|split].
  - intros p q e label _m s cp w' Hret Hrun.
    rewrite (check_map_body_returns id_ p q (e :: label) _m s Hret).
    rewrite (check_map_body_run World subprocess_run), Hrun. cbn [fst snd].
    unfold rule_matches.
    pose proof (same_trimmed_strip (stdout cp) e) as Hcore.
    unfold same_trimmed in Hcore.
    destruct (String.eqb_spec (PyStr.strip (stdout cp)) (PyStr.strip e))
      as [E|E].
    + exists (EPrint (yes_row p q e label)).
      assert (Hn : is_no_row (EPrint (yes_row p q e label)) = false)
        by (destruct label; reflexivity).
      rewrite Hn. apply Hcore in E.
      repeat split; auto; try discriminate; tauto.
    + exists (EPrint (no_row p q e (stdout cp))).
      assert (Hn : is_no_row (EPrint (no_row p q e (stdout cp))) = true)
        by reflexivity.
      rewrite Hn.
      repeat split; auto; try discriminate; tauto.
  - intros p q rest _m s ex w' Hraise.
    now apply check_map_body_raises.
  - intros Hws Hret.
    assert (Hpass : exists w1 evs,
              check_map_ name_ type_ id_ map_ st =
                (Ok (all_matched id_ map_ (world st)),
                 State w1 (stdin st)
                   (trace st
                    ++ [EPrint ("NAME: " ++ name_ ++ PyStr.nl
                                ++ "TYPE: " ++ type_)]
                    ++ evs
                    ++ [EPrint (verdict_line
                                  (all_matched id_ map_ (world st)))])%list)
              /\ processes evs = map (reader_event id_) map_).
    { rewrite (check_map__returns name_ type_ id_ map_ st Hret).
      unfold check_map_.
      unfold bind at 1. unfold print at 1. unfold bind at 1.
      destruct (check_loop_reads World subprocess_run id_ map_ Hws true
                  (log (EPrint ("NAME: " ++ name_ ++ PyStr.nl
                                ++ "TYPE: " ++ type_)) st))
        as (w1 & evs & Heq & Hp & _).
      rewrite Heq. cbn [andb log world stdin trace].
      exists w1, evs. split; [|exact Hp].
      destruct (all_matched id_ map_ (world st));
        cbn [negb verdict_line]; unfold bind, print, ret, log;
        cbn [world stdin trace]; rewrite <- !app_assoc; reflexivity. }
    destruct Hpass as (w1 & evs & Heq & Hp).
    eexists. exists evs.
    split; [exact Heq|]. split; [reflexivity|]. split; [reflexivity|].
    split; [exact Hp|].
    unfold configure_map_. rewrite while_true_step.
    unfold configure_map_turn at 1. unfold bind at 1. rewrite Heq.
    destruct (all_matched id_ map_ (world st)); [reflexivity|].
    unfold bind at 1.
    match goal with |- context [while_true (S fuel) ?b ?s] =>
      destruct (while_true (S fuel) b s) as [[[v|]|ex|] st2]
    end; reflexivity.
Qed.

End ReaderFailure.

(** ** The Device Locator and the Mapping Source *)

Lemma dict_get_in (k : string) (kv : list (string * json)) (v : json) :
  dict_get k kv = Some v ->
  existsb (fun e => String.eqb k (fst e)) kv = true.
Proof.
  induction kv as [|[k' v'] kv IH]; cbn; [discriminate|].
  destruct (String.eqb k k'); [reflexivity|exact IH].
Qed.

Lemma in_dict_get (k : string) (kv : list (string * json)) :
  existsb (fun e => String.eqb k (fst e)) kv = true ->
  exists v, dict_get k kv = Some v.
Proof.
  induction kv as [|[k' v'] kv IH]; cbn; [discriminate|].
  destruct (String.eqb k k'); [eauto|exact IH].
Qed.

(** The loop of [get_device_id_] as a search through the parsed lines. *)
Lemma get_device_id_for_cons (name_ type_ l : string) (lines : list string) :
  get_device_id_for name_ type_ (l :: lines) =
  match parse_device_line l with
  | Some (n, i, t) =>
      if String.eqb n name_ && String.eqb t type_ then Some i
      else get_device_id_for name_ type_ lines
  | None => get_device_id_for name_ type_ lines
  end.
Proof.
  unfold parse_device_line. cbn [get_device_id_for].
  destruct (Re.fullmatch device_matcher_ l); reflexivity.
Qed.

Lemma first_match_found (name_ type_ : string) (lines : list string) (i : string) :
  get_device_id_for name_ type_ lines = Some i <->
  exists before l after,
    lines = (before ++ l :: after)%list
    /\ parse_device_line l = Some (name_, i, type_)
    /\ forall l', In l' before ->
         forall i', parse_device_line l' <> Some (name_, i', type_).
Proof.
  induction lines as [|l lines IH].
  - split; [discriminate|].
    intros (before & l & after & H & _). destruct before; discriminate.
  - rewrite get_device_id_for_cons.
    destruct (parse_device_line l) as [[[n j] t]|] eqn:P.
    + destruct (String.eqb_spec n name_) as [En|En];
        [destruct (String.eqb_spec t type_) as [Et|Et]|]; cbn [andb].
      * subst n t. split.
        -- intros [= <-]. exists [], l, lines.
           repeat split; auto; try now intros l' [].
        -- intros (before & l0 & after & H & P0 & Hb).
           destruct before as [|b before]; cbn in H; injection H as <- ->.
           ++ congruence.
           ++ exfalso. apply (Hb l (or_introl eq_refl) j). exact P.
      * rewrite IH. split.
        -- intros (before & l0 & after & -> & P0 & Hb).
           exists (l :: before), l0, after. repeat split; auto.
           intros l' [<-|Hin]; [congruence|auto].
        -- intros (before & l0 & after & H & P0 & Hb).
           destruct before as [|b before]; cbn in H; injection H as <- ->.
           ++ congruence.
           ++ exists before, l0, after. repeat split; auto.
              intros l' Hin. apply Hb. now right.
      * rewrite IH. split.
        -- intros (before & l0 & after & -> & P0 & Hb).
           exists (l :: before), l0, after. repeat split; auto.
           intros l' [<-|Hin]; [congruence|auto].
        -- intros (before & l0 & after & H & P0 & Hb).
           destruct before as [|b before]; cbn in H; injection H as <- ->.
           ++ congruence.
           ++ exists before, l0, after. repeat split; auto.
              intros l' Hin. apply Hb. now right.
    + rewrite IH. split.
      * intros (before & l0 & after & -> & P0 & Hb).
        exists (l :: before), l0, after. repeat split; auto.
        intros l' [<-|Hin]; [congruence|auto].
      * intros (before & l0 & after & H & P0 & Hb).
        destruct before as [|b before]; cbn in H; injection H as <- ->.
        -- congruence.
        -- exists before, l0, after. repeat split; auto.
           intros l' Hin. apply Hb. now right.
Qed.

Lemma no_match_found (name_ type_ : string) (lines : list string) :
  get_device_id_for name_ type_ lines = None <->
  forall l i, In l lines -> parse_device_line l <> Some (name_, i, type_).
Proof.
  induction lines as [|l lines IH].
  - split; [intros _ l i []|reflexivity].
  - rewrite get_device_id_for_cons.
    destruct (parse_device_line l) as [[[n j] t]|] eqn:P.
    + destruct (String.eqb_spec n name_) as [En|En];
        [destruct (String.eqb_spec t type_) as [Et|Et]|]; cbn [andb].
      * subst n t. split; [discriminate|].
        intros H. exfalso. apply (H l j (or_introl eq_refl)). exact P.
      * rewrite IH. split.
        -- intros H l' i [<-|Hin]; [congruence|auto].
        -- intros H l' i Hin. apply H. now right.
      * rewrite IH. split.
        -- intros H l' i [<-|Hin]; [congruence|auto].
        -- intros H l' i Hin. apply H. now right.
    + rewrite IH. split.
      * intros H l' i [<-|Hin]; [congruence|auto].
      * intros H l' i Hin. apply H. now right.
Qed.

Section Run.

Variable World : Type.
Variable subprocess_run : list string -> World -> CompletedProcess * World.
Variable load_json : string -> World -> load_result.
Variable is_file : string -> World -> bool.
Variable which : string -> World -> bool.
Variable default_map_locations_ : list location.

(** In this section every call of [subprocess.run] returns. *)

#[local] Abbreviation get_device_id_ := (get_device_id_ World subprocess_run returns_always).
#[local] Abbreviation parse_mapping_file_ := (parse_mapping_file_ World load_json).
#[local] Abbreviation find_mapping_file_ := (find_mapping_file_ World is_file).
#[local] Abbreviation script_ :=
  (script_ World subprocess_run returns_always load_json is_file which default_map_locations_).
#[local] Abbreviation state := (state World).
#[local] Abbreviation listed := (listed World subprocess_run).

Lemma get_device_id__run (name_ type_ : string) (st : state) :
  get_device_id_ name_ type_ st =
  let after := State (snd (subprocess_run list_cmd (world st))) (stdin st)
                     (trace st ++ [ERun list_cmd])%list in
  match get_device_id_for name_ type_ (listed st) with
  | Some i => (Ok (Some i), after)
  | None =>
      (Ok None,
       log (EPrint ("Couldn't find device: " ++ name_ ++ ", type: " ++ type_))
           after)
  end.
Proof.
  unfold get_device_id_, listed, bind, run_, returns_always, list_cmd.
  destruct (subprocess_run _ (world st)) as [cp w]. cbn [fst snd].
  destruct (get_device_id_for name_ type_ (PyStr.splitlines (stdout cp)));
    reflexivity.
Qed.

(** A file given on the command line is looked for, and returned, as
    the path made of it. *)
Lemma find_given_file (f : string) (st : state) :
  f <> "" ->
  is_file (PyPath.text f) (world st) = true ->
  find_mapping_file_ (ArgStr f) st = (Ok (Some (PyPath.text f)), st).
Proof.
  intros Hf Hfile. unfold find_mapping_file_.
  destruct f as [|c f]; [congruence|].
  cbn [find_mapping_file_for]. cbv zeta. now rewrite Hfile.
Qed.

(** [parse_mapping_file_] on a file that holds a JSON object. *)
Lemma parse_mapping_file__object (f : string) (kv : list (string * json))
    (st : state) :
  load_json f (world st) = Loaded (JDict kv) ->
  parse_mapping_file_ f st =
    if existsb (fun e => String.eqb "name" (fst e)) kv
       && existsb (fun e => String.eqb "type" (fst e)) kv
       && existsb (fun e => String.eqb "map" (fst e)) kv
    then (Ok (Some (JDict kv)), st)
    else (Ok None, log (EPrint "Map file is missing value: {_b}") st).
Proof.
  intros Hload. unfold parse_mapping_file_. rewrite Hload.
  cbn [parse_mapping_file_for]. unfold bind, lift, py_in, print, ret.
  destruct (existsb (fun e => String.eqb "name" (fst e)) kv);
    cbn [negb andb]; [|reflexivity].
  destruct (existsb (fun e => String.eqb "type" (fst e)) kv);
    cbn [negb andb]; [|reflexivity].
  destruct (existsb (fun e => String.eqb "map" (fst e)) kv); reflexivity.
Qed.

(** [parse_mapping_file_] on a file that cannot be opened or decoded. *)
Lemma parse_mapping_file__unreadable (f : string) (st : state) :
  load_json f (world st) = OpenFails \/ load_json f (world st) = DecodeFails ->
  parse_mapping_file_ f st =
    (Ok None, log (EPrint ("Failed to parse file: " ++ f)) st).
Proof.
  intros [H|H]; unfold parse_mapping_file_; rewrite H; reflexivity.
Qed.

(** [parse_mapping_file_] on a file that holds a JSON number, [true],
    [false] or [null]: the membership test raises. *)
Lemma parse_mapping_file__scalar (f : string) (v : json) (st : state) :
  load_json f (world st) = Loaded v ->
  match v with JNull | JBool _ | JInt _ | JFloat _ => True | _ => False end ->
  parse_mapping_file_ f st = (Raise TypeError, st).
Proof.
  intros Hload Hv. unfold parse_mapping_file_. rewrite Hload.
  destruct v; try contradiction; reflexivity.
Qed.

(** When the Mapping Source yields [None] the script exits on the spot. *)
Lemma script_exits_on_invalid_file (fuel : nat) (f : string) (st : state) :
  which "xsetwacom" (world st) = true ->
  f <> "" ->
  is_file (PyPath.text f) (world st) = true ->
  fst (parse_mapping_file_ (PyPath.text f) st) = Ok None ->
  script_ fuel (Some f) st =
    (Raise SystemExit, snd (parse_mapping_file_ (PyPath.text f) st)).
Proof.
  intros Hw Hf Hfile Hparse. unfold script_.
  unfold bind at 1. rewrite Hw. cbn [negb]. unfold bind at 1. unfold ret at 1.
  unfold bind at 1. rewrite (find_given_file f st Hf Hfile).
  unfold bind at 1.
  destruct (parse_mapping_file_ (PyPath.text f) st) as [r st1].
  cbn [fst snd] in *.
  subst r. reflexivity.
Qed.


(** *** Claims on the Device Locator *)


(** C6. Lines of the listing that do not parse are skipped: the loop of
    [get_device_id_] gives the same result as on the listing without
    them, and [get_device_id_] itself raises nothing on any listing. *)
Theorem malformed_lines_are_skipped (name_ type_ : string)
    (lines : list string) :
  get_device_id_for name_ type_ lines =
  get_device_id_for name_ type_
    (filter (fun l => match parse_device_line l with
                      | Some _ => true
                      | None => false
                      end) lines)
  /\ forall st : state,
       listed st = lines ->
       fst (get_device_id_ name_ type_ st) =
       Ok (get_device_id_for name_ type_
             (filter (fun l => match parse_device_line l with
                               | Some _ => true
                               | None => false
                               end) lines)).
Proof.
  assert (H : get_device_id_for name_ type_ lines =
              get_device_id_for name_ type_
                (filter (fun l => match parse_device_line l with
                                  | Some _ => true
                                  | None => false
                                  end) lines)).
  { induction lines as [|l lines IH]; [reflexivity|].
    cbn [filter]. rewrite get_device_id_for_cons.
    destruct (parse_device_line l) as [[[n i] t]|] eqn:P; [|exact IH].
    rewrite get_device_id_for_cons, P, IH. reflexivity. }
  split; [exact H|].
  intros st Hl. rewrite get_device_id__run, Hl, <- H. cbv zeta.
  destruct (get_device_id_for name_ type_ lines); reflexivity.
Qed.

End Run.

(** ** Runs on the simulated tablet *)

Module Runs.

Import Sim.

#[local] Ltac by_running := repeat apply conj; vm_compute; reflexivity.

(** C1. On the end-to-end scenario of the specification the user accepts
    the apply prompt: [configure_map_] calls [apply_map_] with the
    keywords [name_] and [type_], which [apply_map_] does not take, so the
    call raises [TypeError] before any rule is written.  The trace ends
    with the prompt: no State Writer call, no second Checking pass. *)
Theorem accept_raises_before_any_write :
  accepts apply_map_params ["id_"; "map_"; "name_"; "type_"] = false
  /\ script_ 2 (Some "map.json") (start scenario ["y"]) =
       (Raise TypeError,
        State scenario []
          [ERun list_cmd;
           EPrint ("NAME: X" ++ PyStr.nl ++ "TYPE: PAD");
           ERun (get_cmd "7" "Button" "1");
           EPrint (no_row "Button" "1" "key a" ("key b" ++ PyStr.nl));
           EPrint "MAPPING DID NOT MATCH!";
           EInput apply_prompt (Some "y")])
  /\ trace (snd (apply_map_ "7" scenario_map (start scenario []))) =
       [ERun (set_cmd "7" "Button" "1" "key a")].
Proof. by_running. Qed.

(** C9. An answer that is neither y nor n is followed by the next prompt
    with nothing in between, but the loop then leaves by the [TypeError]
    of the accept branch: neither [True] nor [False] is returned. *)
Theorem prompt_loop_leaves_by_exception :
  configure_map_ 3 "X" "PAD" "7" scenario_map
    (start scenario ["maybe"; "y"; "n"]) =
    (Raise TypeError,
     State scenario ["n"]
       [EPrint ("NAME: X" ++ PyStr.nl ++ "TYPE: PAD");
        ERun (get_cmd "7" "Button" "1");
        EPrint (no_row "Button" "1" "key a" ("key b" ++ PyStr.nl));
        EPrint "MAPPING DID NOT MATCH!";
        EInput apply_prompt (Some "maybe");
        EInput apply_prompt (Some "y")]).
Proof. by_running. Qed.

(** C7. A file that holds the JSON number 5 is readable and decodes, and
    has none of the three fields; [parse_mapping_file_] does not return
    [None] on it but raises [TypeError] from the membership test, and a
    file that holds the list of the three field names is returned as a
    valid document. *)
Theorem scalar_document_raises :
  parse_mapping_file_ "five.json" (start scenario []) =
    (Raise TypeError, start scenario [])
  /\ script_ 2 (Some "five.json") (start scenario []) =
       (Raise TypeError, start scenario [])
  /\ parse_mapping_file_ "list.json" (start scenario []) =
       (Ok (Some (JList [JStr "name"; JStr "type"; JStr "map"])),
        start scenario [])
  /\ parse_mapping_file_ "broken.json" (start scenario []) =
       (Ok None,
        State scenario [] [EPrint "Failed to parse file: broken.json"]).
Proof. by_running. Qed.

(** C8, the claim as stated fails, in two ways.  A [get] that exits
    with status 1 and prints the expected value is a failed State Reader
    call, and it is reported as matched.  A [get] whose output is no
    text is a State Reader call with unexpected output, and it ends the
    run with [UnicodeDecodeError] in the middle of the Checking pass: no
    row, no verdict, no prompt. *)
Lemma failing_reader_reported_matched :
  (returncode (fst (subprocess_run (get_cmd "7" "Button" "1") failing_reader))
     = 1%Z
   /\ check_map_ "X" "PAD" "7" scenario_map (start failing_reader []) =
        (Ok true,
         State failing_reader []
           [EPrint ("NAME: X" ++ PyStr.nl ++ "TYPE: PAD");
            ERun (get_cmd "7" "Button" "1");
            EPrint (yes_row "Button" "1" "key a" []);
            EPrint "ALL GOOD!"]))
  /\ (Bench.garbled_get (get_cmd "7" "Button" "1") scenario
        = Some (UnicodeDecodeError, scenario)
      /\ Bench.garbled_script_ 2 (Some "map.json") (start scenario ["n"]) =
           (Raise UnicodeDecodeError,
            State scenario ["n"]
              [ERun list_cmd;
               EPrint ("NAME: X" ++ PyStr.nl ++ "TYPE: PAD");
               ERun (get_cmd "7" "Button" "1")])).
Proof. by_running. Qed.

(** *** The theorems at work *)

Lemma converged_on_first_pass_witness :
  all_matched tablet subprocess_run "7" scenario_map
    (world (start converged [])) = true
  /\ exists st' evs,
       configure_map_ 1 "X" "PAD" "7" scenario_map (start converged []) =
         (Ok (Some true), st')
       /\ st' = snd (check_map_ "X" "PAD" "7" scenario_map (start converged []))
       /\ stdin st' = stdin (start converged [])
       /\ trace st' = (trace (start converged []) ++ evs)%list
       /\ forallb (fun e => negb (is_prompt e) && negb (is_writer e)) evs = true.
Proof.
  split; [vm_compute; reflexivity|].
  apply (converged_on_first_pass tablet subprocess_run 0 "X" "PAD" "7"
           scenario_map (start converged [])).
  vm_compute; reflexivity.
Defined.

Lemma declined_leaves_device_alone_witness :
  configure_map_ 2 "X" "PAD" "7" scenario_map
    (start scenario ["maybe"; "n"; "y"]) =
    (Ok (Some false),
     State (world (snd (check_map_ "X" "PAD" "7" scenario_map
                          (start scenario ["maybe"; "n"; "y"]))))
           ["y"]
           (trace (snd (check_map_ "X" "PAD" "7" scenario_map
                          (start scenario ["maybe"; "n"; "y"])))
            ++ prompted (["maybe"] ++ ["n"]))%list)
  /\ forallb is_prompt (prompted (["maybe"] ++ ["n"])) = true.
Proof.
  apply (declined_leaves_device_alone tablet subprocess_run 2 "X" "PAD" "7"
           scenario_map (start scenario ["maybe"; "n"; "y"]) ["maybe"] ["y"]).
  - repeat constructor.
  - vm_compute; reflexivity.
  - vm_compute; reflexivity.
  - repeat constructor.
  - reflexivity.
Defined.

Lemma check_compares_trimmed_text_witness :
  subprocess_run (get_cmd "7" "Button" "1") (world (start padded []))
    = (completed 0 "3 ", padded)
  /\ exists row,
       check_map_body "7" ["Button"; "1"; "3"] true (start padded []) =
         (Ok (if is_yes_row row then true else false),
          State padded [] [ERun (get_cmd "7" "Button" "1"); row])
       /\ is_yes_row row = true
       /\ exists core, trims_to "3 " core /\ trims_to "3" core.
Proof.
  split; [reflexivity|].
  destruct (check_compares_trimmed_text tablet subprocess_run
              "7" "Button" "1" "3" [] true (start padded [])
              (completed 0 "3 ") padded eq_refl)
    as (row & Hrun & Hcore & _ & _ & _ & _ & _ & _ & _ & Hyes).
  exists row. split; [exact Hrun|].
  split; [exact (Hyes eq_refl eq_refl)|].
  exact (proj1 Hcore (Hyes eq_refl eq_refl)).
Defined.

Lemma reader_failure_judged_by_output_witness :
  (returncode (fst (subprocess_run (get_cmd "7" "Button" "1") silent_failure))
     = 1%Z
   /\ returns_always (get_cmd "7" "Button" "1")
        (world (start silent_failure [])) = None
   /\ subprocess_run (get_cmd "7" "Button" "1")
        (world (start silent_failure [])) = (completed 1 "", silent_failure)
   /\ exists row,
        check_map_body "7" ["Button"; "1"; "key a"] true
          (start silent_failure []) =
          (Ok (if is_no_row row then false else true),
           State silent_failure [] [ERun (get_cmd "7" "Button" "1"); row])
        /\ is_no_row row = true)
  /\ (Bench.garbled_get (get_cmd "7" "Button" "1")
        (world (start scenario [])) = Some (UnicodeDecodeError, scenario)
      /\ Bench.garbled_check_map_body "7" ["Button"; "1"; "key a"] true
           (start scenario []) =
           (Raise UnicodeDecodeError,
            State scenario [] [ERun (get_cmd "7" "Button" "1")]))
  /\ (well_shaped scenario_map
      /\ reads_return tablet subprocess_run returns_always "7" scenario_map
           (world (start silent_failure ["n"])) = true
      /\ exists checked evs,
           check_map_ "X" "PAD" "7" scenario_map (start silent_failure ["n"]) =
             (Ok false, checked)
           /\ processes evs = map (reader_event "7") scenario_map
           /\ trace checked =
                ([EPrint ("NAME: X" ++ PyStr.nl ++ "TYPE: PAD")]
                 ++ evs ++ [EPrint "MAPPING DID NOT MATCH!"])%list
           /\ configure_map_ 1 "X" "PAD" "7" scenario_map
                (start silent_failure ["n"]) =
                (Ok (Some false),
                 State silent_failure []
                   (trace checked ++ prompted ["n"])%list)).
Proof.
  pose proof (reader_failure_judged_by_output tablet subprocess_run
                returns_always 0 "X" "PAD" "7" scenario_map
                (start silent_failure ["n"])) as (Hrow & _ & Hpass).
  pose proof (reader_failure_judged_by_output tablet subprocess_run
                Bench.garbled_get 0 "X" "PAD" "7" scenario_map
                (start scenario [])) as (_ & Hraise & _).
  split; [|split].
  - split; [reflexivity|]. split; [reflexivity|]. split; [reflexivity|].
    destruct (Hrow "Button" "1" "key a" [] true (start silent_failure [])
                (completed 1 "") silent_failure eq_refl eq_refl)
      as (row & Hrun & Hno & _).
    exists row. split; [exact Hrun|].
    apply Hno. intros (core & H1 & H2).
    apply trims_strip in H1, H2. vm_compute in H1, H2. congruence.
  - split; [reflexivity|].
    exact (Hraise "Button" "1" ["key a"] true (start scenario [])
             UnicodeDecodeError scenario eq_refl).
  - assert (Hws : well_shaped scenario_map) by repeat constructor.
    split; [exact Hws|]. split; [reflexivity|].
    destruct (Hpass Hws eq_refl) as (checked & evs & Hck & _ & Htr & Hp & Hcf).
    exists checked, evs.
    split; [exact Hck|]. split; [exact Hp|]. split; [exact Htr|].
    etransitivity; [exact Hcf|].
    vm_compute in Hck. injection Hck as <-. vm_compute. reflexivity.
Defined.

Lemma writer_sends_first_three_witness :
  well_shaped labelled_map
  /\ exists w',
       apply_map_ "7" labelled_map (start scenario []) =
         (Ok tt,
          State w' (stdin (start scenario []))
                (trace (start scenario [])
                 ++ map (writer_event "7") labelled_map)%list).
Proof.
  assert (H : well_shaped labelled_map) by repeat constructor.
  split; [exact H|].
  exact (proj2 (writer_sends_first_three tablet subprocess_run "7"
                  labelled_map (start scenario [])) H).
Defined.


Lemma malformed_lines_are_skipped_witness :
  listed tablet subprocess_run (start noisy []) =
    ["List of devices"; "X  id: seven  type: PAD"; "X  id: 7  type: PAD"; "--"]
  /\ fst (get_device_id_ "X" "PAD" (start noisy [])) =
       Ok (get_device_id_for "X" "PAD"
             (filter (fun l => match parse_device_line l with
                               | Some _ => true
                               | None => false
                               end)
                ["List of devices"; "X  id: seven  type: PAD";
                 "X  id: 7  type: PAD"; "--"])).
Proof.
  assert (H : listed tablet subprocess_run (start noisy []) =
              ["List of devices"; "X  id: seven  type: PAD";
               "X  id: 7  type: PAD"; "--"])
    by (vm_compute; reflexivity).
  split; [exact H|].
  exact (proj2 (malformed_lines_are_skipped tablet subprocess_run "X" "PAD"
                  ["List of devices"; "X  id: seven  type: PAD";
                   "X  id: 7  type: PAD"; "--"])
               (start noisy []) H).
Defined.

End Runs.

(** ** What [device_matcher_] accepts *)

(** A successful star consumed a run of characters of its class. *)
Lemma star_sound (g : bool) (cls : ascii -> bool)
    (k : Re.mstate -> option Re.mstate) (mk : list (nat * nat)) :
  forall (s : string) (p : nat) (r : Re.mstate),
  Re.star g cls k mk p s = Some r ->
  exists pre post,
    s = pre ++ post
    /\ all_chars cls pre = true
    /\ k (Re.MState (p + String.length pre) post mk) = Some r.
Proof.
  assert (Here : forall s p r, k (Re.MState p s mk) = Some r ->
            exists pre post, s = pre ++ post /\ all_chars cls pre = true
              /\ k (Re.MState (p + String.length pre) post mk) = Some r).
  { intros s p r H. exists "", s. cbn. now rewrite Nat.add_0_r. }
  assert (Step : forall c s p r,
            cls c = true ->
            (exists pre post, s = pre ++ post /\ all_chars cls pre = true
              /\ k (Re.MState (S p + String.length pre) post mk) = Some r) ->
            exists pre post, String c s = pre ++ post
              /\ all_chars cls pre = true
              /\ k (Re.MState (p + String.length pre) post mk) = Some r).
  { intros c s p r Hc (pre & post & -> & Hall & Hk).
    exists (String c pre), post. cbn. rewrite Hc, Hall.
    repeat split. now rewrite Nat.add_succ_r. }
  induction s as [|c s IH]; intros p r H; cbn [Re.star] in H.
  - now apply Here.
  - destruct (cls c) eqn:Hc; [|now apply Here].
    destruct g.
    + destruct (Re.star true cls k mk (S p) s) as [r'|] eqn:E.
      * injection H as <-. apply Step; [exact Hc|]. now apply IH.
      * now apply Here.
    + destruct (k (Re.MState p (String c s) mk)) as [r'|] eqn:E.
      * injection H as <-. now apply Here.
      * apply Step; [exact Hc|]. now apply IH.
Qed.

(** A successful repetition consumed at least [min] of them. *)
Lemma repeat_sound (g : bool) (cls : ascii -> bool)
    (k : Re.mstate -> option Re.mstate) (mk : list (nat * nat)) :
  forall (min : nat) (s : string) (p : nat) (r : Re.mstate),
  Re.repeat_ g min cls k mk p s = Some r ->
  exists pre post,
    s = pre ++ post
    /\ all_chars cls pre = true
    /\ min <= String.length pre
    /\ k (Re.MState (p + String.length pre) post mk) = Some r.
Proof.
  induction min as [|min IH]; intros s p r H; cbn [Re.repeat_] in H.
  - apply star_sound in H as (pre & post & -> & Hall & Hk).
    exists pre, post. repeat split; auto. lia.
  - destruct s as [|c s]; [discriminate|].
    destruct (cls c) eqn:Hc; [|discriminate].
    apply IH in H as (pre & post & -> & Hall & Hmin & Hk).
    exists (String c pre), post. cbn. rewrite Hc, Hall.
    repeat split; [lia|]. now rewrite Nat.add_succ_r.
Qed.

(** A successful lazy star stopped at the first place where the rest of
    the pattern matched. *)
Lemma star_lazy_sound (cls : ascii -> bool)
    (k : Re.mstate -> option Re.mstate) (mk : list (nat * nat)) :
  forall (s : string) (p : nat) (r : Re.mstate),
  Re.star false cls k mk p s = Some r ->
  exists pre post,
    s = pre ++ post
    /\ all_chars cls pre = true
    /\ k (Re.MState (p + String.length pre) post mk) = Some r
    /\ forall pre1 pre2,
         pre = pre1 ++ pre2 -> pre2 <> "" ->
         k (Re.MState (p + String.length pre1) (pre2 ++ post) mk) = None.
Proof.
  assert (Here : forall s p r, k (Re.MState p s mk) = Some r ->
            exists pre post, s = pre ++ post /\ all_chars cls pre = true
              /\ k (Re.MState (p + String.length pre) post mk) = Some r
              /\ forall pre1 pre2,
                   pre = pre1 ++ pre2 -> pre2 <> "" ->
                   k (Re.MState (p + String.length pre1) (pre2 ++ post) mk)
                   = None).
  { intros s p r H. exists "", s. cbn. rewrite Nat.add_0_r.
    repeat split; auto.
    intros [|c pre1] pre2 E N; cbn in E; [congruence|discriminate]. }
  induction s as [|c s IH]; intros p r H; cbn [Re.star] in H.
  - now apply Here.
  - destruct (cls c) eqn:Hc; [|now apply Here].
    destruct (k (Re.MState p (String c s) mk)) as [r'|] eqn:E.
    + injection H as <-. now apply Here.
    + apply IH in H as (pre & post & -> & Hall & Hk & Hmin).
      exists (String c pre), post. cbn [append all_chars String.length].
      rewrite Hc, Hall, Nat.add_succ_r. repeat split; auto.
      intros [|c1 pre1] pre2 E1 N; cbn [append String.length] in *.
      * subst pre2. rewrite Nat.add_0_r. exact E.
      * injection E1 as <- ->. rewrite Nat.add_succ_r.
        now apply Hmin.
Qed.

(** A greedy star in front of a continuation that accepts the end of
    the text accepts every text of its class. *)
Lemma star_greedy_total (cls : ascii -> bool)
    (k : Re.mstate -> option Re.mstate) (mk : list (nat * nat)) :
  (forall p, k (Re.MState p "" mk) <> None) ->
  forall (s : string) (p : nat),
  all_chars cls s = true -> Re.star true cls k mk p s <> None.
Proof.
  intros Hk. induction s as [|c s IH]; intros p Hs; cbn [Re.star].
  - apply Hk.
  - cbn [all_chars] in Hs. apply andb_prop in Hs as [Hc Hs]. rewrite Hc.
    specialize (IH (S p) Hs).
    destruct (Re.star true cls k mk (S p) s); [discriminate|contradiction].
Qed.

#[local] Ltac literal_step H :=
  match type of H with
  | match ?s with EmptyString => None | String _ _ => _ end = Some _ =>
      let d := fresh "d" in
      let s' := fresh "s" in
      destruct s as [|d s']; [discriminate H|];
      match type of H with
      | (if Ascii.eqb ?c d then _ else None) = Some _ =>
          destruct (Ascii.eqb_spec c d); [subst d|discriminate H]
      end
  end.

#[local] Ltac repeat_step H pre post Hcls Hmin :=
  apply repeat_sound in H as (pre & post & -> & Hcls & Hmin & H);
  cbn [Re.run Re.ptr Re.rest Re.marks Nat.eqb] in H.

Lemma substring_at (a b c text : string) (p len : nat) :
  text = a ++ b ++ c ->
  p = String.length a ->
  len = String.length b ->
  substring p len text = b.
Proof. intros -> -> ->. apply substring_middle. Qed.

Lemma nonempty_length (s : string) : 1 <= String.length s -> s <> "".
Proof. destruct s; cbn; [lia | discriminate]. Qed.

Lemma device_matcher__sound (l n i t : string) :
  parse_device_line l = Some (n, i, t) ->
  exists w1 w2 w3 w4 w5,
    l = n ++ w1 ++ "id:" ++ w2 ++ i ++ w3 ++ "type:" ++ w4 ++ t ++ w5
    /\ n <> "" /\ all_chars PyStr.notnewline n = true
    /\ i <> "" /\ all_chars PyStr.isdigit i = true
    /\ all_chars PyStr.notnewline t = true
    /\ w1 <> "" /\ all_chars PyStr.isspace w1 = true
    /\ w2 <> "" /\ all_chars PyStr.isspace w2 = true
    /\ w3 <> "" /\ all_chars PyStr.isspace w3 = true
    /\ w4 <> "" /\ all_chars PyStr.isspace w4 = true
    /\ all_chars PyStr.isspace w5 = true
    /\ forall t' c, t = t' ++ String c "" -> PyStr.isspace c = false.
Proof.
  unfold parse_device_line, Re.fullmatch.
  destruct (Re.run device_matcher_ (Re.MState 0 l [])) as [r|] eqn:H;
    [|discriminate].
  intros Hg.
  unfold device_matcher_ in H. cbn [app Re.literal] in H.
  cbn [Re.run Re.ptr Re.rest Re.marks Nat.eqb] in H.
  repeat_step H g1 s1 Hg1 Hg1'.
  repeat_step H w1 s2 Hw1 Hw1'.
  do 3 literal_step H.
  repeat_step H w2 s3 Hw2 Hw2'.
  repeat_step H g2 s4 Hg2 Hg2'.
  repeat_step H w3 s5 Hw3 Hw3'.
  do 5 literal_step H.
  repeat_step H w4 s6 Hw4 Hw4'.
  cbn [Re.repeat_] in H.
  apply star_lazy_sound in H as (g3 & s7 & -> & Hg3 & H & Hlazy).
  pose proof H as Hrest.
  cbn [Re.run Re.ptr Re.rest Re.marks Nat.eqb] in H.
  apply star_sound in H as (w5 & s8 & -> & Hw5 & H).
  cbn [Re.run Re.ptr Re.rest Re.marks Nat.eqb] in H.
  destruct s8 as [|c s8]; [|destruct (Re.at_end (String c s8)); discriminate].
  cbn [Re.at_end] in H. injection H as <-. clear Hrest.
  rewrite append_empty_r in Hg |- *. unfold Re.group in Hg.
  change (2 * 1 - 2) with 0 in Hg. change (2 * 1 - 1) with 1 in Hg.
  change (2 * 2 - 2) with 2 in Hg. change (2 * 2 - 1) with 3 in Hg.
  change (2 * 3 - 2) with 4 in Hg. change (2 * 3 - 1) with 5 in Hg.
  cbn [Re.get_mark Re.spans Re.text Re.marks Nat.eqb] in Hg.
  match type of Hg with
  | Some (substring ?p1 ?l1 ?text, substring ?p2 ?l2 _, substring ?p3 ?l3 _)
    = _ =>
      assert (E1 : substring p1 l1 text = g1);
      [|assert (E2 : substring p2 l2 text = g2);
        [|assert (E3 : substring p3 l3 text = g3)]]
  end.
  { apply (substring_at "" g1
             (w1 ++ "id:" ++ w2 ++ g2 ++ w3 ++ "type:" ++ w4 ++ g3 ++ w5));
      [reflexivity | reflexivity | lia]. }
  { apply (substring_at (g1 ++ w1 ++ "id:" ++ w2) g2
             (w3 ++ "type:" ++ w4 ++ g3 ++ w5)).
    - repeat (rewrite ?append_assoc; cbn [append]). reflexivity.
    - repeat (rewrite ?length_append; cbn [String.length]). lia.
    - lia. }
  { apply (substring_at
             (g1 ++ w1 ++ "id:" ++ w2 ++ g2 ++ w3 ++ "type:" ++ w4) g3 w5).
    - repeat (rewrite ?append_assoc; cbn [append]). reflexivity.
    - repeat (rewrite ?length_append; cbn [String.length]). lia.
    - lia. }
  rewrite E1, E2, E3 in Hg. injection Hg as <- <- <-.
  exists w1, w2, w3, w4, w5.
  split; [reflexivity|].
  repeat split; try assumption; try now apply nonempty_length.
  intros t' c Ht. destruct (PyStr.isspace c) eqn:Hc; [exfalso|reflexivity].
  specialize (Hlazy t' (String c "") Ht ltac:(discriminate)).
  revert Hlazy. cbn [Re.run Re.ptr Re.rest Re.marks Re.repeat_].
  apply star_greedy_total.
  - intros p. cbn [Re.run Re.rest Re.at_end]. discriminate.
  - cbn [append all_chars]. now rewrite Hc, all_chars_append, Hw5.
Qed.

(** *** Every line of that shape is accepted *)

Lemma star_complete (g : bool) (cls : ascii -> bool)
    (k : Re.mstate -> option Re.mstate) (mk : list (nat * nat))
    (post : string) :
  (forall p, k (Re.MState p post mk) <> None) ->
  forall pre p,
  all_chars cls pre = true ->
  Re.star g cls k mk p (pre ++ post) <> None.
Proof.
  intros Hk.
  assert (Base : forall p, Re.star g cls k mk p post <> None).
  { intros p. destruct post as [|c post]; cbn [Re.star]; [apply Hk|].
    destruct (cls c); [|apply Hk]. destruct g.
    - destruct (Re.star true cls k mk (S p) post); [discriminate|apply Hk].
    - specialize (Hk p).
      destruct (k (Re.MState p (String c post) mk)); [discriminate|contradiction]. }
  induction pre as [|c pre IH]; intros p Hpre; cbn [append]; [apply Base|].
  cbn [all_chars] in Hpre. apply andb_prop in Hpre as [Hc Hpre].
  cbn [Re.star]. rewrite Hc. specialize (IH (S p) Hpre). destruct g.
  - destruct (Re.star true cls k mk (S p) (pre ++ post));
      [discriminate|contradiction].
  - destruct (k (Re.MState p (String c (pre ++ post)) mk)); [discriminate|].
    exact IH.
Qed.

Lemma repeat_complete (g : bool) (cls : ascii -> bool)
    (k : Re.mstate -> option Re.mstate) (mk : list (nat * nat))
    (post : string) :
  (forall p, k (Re.MState p post mk) <> None) ->
  forall min pre p,
  all_chars cls pre = true ->
  min <= String.length pre ->
  Re.repeat_ g min cls k mk p (pre ++ post) <> None.
Proof.
  intros Hk. induction min as [|min IH]; intros pre p Hpre Hmin;
    cbn [Re.repeat_].
  - now apply star_complete.
  - destruct pre as [|c pre]; cbn [String.length] in Hmin; [lia|].
    cbn [all_chars] in Hpre. apply andb_prop in Hpre as [Hc Hpre].
    cbn [append]. rewrite Hc. apply IH; [exact Hpre|lia].
Qed.

Lemma accepted_end : accepted [] "".
Proof. intros p mk. discriminate. Qed.

Lemma accepted_at_end : accepted [Re.AtEnd] "".
Proof. intros p mk. discriminate. Qed.

Lemma accepted_literal (c : ascii) (k : Re.pattern) (s : string) :
  accepted k s -> accepted (Re.Literal c :: k) (String c s).
Proof.
  intros H p mk. cbn [Re.run Re.rest]. rewrite Ascii.eqb_refl. apply H.
Qed.

Lemma accepted_mark (i : nat) (k : Re.pattern) (s : string) :
  accepted k s -> accepted (Re.Mark i :: k) s.
Proof. intros H p mk. cbn [Re.run]. apply H. Qed.

Lemma accepted_repeat (g : bool) (min : nat) (cls : ascii -> bool)
    (k : Re.pattern) (pre post : string) :
  accepted k post ->
  all_chars cls pre = true ->
  min <= String.length pre ->
  accepted (Re.Repeat g min cls :: k) (pre ++ post).
Proof.
  intros H Hpre Hmin p mk. cbn [Re.run Re.ptr Re.rest Re.marks].
  apply repeat_complete; try assumption. intros q. apply H.
Qed.

Lemma length_nonempty (s : string) : s <> "" -> 1 <= String.length s.
Proof. destruct s; [congruence | cbn; lia]. Qed.

Lemma device_matcher__complete (n w1 w2 i w3 w4 t w5 : string) :
  n <> "" -> all_chars PyStr.notnewline n = true ->
  i <> "" -> all_chars PyStr.isdigit i = true ->
  all_chars PyStr.notnewline t = true ->
  w1 <> "" -> all_chars PyStr.isspace w1 = true ->
  w2 <> "" -> all_chars PyStr.isspace w2 = true ->
  w3 <> "" -> all_chars PyStr.isspace w3 = true ->
  w4 <> "" -> all_chars PyStr.isspace w4 = true ->
  all_chars PyStr.isspace w5 = true ->
  parse_device_line
    (n ++ w1 ++ "id:" ++ w2 ++ i ++ w3 ++ "type:" ++ w4 ++ t ++ w5) <> None.
Proof.
  intros Hn Hn' Hi Hi' Ht Hw1 Hw1' Hw2 Hw2' Hw3 Hw3' Hw4 Hw4' Hw5.
  unfold parse_device_line, Re.fullmatch.
  destruct (Re.run device_matcher_ _) eqn:E; [cbv beta iota; discriminate|].
  exfalso. revert E.
  unfold device_matcher_. cbn [app Re.literal].
  match goal with
  | |- Re.run (Re.AtBeginning :: ?prog) (Re.MState 0 ?s []) = None -> False =>
      change (Re.run prog (Re.MState 0 s []) <> None);
      cut (accepted prog s); [intros Hacc; apply Hacc|]
  end.
  cbn [append]. rewrite <- (append_empty_r w5).
  apply accepted_mark.
  apply accepted_repeat; [|assumption|now apply length_nonempty].
  apply accepted_mark.
  apply accepted_repeat; [|assumption|now apply length_nonempty].
  do 3 apply accepted_literal.
  apply accepted_repeat; [|assumption|now apply length_nonempty].
  apply accepted_mark.
  apply accepted_repeat; [|assumption|now apply length_nonempty].
  apply accepted_mark.
  apply accepted_repeat; [|assumption|now apply length_nonempty].
  do 5 apply accepted_literal.
  apply accepted_repeat; [|assumption|now apply length_nonempty].
  apply accepted_mark.
  apply accepted_repeat; [|assumption|lia].
  apply accepted_mark.
  apply accepted_repeat; [|assumption|lia].
  apply accepted_at_end.
Qed.

(** A line is accepted by [device_matcher_] exactly when it is a
    non-empty name without line feed, white space, [id:], white space,
    decimal digits, white space, [type:], white space, a type without
    line feed and trailing white space. *)
Theorem device_line_accepted_iff (l : string) :
  parse_device_line l <> None <->
  exists n w1 w2 i w3 w4 t w5,
    l = n ++ w1 ++ "id:" ++ w2 ++ i ++ w3 ++ "type:" ++ w4 ++ t ++ w5
    /\ n <> "" /\ all_chars PyStr.notnewline n = true
    /\ i <> "" /\ all_chars PyStr.isdigit i = true
    /\ all_chars PyStr.notnewline t = true
    /\ w1 <> "" /\ all_chars PyStr.isspace w1 = true
    /\ w2 <> "" /\ all_chars PyStr.isspace w2 = true
    /\ w3 <> "" /\ all_chars PyStr.isspace w3 = true
    /\ w4 <> "" /\ all_chars PyStr.isspace w4 = true
    /\ all_chars PyStr.isspace w5 = true.
Proof.
  split.
  - destruct (parse_device_line l) as [[[n i] t]|] eqn:P; [intros _|congruence].
    destruct (device_matcher__sound l n i t P)
      as (w1 & w2 & w3 & w4 & w5 & H).
    exists n, w1, w2, i, w3, w4, t, w5. tauto.
  - intros (n & w1 & w2 & i & w3 & w4 & t & w5 & -> & H).
    decompose [and] H. now apply device_matcher__complete.
Qed.

(** *** Lines that parse back to their parts *)

Lemma star_greedy_exact (cls : ascii -> bool)
    (k : Re.mstate -> option Re.mstate) (mk : list (nat * nat))
    (post : string) (r : Re.mstate) :
  outside cls post = true ->
  forall pre p,
  all_chars cls pre = true ->
  k (Re.MState (p + String.length pre) post mk) = Some r ->
  Re.star true cls k mk p (pre ++ post) = Some r.
Proof.
  intros Hout. induction pre as [|c pre IH]; intros p Hpre Hk.
  - cbn [append String.length] in *. rewrite Nat.add_0_r in Hk.
    destruct post as [|c post]; cbn [Re.star]; [exact Hk|].
    cbn [outside] in Hout. apply negb_true_iff in Hout. now rewrite Hout.
  - cbn [all_chars] in Hpre. apply andb_prop in Hpre as [Hc Hpre].
    cbn [append Re.star]. rewrite Hc.
    rewrite (IH (S p) Hpre); [reflexivity|].
    cbn [String.length] in Hk. now rewrite Nat.add_succ_r in Hk.
Qed.

Lemma repeat_greedy_exact (cls : ascii -> bool)
    (k : Re.mstate -> option Re.mstate) (mk : list (nat * nat))
    (post : string) (r : Re.mstate) :
  outside cls post = true ->
  forall min pre p,
  all_chars cls pre = true ->
  min <= String.length pre ->
  k (Re.MState (p + String.length pre) post mk) = Some r ->
  Re.repeat_ true min cls k mk p (pre ++ post) = Some r.
Proof.
  intros Hout. induction min as [|min IH]; intros pre p Hpre Hmin Hk;
    cbn [Re.repeat_].
  - now apply star_greedy_exact.
  - destruct pre as [|c pre]; cbn [String.length] in Hmin; [lia|].
    cbn [all_chars] in Hpre. apply andb_prop in Hpre as [Hc Hpre].
    cbn [append]. rewrite Hc. apply IH; [exact Hpre|lia|].
    cbn [String.length] in Hk. now rewrite Nat.add_succ_r in Hk.
Qed.

Lemma star_lazy_exact (cls : ascii -> bool)
    (k : Re.mstate -> option Re.mstate) (mk : list (nat * nat))
    (post : string) (r : Re.mstate) :
  forall pre p,
  all_chars cls pre = true ->
  k (Re.MState (p + String.length pre) post mk) = Some r ->
  (forall pre1 pre2,
     pre = pre1 ++ pre2 -> pre2 <> "" ->
     k (Re.MState (p + String.length pre1) (pre2 ++ post) mk) = None) ->
  Re.star false cls k mk p (pre ++ post) = Some r.
Proof.
  induction pre as [|c pre IH]; intros p Hpre Hk Hmin.
  - cbn [append String.length] in *. rewrite Nat.add_0_r in Hk.
    destruct post as [|c post]; cbn [Re.star]; [exact Hk|].
    rewrite Hk. now destruct (cls c).
  - cbn [all_chars] in Hpre. apply andb_prop in Hpre as [Hc Hpre].
    cbn [append Re.star]. rewrite Hc.
    pose proof (Hmin "" (String c pre) eq_refl ltac:(discriminate)) as H0.
    cbn [append String.length] in H0. rewrite Nat.add_0_r in H0. rewrite H0.
    apply IH; [exact Hpre| |].
    + cbn [String.length] in Hk. now rewrite Nat.add_succ_r in Hk.
    + intros pre1 pre2 E N.
      specialize (Hmin (String c pre1) pre2). cbn [append String.length] in Hmin.
      rewrite Nat.add_succ_r in Hmin. apply Hmin; [now rewrite E|exact N].
Qed.

Lemma length_rstrip (s : string) :
  String.length (PyStr.rstrip s) <= String.length s.
Proof.
  induction s as [|c s IH]; cbn [PyStr.rstrip String.length]; [lia|].
  destruct (PyStr.rstrip s) as [|d r]; [destruct (PyStr.isspace c)|];
    cbn [String.length] in *; lia.
Qed.

Lemma length_lstrip (s : string) :
  String.length (PyStr.lstrip s) <= String.length s.
Proof.
  induction s as [|c s IH]; cbn [PyStr.lstrip String.length]; [lia|].
  destruct (PyStr.isspace c); cbn [String.length]; lia.
Qed.

(** A text without trailing white space has no non-empty suffix of white
    space. *)
Lemma no_space_suffix (s a b : string) :
  PyStr.rstrip s = s ->
  s = a ++ b ->
  all_chars PyStr.isspace b = true ->
  b = "".
Proof.
  intros Hs -> Hb. rewrite (rstrip_append_space a b Hb) in Hs.
  pose proof (length_rstrip a) as L. rewrite Hs, length_append in L.
  destruct b; [reflexivity|cbn in L; lia].
Qed.

Lemma lstrip_head (c : ascii) (s : string) :
  PyStr.lstrip (String c s) = String c s -> PyStr.isspace c = false.
Proof.
  cbn [PyStr.lstrip]. destruct (PyStr.isspace c); [|reflexivity].
  intros H. pose proof (length_lstrip s) as L. rewrite H in L.
  cbn in L. lia.
Qed.

Lemma lstrip_append (s y : string) :
  all_chars PyStr.isspace s = false ->
  PyStr.lstrip (s ++ y) = PyStr.lstrip s ++ y.
Proof.
  induction s as [|c s IH]; cbn [all_chars append PyStr.lstrip];
    [discriminate|].
  destruct (PyStr.isspace c); cbn [andb]; [exact IH|reflexivity].
Qed.

Lemma lstrip_nonempty (s : string) :
  all_chars PyStr.isspace s = false -> PyStr.lstrip s <> "".
Proof.
  induction s as [|c s IH]; cbn [all_chars PyStr.lstrip]; [discriminate|].
  destruct (PyStr.isspace c); cbn [andb]; [exact IH|discriminate].
Qed.

Lemma all_chars_lstrip (cls : ascii -> bool) (s : string) :
  all_chars cls s = true -> all_chars cls (PyStr.lstrip s) = true.
Proof.
  induction s as [|c s IH]; cbn [all_chars PyStr.lstrip]; [reflexivity|].
  intros H. destruct (PyStr.isspace c); [|exact H].
  apply andb_prop in H as [_ H]. now apply IH.
Qed.

Lemma digit_not_space (c : ascii) :
  PyStr.isdigit c = true -> PyStr.isspace c = false.
Proof.
  destruct c as [[] [] [] [] [] [] [] []]; vm_compute; congruence.
Qed.

Lemma space_not_digit (c : ascii) :
  PyStr.isspace c = true -> PyStr.isdigit c = false.
Proof.
  destruct c as [[] [] [] [] [] [] [] []]; vm_compute; congruence.
Qed.

(** No proper prefix of a name without colon and without trailing white
    space is followed by white space and [id:]. *)
Lemma name_is_shortest (n n1 n2 w1 x ws post : string) :
  PyStr.rstrip n = n ->
  all_chars not_colon n = true ->
  n = n1 ++ n2 -> n2 <> "" ->
  w1 <> "" -> all_chars PyStr.isspace w1 = true ->
  all_chars PyStr.isspace ws = true ->
  n2 ++ w1 ++ "id:" ++ x = ws ++ "id:" ++ post ->
  False.
Proof.
  intros Hr Hc Hn Hn2 Hw1 Hw1' Hws E.
  assert (Hns : all_chars PyStr.isspace n2 = false).
  { destruct (all_chars PyStr.isspace n2) eqn:A; [|reflexivity].
    now destruct (Hn2 (no_space_suffix n n1 n2 Hr Hn A)). }
  apply (f_equal PyStr.lstrip) in E.
  rewrite (lstrip_append n2 _ Hns), (lstrip_space ws _ Hws) in E.
  assert (Hm : all_chars not_colon (PyStr.lstrip n2) = true).
  { apply all_chars_lstrip. rewrite Hn, all_chars_append in Hc.
    now apply andb_prop in Hc as [_ Hc]. }
  pose proof (lstrip_nonempty n2 Hns) as Hne.
  destruct w1 as [|c w1]; [congruence|].
  cbn [all_chars] in Hw1'. apply andb_prop in Hw1' as [Hcs _].
  destruct (PyStr.lstrip n2) as [|c1 [|c2 [|c3 m]]]; [congruence| | |];
    cbn [append] in E.
  - inversion E; subst. vm_compute in Hcs. discriminate.
  - inversion E; subst. vm_compute in Hcs. discriminate.
  - inversion E; subst. cbn [all_chars] in Hm. apply andb_prop in Hm as [_ Hm].
    apply andb_prop in Hm as [_ Hm]. apply andb_prop in Hm as [Hm _].
    vm_compute in Hm. discriminate.
Qed.

Lemma run_begin (k : Re.pattern) (s : string) (mk : list (nat * nat)) :
  Re.run (Re.AtBeginning :: k) (Re.MState 0 s mk) = Re.run k (Re.MState 0 s mk).
Proof. reflexivity. Qed.

Lemma run_mark (i : nat) (k : Re.pattern) (p : nat) (s : string)
    (mk : list (nat * nat)) :
  Re.run (Re.Mark i :: k) (Re.MState p s mk) =
  Re.run k (Re.MState p s ((i, p) :: mk)).
Proof. reflexivity. Qed.

Lemma run_literal (c : ascii) (k : Re.pattern) (p : nat) (s : string)
    (mk : list (nat * nat)) :
  Re.run (Re.Literal c :: k) (Re.MState p (String c s) mk) =
  Re.run k (Re.MState (S p) s mk).
Proof. cbn [Re.run Re.rest Re.ptr Re.marks]. now rewrite Ascii.eqb_refl. Qed.

Lemma run_repeat (g : bool) (min : nat) (cls : ascii -> bool)
    (k : Re.pattern) (p : nat) (s : string) (mk : list (nat * nat)) :
  Re.run (Re.Repeat g min cls :: k) (Re.MState p s mk) =
  Re.repeat_ g min cls (Re.run k) mk p s.
Proof. reflexivity. Qed.

(** The end of the pattern accepts white space only. *)
Lemma tail_needs_space (p : nat) (s : string) (mk : list (nat * nat))
    (r : Re.mstate) :
  Re.run [Re.Mark 5; Re.Repeat true 0 PyStr.isspace; Re.AtEnd]
         (Re.MState p s mk) = Some r ->
  all_chars PyStr.isspace s = true.
Proof.
  rewrite run_mark, run_repeat. cbn [Re.repeat_]. intros H.
  apply star_sound in H as (ws & post & -> & Hws & H).
  cbn [Re.run Re.rest] in H.
  destruct post as [|c post]; [|destruct (Re.at_end (String c post)); discriminate].
  now rewrite append_empty_r.
Qed.

(** After the name the pattern needs white space and [id:]. *)
Lemma after_name_needs_id (k : Re.pattern) (p : nat) (s : string)
    (mk : list (nat * nat)) (r : Re.mstate) :
  Re.run (Re.Mark 1 :: Re.Repeat true 1 PyStr.isspace
          :: Re.Literal "i" :: Re.Literal "d" :: Re.Literal ":" :: k)
         (Re.MState p s mk) = Some r ->
  exists ws post,
    s = ws ++ "id:" ++ post /\ all_chars PyStr.isspace ws = true.
Proof.
  rewrite run_mark, run_repeat. intros H.
  apply repeat_sound in H as (ws & post & -> & Hws & _ & H).
  cbn [Re.run Re.ptr Re.rest Re.marks] in H.
  do 3 literal_step H.
  exists ws. eexists. split; [reflexivity|exact Hws].
Qed.

Lemma device_matcher__round_trip (n w1 w2 i w3 w4 t w5 : string) :
  n <> "" -> all_chars PyStr.notnewline n = true ->
  PyStr.rstrip n = n -> all_chars not_colon n = true ->
  i <> "" -> all_chars PyStr.isdigit i = true ->
  t <> "" -> all_chars PyStr.notnewline t = true ->
  PyStr.lstrip t = t -> PyStr.rstrip t = t ->
  w1 <> "" -> all_chars PyStr.isspace w1 = true ->
  w2 <> "" -> all_chars PyStr.isspace w2 = true ->
  w3 <> "" -> all_chars PyStr.isspace w3 = true ->
  w4 <> "" -> all_chars PyStr.isspace w4 = true ->
  all_chars PyStr.isspace w5 = true ->
  parse_device_line
    (n ++ w1 ++ "id:" ++ w2 ++ i ++ w3 ++ "type:" ++ w4 ++ t ++ w5)
  = Some (n, i, t).
Proof.
  intros Hn Hn' Hnr Hnc Hi Hi' Ht Ht' Htl Htr
         Hw1 Hw1' Hw2 Hw2' Hw3 Hw3' Hw4 Hw4' Hw5.
  destruct n as [|c0 n0]; [congruence|].
  cbn [all_chars] in Hn'. apply andb_prop in Hn' as [Hc0 Hn0].
  evar (r : Re.mstate).
  assert (R : Re.run device_matcher_
                (Re.MState 0
                   (String c0 n0 ++ w1 ++ "id:" ++ w2 ++ i ++ w3 ++ "type:"
                    ++ w4 ++ t ++ w5 ++ "") []) = Some r).
  { subst r. unfold device_matcher_. cbn [app Re.literal].
    rewrite run_begin, run_mark, run_repeat.
    cbn [append Re.repeat_]. rewrite Hc0.
    apply star_lazy_exact; [exact Hn0| |].
    - rewrite run_mark, run_repeat.
      apply repeat_greedy_exact;
        [reflexivity | assumption | now apply length_nonempty |].
      rewrite !run_literal, run_repeat.
      apply repeat_greedy_exact;
        [|assumption | now apply length_nonempty |].
      { destruct i as [|ci i']; [congruence|]. cbn [append outside].
        cbn [all_chars] in Hi'. apply andb_prop in Hi' as [Hci _].
        now rewrite (digit_not_space ci Hci). }
      rewrite run_mark, run_repeat.
      apply repeat_greedy_exact;
        [|assumption | now apply length_nonempty |].
      { destruct w3 as [|c3 w3']; [congruence|]. cbn [append outside].
        cbn [all_chars] in Hw3'. apply andb_prop in Hw3' as [Hc3 _].
        now rewrite (space_not_digit c3 Hc3). }
      rewrite run_mark, run_repeat.
      apply repeat_greedy_exact;
        [reflexivity | assumption | now apply length_nonempty |].
      rewrite !run_literal, run_repeat.
      apply repeat_greedy_exact;
        [|assumption | now apply length_nonempty |].
      { destruct t as [|ct t']; [congruence|]. cbn [append outside].
        now rewrite (lstrip_head ct t' Htl). }
      rewrite run_mark, run_repeat. cbn [Re.repeat_].
      apply star_lazy_exact; [exact Ht'| |].
      + rewrite run_mark, run_repeat. cbn [Re.repeat_].
        apply star_greedy_exact; [reflexivity | exact Hw5 |]. reflexivity.
      + intros t1 t2 Et N.
        match goal with |- ?x = None => destruct x eqn:E end;
          [exfalso|reflexivity].
        apply tail_needs_space in E. rewrite all_chars_append in E.
        apply andb_prop in E as [E _].
        apply N. exact (no_space_suffix t t1 t2 Htr Et E).
    - intros pre1 pre2 E N.
      match goal with |- ?x = None => destruct x eqn:F end;
        [exfalso|reflexivity].
      apply after_name_needs_id in F as (ws & post & Etext & Hws).
      apply (name_is_shortest (String c0 n0) (String c0 pre1) pre2 w1
               (w2 ++ i ++ w3 ++ "type:" ++ w4 ++ t ++ w5 ++ "")
               ws post Hnr Hnc); try assumption.
      cbn [append]. now rewrite E. }
  subst r. rewrite append_empty_r in R.
  unfold parse_device_line, Re.fullmatch. rewrite R. clear R.
  unfold Re.group.
  change (2 * 1 - 2) with 0. change (2 * 1 - 1) with 1.
  change (2 * 2 - 2) with 2. change (2 * 2 - 1) with 3.
  change (2 * 3 - 2) with 4. change (2 * 3 - 1) with 5.
  cbn [Re.get_mark Re.spans Re.text Re.marks Nat.eqb].
  match goal with
  | |- Some (substring ?p1 ?l1 ?text, substring ?p2 ?l2 _, substring ?p3 ?l3 _)
       = _ =>
      assert (E1 : substring p1 l1 text = String c0 n0);
      [|assert (E2 : substring p2 l2 text = i);
        [|assert (E3 : substring p3 l3 text = t)]]
  end.
  { apply (substring_at "" (String c0 n0)
             (w1 ++ "id:" ++ w2 ++ i ++ w3 ++ "type:" ++ w4 ++ t ++ w5));
      [reflexivity | reflexivity | cbn [String.length]; lia]. }
  { apply (substring_at (String c0 n0 ++ w1 ++ "id:" ++ w2) i
             (w3 ++ "type:" ++ w4 ++ t ++ w5)).
    - repeat (rewrite ?append_assoc; cbn [append]). reflexivity.
    - repeat (rewrite ?length_append; cbn [String.length]). lia.
    - lia. }
  { apply (substring_at
             (String c0 n0 ++ w1 ++ "id:" ++ w2 ++ i ++ w3 ++ "type:" ++ w4)
             t w5).
    - repeat (rewrite ?append_assoc; cbn [append]). reflexivity.
    - repeat (rewrite ?length_append; cbn [String.length]). lia.
    - lia. }
  now rewrite E1, E2, E3.
Qed.

(** A listing line written as name, white space, [id:], white space,
    digits, white space, [type:], white space, type and optional
    trailing white space parses back to exactly that name, those digits
    and that type, provided the name has no colon, no line feed and no
    trailing white space and the type is not empty and has no line feed
    and no white space at either end. *)
Theorem device_line_round_trip (n w1 w2 i w3 w4 t w5 : string) :
  n <> "" -> all_chars PyStr.notnewline n = true ->
  PyStr.rstrip n = n -> all_chars not_colon n = true ->
  i <> "" -> all_chars PyStr.isdigit i = true ->
  t <> "" -> all_chars PyStr.notnewline t = true ->
  PyStr.lstrip t = t -> PyStr.rstrip t = t ->
  w1 <> "" -> all_chars PyStr.isspace w1 = true ->
  w2 <> "" -> all_chars PyStr.isspace w2 = true ->
  w3 <> "" -> all_chars PyStr.isspace w3 = true ->
  w4 <> "" -> all_chars PyStr.isspace w4 = true ->
  all_chars PyStr.isspace w5 = true ->
  parse_device_line
    (n ++ w1 ++ "id:" ++ w2 ++ i ++ w3 ++ "type:" ++ w4 ++ t ++ w5)
  = Some (n, i, t)
  /\ get_device_id_for n t
       [n ++ w1 ++ "id:" ++ w2 ++ i ++ w3 ++ "type:" ++ w4 ++ t ++ w5]
     = Some i.
Proof.
  intros. 
  assert (P : parse_device_line
                (n ++ w1 ++ "id:" ++ w2 ++ i ++ w3 ++ "type:" ++ w4 ++ t ++ w5)
              = Some (n, i, t))
    by now apply device_matcher__round_trip.
  split; [exact P|].
  rewrite get_device_id_for_cons, P, !String.eqb_refl. reflexivity.
Qed.

(** Every line that [device_matcher_] accepts is a name, white space,
    [id:], white space, digits, white space, [type:], white space, a
    type and trailing white space; the three groups are the name, the
    digits and the type, and the type never ends in white space. *)
Theorem parsed_line_shape (l n i t : string) :
  parse_device_line l = Some (n, i, t) ->
  exists w1 w2 w3 w4 w5,
    l = n ++ w1 ++ "id:" ++ w2 ++ i ++ w3 ++ "type:" ++ w4 ++ t ++ w5
    /\ n <> "" /\ all_chars PyStr.notnewline n = true
    /\ i <> "" /\ all_chars PyStr.isdigit i = true
    /\ all_chars PyStr.notnewline t = true
    /\ w1 <> "" /\ all_chars PyStr.isspace w1 = true
    /\ w2 <> "" /\ all_chars PyStr.isspace w2 = true
    /\ w3 <> "" /\ all_chars PyStr.isspace w3 = true
    /\ w4 <> "" /\ all_chars PyStr.isspace w4 = true
    /\ all_chars PyStr.isspace w5 = true
    /\ forall t' c, t = t' ++ String c "" -> PyStr.isspace c = false.
Proof. exact (device_matcher__sound l n i t). Qed.

(** ** More on the Device Locator *)

Section LocatorMore.

Variable World : Type.
Variable subprocess_run : list string -> World -> CompletedProcess * World.

(** In this section every call of [subprocess.run] returns. *)

#[local] Abbreviation get_device_id_ := (get_device_id_ World subprocess_run returns_always).
#[local] Abbreviation listed := (listed World subprocess_run).
#[local] Abbreviation state := (state World).

(** An id returned by [get_device_id_] is a non-empty string of decimal
    digits taken from a line of the listing that parses to the name and
    type asked for; the call started one process, the listing, and
    printed nothing. *)
Theorem device_id_is_decimal (name_ type_ i : string) (st : state) :
  fst (get_device_id_ name_ type_ st) = Ok (Some i) ->
  i <> ""
  /\ all_chars PyStr.isdigit i = true
  /\ (exists l, In l (listed st) /\ parse_device_line l = Some (name_, i, type_))
  /\ snd (get_device_id_ name_ type_ st) =
       State (snd (subprocess_run list_cmd (world st))) (stdin st)
             (trace st ++ [ERun list_cmd])%list.
Proof.
  rewrite get_device_id__run. cbv zeta.
  destruct (get_device_id_for name_ type_ (listed st)) as [j|] eqn:E;
    cbn [fst snd]; [|discriminate].
  intros [= ->].
  apply first_match_found in E as (before & l & after & Hl & P & _).
  destruct (device_matcher__sound l name_ i type_ P)
    as (w1 & w2 & w3 & w4 & w5 & _ & _ & _ & Hi & Hd & _).
  repeat split; try assumption.
  exists l. split; [|exact P]. rewrite Hl. apply in_elt.
Qed.

(** A descriptor whose type ends in white space matches no line of any
    listing, because the type parsed from a line never does. *)
Theorem padded_type_never_found (name_ type_ : string) (c : ascii)
    (lines : list string) :
  PyStr.isspace c = true ->
  get_device_id_for name_ (type_ ++ String c "") lines = None.
Proof.
  intros Hc. apply no_match_found. intros l i _ P.
  destruct (device_matcher__sound l name_ i (type_ ++ String c "") P)
    as (w1 & w2 & w3 & w4 & w5 & H).
  decompose [and] H.
  match goal with Ht : forall t' c', _ -> PyStr.isspace c' = false |- _ =>
    specialize (Ht type_ c eq_refl); congruence end.
Qed.

End LocatorMore.

(** ** [find_mapping_file_] *)

Lemma find_first {A : Type} (f : A -> bool) (l : list A) (x : A) :
  find f l = Some x <->
  exists before after,
    l = (before ++ x :: after)%list
    /\ f x = true
    /\ forall y, In y before -> f y = false.
Proof.
  induction l as [|a l IH]; cbn [find].
  - split; [discriminate|].
    intros (before & after & H & _). destruct before; discriminate.
  - destruct (f a) eqn:Fa.
    + split.
      * intros [= <-]. exists [], l. repeat split; auto. intros y [].
      * intros (before & after & H & Fx & Hb).
        destruct before as [|b before]; cbn in H; injection H as Ha Hl.
        -- now subst.
        -- subst b. specialize (Hb a (or_introl eq_refl)). congruence.
    + rewrite IH. split.
      * intros (before & after & -> & Fx & Hb).
        exists (a :: before), after. repeat split; auto.
        intros y [<-|Hy]; auto.
      * intros (before & after & H & Fx & Hb).
        destruct before as [|b before]; cbn in H; injection H as Ha Hl.
        -- subst. congruence.
        -- exists before, after. repeat split; auto.
           intros y Hy. apply Hb. now right.
Qed.

Lemma find_nothing {A : Type} (f : A -> bool) (l : list A) :
  find f l = None <-> forall y, In y l -> f y = false.
Proof.
  split; [apply find_none|].
  induction l as [|a l IH]; intros H; [reflexivity|]. cbn [find].
  rewrite (H a (or_introl eq_refl)). apply IH. intros y Hy. apply H. now right.
Qed.

Section Finder.

Variable World : Type.
Variable is_file : string -> World -> bool.

#[local] Abbreviation find_mapping_file_ := (find_mapping_file_ World is_file).
#[local] Abbreviation state := (state World).

(** The loop of [find_mapping_file_] is a search for the first candidate
    that is a file. *)
Lemma find_mapping_file_for_run (l : list location) (st : state) :
  find_mapping_file_for World is_file l st =
  match find (fun p => is_file p (world st)) (candidates l) with
  | Some p => (Ok (Some p), st)
  | None => (Ok None, log (EPrint "No mapping file.") st)
  end.
Proof.
  induction l as [|x l IH]; [reflexivity|].
  cbn [find_mapping_file_for candidates].
  destruct x as [p|[|c p]|]; cbn [candidate find]; try exact IH.
  - destruct (is_file p (world st)); [reflexivity|exact IH].
  - cbv zeta.
    destruct (is_file (PyPath.text (String c p)) (world st));
      [reflexivity|exact IH].
Qed.

(** X5. [find_mapping_file_] makes a path of every location of its list
    that is neither [None] nor the empty string and returns the first of
    these paths that is a file, leaving the state as it was; it returns
    [None] exactly when none of them is a file, after printing one line.
    A single string counts as a list of one location, so the empty
    string finds nothing, and any other string [s] is looked for and
    returned as [pathlib] writes it: [./map.json] as [map.json]. *)
Theorem find_mapping_file__first_existing (arg : file_arg) (st : state) :
  let l := match arg with ArgStr s => [LStr s] | ArgList l => l end in
  (forall p,
     find_mapping_file_ arg st = (Ok (Some p), st) <->
     exists before after,
       candidates l = (before ++ p :: after)%list
       /\ is_file p (world st) = true
       /\ forall q, In q before -> is_file q (world st) = false)
  /\ (find_mapping_file_ arg st =
        (Ok None, log (EPrint "No mapping file.") st) <->
      forall q, In q (candidates l) -> is_file q (world st) = false)
  /\ ((exists p, find_mapping_file_ arg st = (Ok (Some p), st))
      \/ find_mapping_file_ arg st =
           (Ok None, log (EPrint "No mapping file.") st))
  /\ (forall s, s <> "" ->
      candidates [LStr s] = [PyPath.text s]
      /\ (is_file (PyPath.text s) (world st) = true ->
          find_mapping_file_ (ArgStr s) st = (Ok (Some (PyPath.text s)), st))
      /\ (is_file (PyPath.text s) (world st) = false ->
          find_mapping_file_ (ArgStr s) st =
            (Ok None, log (EPrint "No mapping file.") st)))
  /\ (forall p, candidates [LPath p] = [p])
  /\ PyPath.text "./map.json" = "map.json"
  /\ PyPath.text "conf//a/./b/" = "conf/a/b".
Proof.
  intros l.
  assert (Hstr : forall s, s <> "" ->
            candidates [LStr s] = [PyPath.text s]
            /\ (is_file (PyPath.text s) (world st) = true ->
                find_mapping_file_ (ArgStr s) st =
                  (Ok (Some (PyPath.text s)), st))
            /\ (is_file (PyPath.text s) (world st) = false ->
                find_mapping_file_ (ArgStr s) st =
                  (Ok None, log (EPrint "No mapping file.") st))).
  { intros s Hs. destruct s as [|c s]; [congruence|].
    split; [reflexivity|].
    split; intros H; unfold find_mapping_file_;
      rewrite find_mapping_file_for_run; cbn [candidates candidate find];
      rewrite H; reflexivity. }
  cut ((forall p,
          find_mapping_file_ arg st = (Ok (Some p), st) <->
          exists before after,
            candidates l = (before ++ p :: after)%list
            /\ is_file p (world st) = true
            /\ forall q, In q before -> is_file q (world st) = false)
       /\ (find_mapping_file_ arg st =
             (Ok None, log (EPrint "No mapping file.") st) <->
           forall q, In q (candidates l) -> is_file q (world st) = false)
       /\ ((exists p, find_mapping_file_ arg st = (Ok (Some p), st))
           \/ find_mapping_file_ arg st =
                (Ok None, log (EPrint "No mapping file.") st))).
  { intros (H1 & H2 & H3). repeat (split; [assumption|]).
    split; [reflexivity|]. split; vm_compute; reflexivity. }
  unfold find_mapping_file_. fold l.
  rewrite find_mapping_file_for_run.
  pose proof (find_first (fun p => is_file p (world st)) (candidates l)) as HF.
  pose proof (find_nothing (fun p => is_file p (world st)) (candidates l)) as HN.
  destruct (find (fun p => is_file p (world st)) (candidates l)) as [p0|].
  - split; [|split].
    + intros p. rewrite <- HF. split; [intros [= ->]|intros [= ->]]; reflexivity.
    + split; [discriminate|]. intros H. apply HN in H. discriminate.
    + left. now exists p0.
  - split; [|split].
    + intros p. rewrite <- HF. split; discriminate.
    + split; [intros _; now apply HN|reflexivity].
    + now right.
Qed.

End Finder.

(** ** More on the Checking pass, the State Writer and the loop *)

Lemma for_var_app {World A V : Type} (l1 l2 : list A) (v : V)
    (body : A -> V -> M World V) (st : state World) :
  for_var (l1 ++ l2) v body st =
  match for_var l1 v body st with
  | (Ok v', st') => for_var l2 v' body st'
  | (Raise e, st') => (Raise e, st')
  | (OutOfFuel, st') => (OutOfFuel, st')
  end.
Proof.
  revert v st. induction l1 as [|x l1 IH]; intros v st; [reflexivity|].
  cbn [app for_var]. unfold bind.
  destruct (body x v st) as [[v'|e|] st']; try reflexivity. apply IH.
Qed.

Lemma for_app {World A : Type} (l1 l2 : list A)
    (body : A -> M World unit) (st : state World) :
  for_ (l1 ++ l2) body st =
  match for_ l1 body st with
  | (Ok _, st') => for_ l2 body st'
  | (Raise e, st') => (Raise e, st')
  | (OutOfFuel, st') => (OutOfFuel, st')
  end.
Proof.
  revert st. induction l1 as [|x l1 IH]; intros st; [reflexivity|].
  cbn [app for_]. unfold bind.
  destruct (body x st) as [[[]|e|] st']; try reflexivity. apply IH.
Qed.

(** *** Computations that write nothing *)

Lemma wn_ret {World A : Type} (a : A) : writes_nothing (@ret World A a).
Proof. intros st. exists []. cbn. now rewrite app_nil_r. Qed.

Lemma wn_raise {World A : Type} (e : exn) : writes_nothing (@raise World A e).
Proof. intros st. exists []. cbn. now rewrite app_nil_r. Qed.

Lemma wn_lift {World A : Type} (o : outcome A) : writes_nothing (@lift World A o).
Proof. intros st. exists []. cbn. now rewrite app_nil_r. Qed.

Lemma wn_print {World : Type} (line : string) :
  writes_nothing (@print World line).
Proof. intros st. exists [EPrint line]. split; reflexivity. Qed.

Lemma wn_input {World : Type} (prompt : string) :
  writes_nothing (@input World prompt).
Proof.
  intros st. unfold input.
  destruct (stdin st) as [|l ls]; eexists; split; reflexivity.
Qed.

Lemma wn_bind {World A B : Type} (m : M World A) (f : A -> M World B) :
  writes_nothing m ->
  (forall a, writes_nothing (f a)) ->
  writes_nothing (bind m f).
Proof.
  intros Hm Hf st. unfold bind.
  destruct (Hm st) as (evs & Ht & Hq).
  destruct (m st) as [[a|e|] st1]; cbn [snd] in *; try (now exists evs).
  destruct (Hf a st1) as (evs' & Ht' & Hq').
  exists (evs ++ evs')%list. rewrite Ht', Ht, app_assoc. split; [reflexivity|].
  now rewrite forallb_app, Hq, Hq'.
Qed.

Lemma wn_for_var {World A V : Type} (l : list A) (body : A -> V -> M World V) :
  (forall x v, writes_nothing (body x v)) ->
  forall v, writes_nothing (for_var l v body).
Proof.
  intros Hb. induction l as [|x l IH]; intros v; cbn [for_var].
  - apply wn_ret.
  - apply wn_bind; [apply Hb | intros v'; apply IH].
Qed.

Lemma wn_while_true {World R : Type} (body : M World (ctl R)) :
  writes_nothing body ->
  forall fuel, writes_nothing (while_true fuel body).
Proof.
  intros Hb. induction fuel as [|fuel IH]; cbn [while_true].
  - intros st. exists []. cbn. now rewrite app_nil_r.
  - apply wn_bind; [exact Hb|]. intros [| |r];
      [exact IH | apply wn_ret | apply wn_ret].
Qed.

Section ReconcilerMore.

Variable World : Type.
Variable subprocess_run : list string -> World -> CompletedProcess * World.

(** In this section every call of [subprocess.run] returns. *)

#[local] Abbreviation check_map_body := (check_map_body World subprocess_run returns_always).
#[local] Abbreviation check_map_ := (check_map_ World subprocess_run returns_always).
#[local] Abbreviation apply_map_ := (apply_map_ World subprocess_run returns_always).
#[local] Abbreviation apply_map_body := (apply_map_body World subprocess_run returns_always).
#[local] Abbreviation configure_map_ := (configure_map_ World subprocess_run returns_always).
#[local] Abbreviation configure_map_turn := (configure_map_turn World subprocess_run returns_always).
#[local] Abbreviation configure_map_ask := (configure_map_ask World subprocess_run returns_always).
#[local] Abbreviation all_matched := (all_matched World subprocess_run).
#[local] Abbreviation state := (state World).

(** On well-shaped rules [check_map_] starts one [xsetwacom get] per
    rule, in document order and also after a mismatch, prints the header,
    one row per rule and the verdict line last, returns [True] exactly
    when every rule matches, and leaves the console input alone. *)
Theorem check_map__reads_every_rule (name_ type_ id_ : string)
    (map_ : mapping) (st : state) :
  well_shaped map_ ->
  exists w' evs,
    check_map_ name_ type_ id_ map_ st =
      (Ok (all_matched id_ map_ (world st)),
       State w' (stdin st)
         (trace st
          ++ [EPrint ("NAME: " ++ name_ ++ PyStr.nl ++ "TYPE: " ++ type_)]
          ++ evs
          ++ [EPrint (verdict_line (all_matched id_ map_ (world st)))])%list)
    /\ processes evs = map (reader_event id_) map_
    /\ List.length evs = 2 * List.length map_.
Proof.
  intros Hws. unfold check_map_.
  unfold bind at 1. unfold print at 1. unfold bind at 1.
  destruct (check_loop_reads World subprocess_run id_ map_ Hws true
              (log (EPrint ("NAME: " ++ name_ ++ PyStr.nl ++ "TYPE: " ++ type_)) st))
    as (w' & evs & Heq & Hp & Hl).
  rewrite Heq. cbn [andb log world stdin trace].
  exists w', evs. split; [|split; assumption].
  destruct (all_matched id_ map_ (world st));
    cbn [negb verdict_line]; unfold bind, print, ret, log;
    cbn [world stdin trace]; rewrite <- !app_assoc; reflexivity.
Qed.

(** *** Rules that are too short *)

Lemma check_map_body_short (id_ : string) (r : rule) (_m : bool) (st : state) :
  List.length r < 3 ->
  fst (check_map_body id_ r _m st) = Raise IndexError.
Proof.
  destruct r as [|p [|q [|e label]]]; cbn [List.length]; try lia; intros _;
    try reflexivity.
  unfold check_map_body, bind, item, run_, returns_always. cbn [nth_error].
  unfold ret at 1 2.
  destruct (subprocess_run _ (world st)); reflexivity.
Qed.

Lemma check_loop_short (id_ : string) (good : mapping) (r : rule)
    (rest : mapping) :
  well_shaped good ->
  List.length r < 3 ->
  forall (_m : bool) (st : state),
  fst (for_var (good ++ r :: rest)%list _m (check_map_body id_) st)
    = Raise IndexError.
Proof.
  intros Hg Hr _m st. rewrite for_var_app.
  destruct (check_loop_run World subprocess_run id_ good Hg _m st)
    as (w' & evs & Heq & _).
  rewrite Heq. cbn [for_var]. unfold bind.
  pose proof (check_map_body_short id_ r
                (_m && all_matched id_ good (world st))
                (State w' (stdin st) (trace st ++ evs)%list) Hr) as H.
  destruct (check_map_body id_ r _ _) as [[b|e|] s1]; cbn [fst] in *;
    congruence.
Qed.

(** A rule with fewer than three elements makes [check_map_] raise
    [IndexError] when its turn comes, before the verdict line, and
    [configure_map_] ends with that exception without prompting. *)
Theorem short_rule_raises (fuel : nat) (name_ type_ id_ : string)
    (good : mapping) (r : rule) (rest : mapping) (st : state) :
  well_shaped good ->
  List.length r < 3 ->
  fst (check_map_ name_ type_ id_ (good ++ r :: rest)%list st) = Raise IndexError
  /\ configure_map_ (S fuel) name_ type_ id_ (good ++ r :: rest)%list st =
       (Raise IndexError, snd (check_map_ name_ type_ id_ (good ++ r :: rest)%list st))
  /\ stdin (snd (check_map_ name_ type_ id_ (good ++ r :: rest)%list st)) = stdin st.
Proof.
  intros Hg Hr.
  assert (H : fst (check_map_ name_ type_ id_ (good ++ r :: rest)%list st)
              = Raise IndexError).
  { unfold check_map_. unfold bind at 1. unfold print at 1. unfold bind at 1.
    match goal with |- context [for_var _ true _ ?s] =>
      pose proof (check_loop_short id_ good r rest Hg Hr true s) as H;
      destruct (for_var (good ++ r :: rest)%list true (check_map_body id_) s)
        as [[b|e|] s1]
    end; cbn [fst] in *; congruence. }
  split; [exact H|]. split; [|apply check_map__stdin].
  rewrite (configure_map__step World subprocess_run).
  rewrite (configure_map_turn_run World subprocess_run).
  destruct (check_map_ name_ type_ id_ (good ++ r :: rest)%list st) as [o s1].
  cbn [fst snd] in *. subst o. reflexivity.
Qed.

Lemma apply_map_body_short (id_ : string) (r : rule) (st : state) :
  List.length r < 3 ->
  apply_map_body id_ r st = (Raise IndexError, st).
Proof.
  destruct r as [|p [|q [|e label]]]; cbn [List.length]; try lia; intros _;
    reflexivity.
Qed.

(** [apply_map_] stops at the first rule with fewer than three elements
    with [IndexError]: the rules before it have been written, one set
    command each, that rule and the rules after it have not. *)
Theorem apply_map__stops_at_short_rule (id_ : string) (good : mapping)
    (r : rule) (rest : mapping) (st : state) :
  well_shaped good ->
  List.length r < 3 ->
  exists w',
    apply_map_ id_ (good ++ r :: rest)%list st =
      (Raise IndexError,
       State w' (stdin st) (trace st ++ map (writer_event id_) good)%list)
    /\ apply_map_ id_ good st =
         (Ok tt,
          State w' (stdin st) (trace st ++ map (writer_event id_) good)%list).
Proof.
  intros Hg Hr.
  destruct (apply_map__run World subprocess_run id_ good Hg st) as (w' & Heq).
  exists w'. split; [|exact Heq].
  unfold apply_map_ in *. rewrite for_app, Heq. cbn [for_]. unfold bind.
  now rewrite apply_map_body_short.
Qed.

(** *** The console at its end *)

Lemma prompt_loop_eof (id_ : string) (map_ : mapping) (others : list string) :
  forall (fuel : nat) (st : state),
  forallb other_answer others = true ->
  List.length others < fuel ->
  stdin st = others ->
  while_true fuel (configure_map_ask id_ map_) st =
    (Raise EOFError,
     State (world st) []
       (trace st ++ prompted others ++ [EInput apply_prompt None])%list).
Proof.
  induction others as [|a others IH]; intros fuel st Hj Hf Hin;
    destruct fuel as [|fuel]; cbn [List.length] in Hf; try lia;
    cbn [while_true]; unfold bind at 1.
  - unfold configure_map_ask, bind, input, log. rewrite Hin. reflexivity.
  - cbn [forallb] in Hj. apply andb_prop in Hj as [Ha Hj].
    rewrite (ask_other World subprocess_run id_ map_ st a others Hin Ha).
    rewrite (IH fuel _ Hj); [|lia|reflexivity].
    cbn [world trace]. rewrite <- app_assoc. reflexivity.
Qed.

(** When some rule mismatches and the console ends before a y or an n
    was given, [configure_map_] prompts once per line left and once
    more, and ends with [EOFError]; nothing is read from or written to
    the device after the Checking pass. *)
Theorem console_end_raises (fuel : nat) (name_ type_ id_ : string)
    (map_ : mapping) (st : state) :
  well_shaped map_ ->
  all_matched id_ map_ (world st) = false ->
  forallb other_answer (stdin st) = true ->
  List.length (stdin st) < fuel ->
  let checked := snd (check_map_ name_ type_ id_ map_ st) in
  configure_map_ fuel name_ type_ id_ map_ st =
    (Raise EOFError,
     State (world checked) []
       (trace checked ++ prompted (stdin st)
        ++ [EInput apply_prompt None])%list).
Proof.
  intros Hws Hall Hj Hf checked. subst checked.
  destruct fuel as [|fuel]; [lia|].
  destruct (check_map__run World subprocess_run name_ type_ id_ map_ st Hws)
    as (w' & evs & Heq & Hev).
  rewrite Hall in Heq.
  rewrite (configure_map__step World subprocess_run).
  rewrite (configure_map_turn_run World subprocess_run), Heq. cbn [snd].
  rewrite (prompt_loop_eof id_ map_ (stdin st) (S fuel)
             (State w' (stdin st) (trace st ++ evs)%list) Hj Hf eq_refl).
  reflexivity.
Qed.

(** *** White space does not change the verdict *)

(** White space added before or after the text that [xsetwacom get]
    prints, or before or after the expected value of the rule, changes
    neither the verdict on the rule nor the flag returned. *)
Theorem verdict_ignores_padding (id_ p q e : string) (label : list string)
    (_m : bool) (st1 st2 : state) (a b c d : string) :
  all_chars PyStr.isspace a = true ->
  all_chars PyStr.isspace b = true ->
  all_chars PyStr.isspace c = true ->
  all_chars PyStr.isspace d = true ->
  stdout (fst (subprocess_run (get_cmd id_ p q) (world st2))) =
    a ++ stdout (fst (subprocess_run (get_cmd id_ p q) (world st1))) ++ b ->
  fst (check_map_body id_ (p :: q :: (c ++ e ++ d) :: label) _m st2) =
  fst (check_map_body id_ (p :: q :: e :: label) _m st1).
Proof.
  intros Ha Hb Hc Hd Hout.
  rewrite !(check_map_body_run World subprocess_run). cbv zeta. cbn [fst].
  unfold rule_matches.
  now rewrite Hout, (strip_padding a _ b Ha Hb), (strip_padding c e d Hc Hd).
Qed.

(** *** The loop never writes *)

End ReconcilerMore.

(** ** Nothing is written, whether [subprocess.run] returns or raises *)

Section Harmless.

Variable World : Type.
Variable subprocess_run : list string -> World -> CompletedProcess * World.
Variable run_raises : list string -> World -> option (exn * World).

#[local] Abbreviation check_map_body :=
  (check_map_body World subprocess_run run_raises).
#[local] Abbreviation check_map_ := (check_map_ World subprocess_run run_raises).
#[local] Abbreviation apply_map_ := (apply_map_ World subprocess_run run_raises).
#[local] Abbreviation configure_map_ :=
  (configure_map_ World subprocess_run run_raises).
#[local] Abbreviation configure_map_turn :=
  (configure_map_turn World subprocess_run run_raises).
#[local] Abbreviation configure_map_ask :=
  (configure_map_ask World subprocess_run run_raises).
#[local] Abbreviation state := (state World).

Lemma wn_run_ (argv : list string) :
  harmless (ERun argv) = true ->
  writes_nothing (run_ World subprocess_run run_raises argv).
Proof.
  intros H st. unfold run_.
  destruct (run_raises argv (world st)) as [[e w]|];
    [|destruct (subprocess_run argv (world st)) as [cp w]];
    (exists [ERun argv]; split; [reflexivity|]);
    cbn [forallb]; now rewrite H.
Qed.

Lemma harmless_not_writer (e : event) :
  harmless e = true -> negb (is_writer e) = true.
Proof.
  destruct e as [[|tool [|verb argv]]| |]; try reflexivity.
  unfold harmless, is_process, is_reader, is_writer, is_listing.
  cbn [negb orb]. intros H.
  destruct (String.eqb tool "xsetwacom"); cbn [andb] in *; [|reflexivity].
  destruct (String.eqb_spec verb "set") as [->|]; [|reflexivity].
  destruct argv as [|b [|c argv]]; cbn in H; discriminate.
Qed.

Lemma wn_item (r : rule) (i : nat) : writes_nothing (@item World r i).
Proof.
  unfold item. destruct (nth_error r i); [apply wn_ret | apply wn_raise].
Qed.

Lemma wn_check_map_ (name_ type_ id_ : string) (map_ : mapping) :
  writes_nothing (check_map_ name_ type_ id_ map_).
Proof.
  unfold check_map_.
  apply wn_bind; [apply wn_print | intros _].
  apply wn_bind.
  - apply wn_for_var. intros r _m. unfold check_map_body.
    apply wn_bind; [apply wn_item | intros a0].
    apply wn_bind; [apply wn_item | intros a1].
    apply wn_bind; [now apply wn_run_ | intros _b].
    apply wn_bind; [apply wn_item | intros a2].
    destruct (String.eqb _ _).
    + apply wn_bind.
      * destruct (4 <=? List.length r)%nat; [|apply wn_ret].
        apply wn_bind; [apply wn_item | intros a3; apply wn_ret].
      * intros row. apply wn_bind; [apply wn_print | intros _; apply wn_ret].
    + apply wn_bind; [apply wn_print | intros _; apply wn_ret].
  - intros _m. apply wn_bind; [|intros _; apply wn_ret].
    destruct (negb _m); apply wn_print.
Qed.

Lemma wn_configure_map_ask (id_ : string) (map_ : mapping) :
  writes_nothing (configure_map_ask id_ map_).
Proof.
  unfold configure_map_ask.
  apply wn_bind; [apply wn_input | intros _b].
  destruct (String.eqb _b "y").
  - apply wn_bind; [|intros _; apply wn_ret].
    change (call apply_map_params ["id_"; "map_"; "name_"; "type_"]
                 (apply_map_ id_ map_))
      with (@raise World unit TypeError).
    apply wn_raise.
  - destruct (String.eqb _b "n"); apply wn_ret.
Qed.

Lemma wn_configure_map_ (fuel : nat) (name_ type_ id_ : string)
    (map_ : mapping) :
  writes_nothing (configure_map_ fuel name_ type_ id_ map_).
Proof.
  unfold configure_map_. apply wn_while_true. unfold configure_map_turn.
  apply wn_bind; [apply wn_check_map_ | intros _a].
  destruct _a; [apply wn_ret|].
  apply wn_bind; [apply wn_while_true, wn_configure_map_ask | intros [v|]];
    apply wn_ret.
Qed.

End Harmless.

Section ReconcilerFrame.

Variable World : Type.
Variable subprocess_run : list string -> World -> CompletedProcess * World.

(** In this section every call of [subprocess.run] returns. *)

#[local] Abbreviation configure_map_ :=
  (configure_map_ World subprocess_run returns_always).
#[local] Abbreviation state := (state World).

(** [configure_map_] never starts an [xsetwacom set]: whatever the rules,
    the device, the answers on the console and the way the function
    ends, no event it adds to the trace is a State Writer call, and every
    process it starts is a State Reader call. *)
Theorem configure_map__never_writes (fuel : nat) (name_ type_ id_ : string)
    (map_ : mapping) (st : state) :
  exists evs,
    trace (snd (configure_map_ fuel name_ type_ id_ map_ st)) =
      (trace st ++ evs)%list
    /\ forallb (fun e => negb (is_writer e)) evs = true
    /\ forallb (fun e => negb (is_process e) || is_reader e || is_listing e)
               evs = true.
Proof.
  destruct (wn_configure_map_ World subprocess_run returns_always
              fuel name_ type_ id_ map_ st) as (evs & Ht & Hq).
  exists evs. repeat split; [exact Ht | | exact Hq].
  rewrite forallb_forall in *. intros e He.
  apply harmless_not_writer. now apply Hq.
Qed.

End ReconcilerFrame.

(** ** More on the Mapping Source and the script *)

Section ScriptMore.

Variable World : Type.
Variable subprocess_run : list string -> World -> CompletedProcess * World.
Variable load_json : string -> World -> load_result.
Variable is_file : string -> World -> bool.
Variable which : string -> World -> bool.
Variable default_map_locations_ : list location.

(** In this section every call of [subprocess.run] returns. *)

#[local] Abbreviation get_device_id_ := (get_device_id_ World subprocess_run returns_always).
#[local] Abbreviation configure_map_ := (configure_map_ World subprocess_run returns_always).
#[local] Abbreviation parse_mapping_file_ := (parse_mapping_file_ World load_json).
#[local] Abbreviation find_mapping_file_ := (find_mapping_file_ World is_file).
#[local] Abbreviation script_ :=
  (script_ World subprocess_run returns_always load_json is_file which default_map_locations_).
#[local] Abbreviation state := (state World).
#[local] Abbreviation listed := (listed World subprocess_run).

#[local] Abbreviation args_file_ := (args_file_ default_map_locations_).

(** *** [parse_mapping_file_] *)

Lemma parse_mapping_file__none (f : string) (st : state) :
  fst (parse_mapping_file_ f st) = Ok None ->
  exists msg, parse_mapping_file_ f st = (Ok None, log (EPrint msg) st).
Proof.
  unfold parse_mapping_file_.
  destruct (load_json f (world st)) as [| |_a];
    try (intros _; eexists; reflexivity).
  cbn [parse_mapping_file_for]. unfold bind, lift, print, ret.
  destruct (py_in "name" _a) as [[|]|e|]; cbn [negb fst];
    try discriminate; try (intros _; eexists; reflexivity).
  destruct (py_in "type" _a) as [[|]|e|]; cbn [negb fst];
    try discriminate; try (intros _; eexists; reflexivity).
  destruct (py_in "map" _a) as [[|]|e|]; cbn [negb fst];
    try discriminate; try (intros _; eexists; reflexivity).
Qed.

(** On a file that holds a JSON object [parse_mapping_file_] returns the
    object as it is, and prints nothing, exactly when the keys name,
    type and map are all present, whatever their values and the other
    keys; otherwise it returns [None] after one message, which is the
    same text whichever key is missing. *)
Theorem parse_mapping_file__checks_keys_only (f : string)
    (kv : list (string * json)) (st : state) :
  load_json f (world st) = Loaded (JDict kv) ->
  (parse_mapping_file_ f st = (Ok (Some (JDict kv)), st) <->
   exists a b c,
     dict_get "name" kv = Some a /\ dict_get "type" kv = Some b
     /\ dict_get "map" kv = Some c)
  /\ (parse_mapping_file_ f st = (Ok (Some (JDict kv)), st)
      \/ parse_mapping_file_ f st =
           (Ok None, log (EPrint "Map file is missing value: {_b}") st)).
Proof.
  intros Hload.
  rewrite (parse_mapping_file__object World load_json f kv st Hload).
  destruct (existsb (fun e => String.eqb "name" (fst e)) kv) eqn:Hn;
    [destruct (existsb (fun e => String.eqb "type" (fst e)) kv) eqn:Ht;
     [destruct (existsb (fun e => String.eqb "map" (fst e)) kv) eqn:Hm|]|];
    cbn [andb].
  - split; [|now left]. split; [intros _|reflexivity].
    apply in_dict_get in Hn as [a Ha]. apply in_dict_get in Ht as [b Hb].
    apply in_dict_get in Hm as [c Hc]. now exists a, b, c.
  - split; [|now right]. split; [discriminate|].
    intros (a & b & c & _ & _ & Hc). apply dict_get_in in Hc. congruence.
  - split; [|now right]. split; [discriminate|].
    intros (a & b & c & _ & Hb & _). apply dict_get_in in Hb. congruence.
  - split; [|now right]. split; [discriminate|].
    intros (a & b & c & Ha & _ & _). apply dict_get_in in Ha. congruence.
Qed.

(** *** Early exits *)

Lemma script_without_tool (fuel : nat) (arg : option string) (st : state) :
  which "xsetwacom" (world st) = false ->
  script_ fuel arg st =
    (Raise SystemExit, log (EPrint "Couldn't find executable: xsetwacom") st).
Proof.
  intros Hw. unfold script_. unfold bind at 1. rewrite Hw. reflexivity.
Qed.

(** The script after the tool was found and the lookup of the file
    left the state as it was. *)
Lemma script_with_tool (fuel : nat) (arg : option string) (st : state) :
  which "xsetwacom" (world st) = true ->
  script_ fuel arg st =
  match find_mapping_file_ (args_file_ arg) st with
  | (Ok None, st1) => (Raise SystemExit, st1)
  | (Ok (Some file_), st1) =>
      match parse_mapping_file_ file_ st1 with
      | (Ok None, st2) => (Raise SystemExit, st2)
      | (Ok (Some dict_), st2) =>
          if negb (py_bool dict_) then (Raise SystemExit, st2)
          else
            match py_getitem dict_ "name", py_getitem dict_ "type" with
            | Ok name_, Ok type_ =>
                match as_str name_, as_str type_ with
                | Some name_, Some type_ =>
                    match get_device_id_ name_ type_ st2 with
                    | (Ok None, st3) => (Raise SystemExit, st3)
                    | (Ok (Some id_), st3) =>
                        if String.eqb id_ "" then (Raise SystemExit, st3)
                        else
                          match py_getitem dict_ "map" with
                          | Ok map_ =>
                              match as_mapping map_ with
                              | Some map_ =>
                                  match configure_map_ fuel name_ type_ id_
                                          map_ st3 with
                                  | (Ok _, st4) => (Ok tt, st4)
                                  | (Raise e, st4) => (Raise e, st4)
                                  | (OutOfFuel, st4) => (OutOfFuel, st4)
                                  end
                              | None => (Raise OutsideModel, st3)
                              end
                          | Raise e => (Raise e, st3)
                          | OutOfFuel => (OutOfFuel, st3)
                          end
                    | (Raise e, st3) => (Raise e, st3)
                    | (OutOfFuel, st3) => (OutOfFuel, st3)
                    end
                | _, _ => (Raise OutsideModel, st2)
                end
            | Ok _, Raise e => (Raise e, st2)
            | Ok _, OutOfFuel => (OutOfFuel, st2)
            | Raise e, _ => (Raise e, st2)
            | OutOfFuel, _ => (OutOfFuel, st2)
            end
      | (Raise e, st2) => (Raise e, st2)
      | (OutOfFuel, st2) => (OutOfFuel, st2)
      end
  | (Raise e, st1) => (Raise e, st1)
  | (OutOfFuel, st1) => (OutOfFuel, st1)
  end.
Proof.
  intros Hw. unfold script_, args_file_.
  unfold bind at 1. rewrite Hw. cbn [negb]. unfold bind at 1. unfold ret at 1.
  unfold bind at 1.
  destruct (find_mapping_file_ _ st) as [[[file_|]|e|] st1]; try reflexivity.
  unfold bind at 1.
  destruct (parse_mapping_file_ file_ st1) as [[[dict_|]|e|] st2];
    try reflexivity.
  destruct (py_bool dict_); cbn [negb]; [|reflexivity].
  unfold bind at 1. unfold lift at 1.
  destruct (py_getitem dict_ "name") as [name_|e|];
    [|destruct (py_getitem dict_ "type"); reflexivity ..].
  unfold bind at 1. unfold lift at 1.
  destruct (py_getitem dict_ "type") as [type_|e|]; try reflexivity.
  destruct (as_str name_) as [n|]; [|reflexivity].
  destruct (as_str type_) as [t|]; [|reflexivity].
  unfold bind at 1.
  destruct (get_device_id_ n t st2) as [[[id_|]|e|] st3]; try reflexivity.
  destruct (String.eqb id_ ""); [reflexivity|].
  unfold bind at 1. unfold lift at 1.
  destruct (py_getitem dict_ "map") as [map_|e|]; try reflexivity.
  destruct (as_mapping map_) as [m|]; [|reflexivity].
  unfold bind at 1.
  destruct (configure_map_ fuel n t id_ m st3) as [[r|e|] st4]; reflexivity.
Qed.

(** Without the tool, without a file at any candidate location, or with
    a file that [parse_mapping_file_] rejects, the script exits by
    [SystemExit] after printing one line: it starts no process, reads
    nothing from the console and leaves the world as it was. *)
Theorem script_exits_early (fuel : nat) (arg : option string) (st : state) :
  let l := match args_file_ arg with ArgStr s => [LStr s] | ArgList l => l end in
  (which "xsetwacom" (world st) = false ->
   script_ fuel arg st =
     (Raise SystemExit, log (EPrint "Couldn't find executable: xsetwacom") st))
  /\ (which "xsetwacom" (world st) = true ->
      (forall q, In q (candidates l) -> is_file q (world st) = false) ->
      script_ fuel arg st =
        (Raise SystemExit, log (EPrint "No mapping file.") st))
  /\ (which "xsetwacom" (world st) = true ->
      forall f,
      find_mapping_file_ (args_file_ arg) st = (Ok (Some f), st) ->
      fst (parse_mapping_file_ f st) = Ok None ->
      exists msg,
        script_ fuel arg st = (Raise SystemExit, log (EPrint msg) st)).
Proof.
  intros l. split; [apply script_without_tool|]. split.
  - intros Hw Hnone. rewrite (script_with_tool fuel arg st Hw).
    unfold find_mapping_file_. fold l.
    rewrite (find_mapping_file_for_run World is_file).
    apply find_nothing in Hnone. now rewrite Hnone.
  - intros Hw f Hfind Hparse. rewrite (script_with_tool fuel arg st Hw), Hfind.
    destruct (parse_mapping_file__none f st Hparse) as (msg & Heq).
    exists msg. now rewrite Heq.
Qed.

Lemma parse_mapping_file__membership (f : string) (v : json) (st : state)
    (bn bt bm : bool) :
  load_json f (world st) = Loaded v ->
  py_in "name" v = Ok bn -> py_in "type" v = Ok bt -> py_in "map" v = Ok bm ->
  parse_mapping_file_ f st =
    if bn && bt && bm then (Ok (Some v), st)
    else (Ok None, log (EPrint "Map file is missing value: {_b}") st).
Proof.
  intros Hload Hn Ht Hm. unfold parse_mapping_file_. rewrite Hload.
  cbn [parse_mapping_file_for]. unfold bind, lift, print, ret.
  rewrite Hn. destruct bn; cbn [negb andb]; [|reflexivity].
  rewrite Ht. destruct bt; cbn [negb andb]; [|reflexivity].
  rewrite Hm. destruct bm; reflexivity.
Qed.

(** A file whose document is not a JSON object never brings the script
    to the device: the script ends with [TypeError] or [SystemExit],
    having started no process. *)
Theorem script_stops_on_non_object (fuel : nat) (arg : option string)
    (f : string) (v : json) (st : state) :
  which "xsetwacom" (world st) = true ->
  find_mapping_file_ (args_file_ arg) st = (Ok (Some f), st) ->
  load_json f (world st) = Loaded v ->
  match v with JDict _ => False | _ => True end ->
  exists e evs,
    script_ fuel arg st =
      (Raise e, State (world st) (stdin st) (trace st ++ evs)%list)
    /\ (e = TypeError \/ e = SystemExit)
    /\ forallb (fun ev => negb (is_process ev)) evs = true.
Proof.
  intros Hw Hfind Hload Hv.
  rewrite (script_with_tool fuel arg st Hw), Hfind.
  assert (Hst : st = State (world st) (stdin st) (trace st ++ [])%list)
    by (rewrite app_nil_r; now destruct st).
  destruct v as [ |b|z|q|s|l|kv]; try contradiction;
    try (rewrite (parse_mapping_file__scalar World load_json f _ st Hload I);
         exists TypeError, []; rewrite <- Hst; now auto).
  - rewrite (parse_mapping_file__membership f (JStr s) st _ _ _ Hload
               eq_refl eq_refl eq_refl).
    match goal with |- context [if ?b then (Ok (Some _), st) else _] =>
      destruct b end.
    + destruct (py_bool (JStr s)); cbn [negb py_getitem].
      * exists TypeError, []. rewrite <- Hst. auto.
      * exists SystemExit, []. rewrite <- Hst. auto.
    + exists SystemExit, [EPrint "Map file is missing value: {_b}"]. auto.
  - rewrite (parse_mapping_file__membership f (JList l) st _ _ _ Hload
               eq_refl eq_refl eq_refl).
    match goal with |- context [if ?b then (Ok (Some _), st) else _] =>
      destruct b end.
    + destruct (py_bool (JList l)); cbn [negb py_getitem].
      * exists TypeError, []. rewrite <- Hst. auto.
      * exists SystemExit, []. rewrite <- Hst. auto.
    + exists SystemExit, [EPrint "Map file is missing value: {_b}"]. auto.
Qed.

(** With the tool present, a file found, a document whose name and type
    are strings and whose map is a list of lists of strings, and a
    device found, the script is [configure_map_] on the document's rules
    with the id found, started in the state that the listing left: it
    ends as [configure_map_] ends. *)
Theorem script_reaches_reconciler (fuel : nat) (arg : option string)
    (f : string) (kv : list (string * json)) (name_ type_ id_ : string)
    (m : json) (map_ : mapping) (st : state) :
  which "xsetwacom" (world st) = true ->
  find_mapping_file_ (args_file_ arg) st = (Ok (Some f), st) ->
  load_json f (world st) = Loaded (JDict kv) ->
  dict_get "name" kv = Some (JStr name_) ->
  dict_get "type" kv = Some (JStr type_) ->
  dict_get "map" kv = Some m ->
  as_mapping m = Some map_ ->
  get_device_id_for name_ type_ (listed st) = Some id_ ->
  script_ fuel arg st =
  match configure_map_ fuel name_ type_ id_ map_
          (State (snd (subprocess_run list_cmd (world st))) (stdin st)
                 (trace st ++ [ERun list_cmd])%list) with
  | (Ok _, st') => (Ok tt, st')
  | (Raise e, st') => (Raise e, st')
  | (OutOfFuel, st') => (OutOfFuel, st')
  end.
Proof.
  intros Hw Hfind Hload Hn Ht Hm Hmap Hid.
  rewrite (script_with_tool fuel arg st Hw), Hfind.
  rewrite (parse_mapping_file__object World load_json f kv st Hload).
  rewrite (dict_get_in _ _ _ Hn), (dict_get_in _ _ _ Ht), (dict_get_in _ _ _ Hm).
  cbn [andb].
  assert (Hb : py_bool (JDict kv) = true)
    by (destruct kv; [discriminate|reflexivity]).
  rewrite Hb. cbn [negb py_getitem]. rewrite Hn, Ht, Hm. cbn [as_str].
  rewrite (get_device_id__run World subprocess_run), Hid.
  cbv beta iota zeta.
  assert (Hne : String.eqb id_ "" = false).
  { apply first_match_found in Hid as (before & l & after & _ & P & _).
    destruct (device_matcher__sound l name_ id_ type_ P)
      as (w1 & w2 & w3 & w4 & w5 & _ & _ & _ & Hi & _).
    now apply String.eqb_neq. }
  rewrite Hne, Hmap. reflexivity.
Qed.

(** *** The script only asks *)

End ScriptMore.

(** ** The processes of a run *)

Section ScriptFrame.

Variable World : Type.
Variable subprocess_run : list string -> World -> CompletedProcess * World.
Variable run_raises : list string -> World -> option (exn * World).
Variable load_json : string -> World -> load_result.
Variable is_file : string -> World -> bool.
Variable which : string -> World -> bool.
Variable default_map_locations_ : list location.

#[local] Abbreviation get_device_id_ :=
  (get_device_id_ World subprocess_run run_raises).
#[local] Abbreviation configure_map_ :=
  (configure_map_ World subprocess_run run_raises).
#[local] Abbreviation parse_mapping_file_ := (parse_mapping_file_ World load_json).
#[local] Abbreviation find_mapping_file_ := (find_mapping_file_ World is_file).
#[local] Abbreviation script_ :=
  (script_ World subprocess_run run_raises load_json is_file which
     default_map_locations_).
#[local] Abbreviation state := (state World).

Lemma wn_find_mapping_file_ (a : file_arg) :
  writes_nothing (find_mapping_file_ a).
Proof.
  intros st. unfold find_mapping_file_.
  rewrite (find_mapping_file_for_run World is_file).
  destruct (find _ _).
  - exists []. cbn. now rewrite app_nil_r.
  - exists [EPrint "No mapping file."]. split; reflexivity.
Qed.

Lemma wn_parse_mapping_file_for (_a : json) (keys : list string) :
  writes_nothing (parse_mapping_file_for World _a keys).
Proof.
  induction keys as [|k keys IH]; cbn [parse_mapping_file_for].
  - apply wn_ret.
  - apply wn_bind; [apply wn_lift | intros present].
    destruct (negb present); [|exact IH].
    apply wn_bind; [apply wn_print | intros _; apply wn_ret].
Qed.

Lemma wn_parse_mapping_file_ (f : string) :
  writes_nothing (parse_mapping_file_ f).
Proof.
  intros st. unfold parse_mapping_file_.
  destruct (load_json f (world st)).
  - exists [EPrint ("Failed to parse file: " ++ f)]. split; reflexivity.
  - exists [EPrint ("Failed to parse file: " ++ f)]. split; reflexivity.
  - apply wn_parse_mapping_file_for.
Qed.

Lemma wn_get_device_id_ (name_ type_ : string) :
  writes_nothing (get_device_id_ name_ type_).
Proof.
  unfold get_device_id_.
  apply wn_bind; [now apply wn_run_ | intros _a].
  destruct (get_device_id_for _ _ _); [apply wn_ret|].
  apply wn_bind; [apply wn_print | intros _; apply wn_ret].
Qed.

Lemma wn_script_ (fuel : nat) (arg : option string) :
  writes_nothing (script_ fuel arg).
Proof.
  unfold script_. apply wn_bind.
  { intros st. exists []. cbn. now rewrite app_nil_r. }
  intros found. apply wn_bind.
  { destruct (negb found); [|apply wn_ret].
    apply wn_bind; [apply wn_print | intros _; apply wn_raise]. }
  intros _. apply wn_bind; [apply wn_find_mapping_file_ | intros [file_|]];
    [|apply wn_raise].
  apply wn_bind; [apply wn_parse_mapping_file_ | intros [dict_|]];
    [|apply wn_raise].
  destruct (negb (py_bool dict_)); [apply wn_raise|].
  apply wn_bind; [apply wn_lift | intros name_].
  apply wn_bind; [apply wn_lift | intros type_].
  destruct (as_str name_) as [n|]; [|apply wn_raise].
  destruct (as_str type_) as [t|]; [|apply wn_raise].
  apply wn_bind; [apply wn_get_device_id_ | intros [id_|]]; [|apply wn_raise].
  destruct (String.eqb id_ ""); [apply wn_raise|].
  apply wn_bind; [apply wn_lift | intros map_].
  destruct (as_mapping map_) as [m|]; [|apply wn_raise].
  apply wn_bind; [apply wn_configure_map_ | intros _; apply wn_ret].
Qed.

(** X18. In every run of the script that the embedding follows to its
    end, the only processes started are the device listing and
    [xsetwacom get], and [xsetwacom set] is never started: whatever the
    argument, the files, the device and the console, and whether the
    calls of [subprocess.run] return or raise.  The runs left out are
    those that the embedding ends with [OutsideModel]: on a document
    whose name or type is no string, or whose map is no list of lists
    of strings, the script goes on where the embedding stops. *)
Theorem script_only_asks (fuel : nat) (arg : option string) (st : state) :
  fst (script_ fuel arg st) <> Raise OutsideModel ->
  exists evs,
    trace (snd (script_ fuel arg st)) = (trace st ++ evs)%list
    /\ forallb (fun e => negb (is_process e) || is_reader e || is_listing e)
               evs = true
    /\ forallb (fun e => negb (is_writer e)) evs = true.
Proof.
  intros _.
  destruct (wn_script_ fuel arg st) as (evs & Ht & Hq).
  exists evs. repeat split; [exact Ht | exact Hq |].
  rewrite forallb_forall in *. intros e He.
  apply harmless_not_writer. now apply Hq.
Qed.

End ScriptFrame.

(** ** Labels and the layout of the audit *)

Lemma length_spaces (n : nat) : String.length (PyStr.spaces n) = n.
Proof. induction n as [|n IH]; cbn; [reflexivity | now rewrite IH]. Qed.

Lemma length_ljust (w : nat) (s : string) :
  String.length (PyStr.ljust w s) = Nat.max w (String.length s).
Proof. unfold PyStr.ljust. rewrite length_append, length_spaces. lia. Qed.

Lemma length_rjust (w : nat) (s : string) :
  String.length (PyStr.rjust w s) = Nat.max w (String.length s).
Proof. unfold PyStr.rjust. rewrite length_append, length_spaces. lia. Qed.

Section Layout.

Variable World : Type.
Variable subprocess_run : list string -> World -> CompletedProcess * World.

(** In this section every call of [subprocess.run] returns. *)

#[local] Abbreviation check_map_body := (check_map_body World subprocess_run returns_always).
#[local] Abbreviation check_map_ := (check_map_ World subprocess_run returns_always).
#[local] Abbreviation state := (state World).

(** The row printed for a matching rule pads property, parameter and
    value to 6, 2 and 25 characters and never cuts them: without a label
    it is 13 characters longer than the three padded values, so rows of
    rules within these widths are all 46 characters long. *)
Theorem yes_rows_align (id_ p q e : string) (_m : bool) (st : state) :
  rule_matches e (fst (subprocess_run (get_cmd id_ p q) (world st))) = true ->
  exists row,
    trace (snd (check_map_body id_ [p; q; e] _m st)) =
      (trace st ++ [ERun (get_cmd id_ p q); EPrint row])%list
    /\ String.length row =
         13 + Nat.max 6 (String.length p) + Nat.max 2 (String.length q)
         + Nat.max 25 (String.length e)
    /\ (String.length p <= 6 -> String.length q <= 2 ->
        String.length e <= 25 -> String.length row = 46).
Proof.
  intros Hm. rewrite (check_map_body_run World subprocess_run). cbv zeta.
  rewrite Hm. cbn [snd trace]. eexists. split; [reflexivity|].
  assert (L : String.length (yes_row p q e []) =
              13 + Nat.max 6 (String.length p) + Nat.max 2 (String.length q)
              + Nat.max 25 (String.length e)).
  { unfold yes_row. cbn [append String.length].
    repeat (rewrite ?length_append; cbn [append String.length]).
    rewrite !length_ljust, length_rjust. lia. }
  split; [exact L|]. intros Hp Hq He. rewrite L. lia.
Qed.

Lemma check_map_body_label (id_ : string) (r : rule) (_m : bool)
    (st1 st2 : state) :
  world st1 = world st2 ->
  fst (check_map_body id_ r _m st1) = fst (check_map_body id_ (firstn 3 r) _m st2)
  /\ world (snd (check_map_body id_ r _m st1)) =
     world (snd (check_map_body id_ (firstn 3 r) _m st2)).
Proof.
  intros Hw. destruct r as [|p [|q [|e label]]]; cbn [firstn].
  - split; [reflexivity|exact Hw].
  - split; [reflexivity|exact Hw].
  - unfold check_map_body, bind, item, run_, returns_always. cbn [nth_error].
    unfold ret, raise. cbv beta iota. rewrite Hw.
    destruct (subprocess_run _ (world st2)); split; reflexivity.
  - rewrite !(check_map_body_run World subprocess_run). cbv zeta.
    rewrite Hw. split; reflexivity.
Qed.

Lemma check_loop_label (id_ : string) (map_ : mapping) :
  forall (_m : bool) (st1 st2 : state),
  world st1 = world st2 ->
  fst (for_var map_ _m (check_map_body id_) st1) =
  fst (@for_var World rule bool (map (firstn 3) map_) _m
         (check_map_body id_) st2)
  /\ world (snd (for_var map_ _m (check_map_body id_) st1)) =
     world (snd (@for_var World rule bool (map (firstn 3) map_) _m
                   (check_map_body id_) st2)).
Proof.
  induction map_ as [|r map_ IH]; intros _m st1 st2 Hw.
  - split; [reflexivity|exact Hw].
  - cbn [map for_var]. unfold bind.
    destruct (check_map_body_label id_ r _m st1 st2 Hw) as [Ho Hw'].
    destruct (check_map_body id_ r _m st1) as [o1 s1].
    destruct (check_map_body id_ (firstn 3 r) _m st2) as [o2 s2].
    cbn [fst snd] in *. subst o2.
    destruct o1 as [b|e|]; [apply IH; exact Hw' | now split | now split].
Qed.

Lemma check_map__from_loop (name_ type_ id_ : string) (map_ : mapping)
    (st : state) :
  check_map_ name_ type_ id_ map_ st =
  match for_var map_ true (check_map_body id_)
          (log (EPrint ("NAME: " ++ name_ ++ PyStr.nl ++ "TYPE: " ++ type_)) st)
  with
  | (Ok _m, s1) => (Ok _m, log (EPrint (verdict_line _m)) s1)
  | (Raise e, s1) => (Raise e, s1)
  | (OutOfFuel, s1) => (OutOfFuel, s1)
  end.
Proof.
  unfold check_map_, bind, print, ret.
  destruct (for_var map_ true (check_map_body id_) _) as [[[|]|e|] s1];
    reflexivity.
Qed.

(** The label of a rule plays no part in the Checking pass but for the
    text of its row: with the labels cut off, [check_map_] gives the same
    verdict, or raises the same exception, and leaves the device in the
    same state. *)
Theorem check_map__ignores_labels (name_ type_ id_ : string)
    (map_ : mapping) (st : state) :
  fst (check_map_ name_ type_ id_ map_ st) =
  fst (check_map_ name_ type_ id_ (map (firstn 3) map_) st)
  /\ world (snd (check_map_ name_ type_ id_ map_ st)) =
     world (snd (check_map_ name_ type_ id_ (map (firstn 3) map_) st)).
Proof.
  rewrite !check_map__from_loop.
  match goal with |- context [for_var map_ true _ ?s] =>
    destruct (check_loop_label id_ map_ true s s eq_refl) as [Ho Hw];
    destruct (for_var map_ true (check_map_body id_) s) as [o1 s1];
    destruct (@for_var World rule bool (map (firstn 3) map_) true
                (check_map_body id_) s) as [o2 s2]
  end.
  cbn [fst snd] in *. subst o2.
  destruct o1 as [b|e|]; split; cbn [fst snd log world]; assumption || reflexivity.
Qed.

End Layout.

(** ** More runs on the simulated tablet *)

Module MoreRuns.

Import Sim.

#[local] Abbreviation sim_load := (fun f w => load_json f (files w)).
#[local] Abbreviation sim_is_file := (fun f w => is_file f (files w)).
#[local] Abbreviation sim_which := (fun (_ : string) w => tool_installed w).
#[local] Abbreviation sim_defaults :=
  [LPath "/home/user/.config/my-stuff/wacom-keymap.json"; LNone;
   LPath "/opt/wacom-keymapper/default.json"].

Lemma parsed_line_shape_witness :
  parse_device_line "Wacom Pad pad   id: 12   type: PAD   "
    = Some ("Wacom Pad pad", "12", "PAD")
  /\ exists w1 w2 w3 w4 w5,
       "Wacom Pad pad   id: 12   type: PAD   " =
         "Wacom Pad pad" ++ w1 ++ "id:" ++ w2 ++ "12" ++ w3 ++ "type:" ++ w4
         ++ "PAD" ++ w5
       /\ "Wacom Pad pad" <> "" /\ all_chars PyStr.notnewline "Wacom Pad pad" = true
       /\ "12" <> "" /\ all_chars PyStr.isdigit "12" = true
       /\ all_chars PyStr.notnewline "PAD" = true
       /\ w1 <> "" /\ all_chars PyStr.isspace w1 = true
       /\ w2 <> "" /\ all_chars PyStr.isspace w2 = true
       /\ w3 <> "" /\ all_chars PyStr.isspace w3 = true
       /\ w4 <> "" /\ all_chars PyStr.isspace w4 = true
       /\ all_chars PyStr.isspace w5 = true
       /\ forall t' c, "PAD" = t' ++ String c "" -> PyStr.isspace c = false.
Proof.
  assert (H : parse_device_line "Wacom Pad pad   id: 12   type: PAD   "
              = Some ("Wacom Pad pad", "12", "PAD"))
    by (vm_compute; reflexivity).
  split; [exact H|].
  exact (parsed_line_shape _ _ _ _ H).
Defined.

Lemma device_id_is_decimal_witness :
  fst (get_device_id_ "X" "PAD" (start scenario [])) = Ok (Some "7")
  /\ "7" <> ""
  /\ all_chars PyStr.isdigit "7" = true
  /\ (exists l, In l (listed tablet subprocess_run (start scenario []))
               /\ parse_device_line l = Some ("X", "7", "PAD"))
  /\ snd (get_device_id_ "X" "PAD" (start scenario [])) =
       State (snd (subprocess_run list_cmd (world (start scenario []))))
             (stdin (start scenario []))
             (trace (start scenario []) ++ [ERun list_cmd])%list.
Proof.
  assert (H : fst (get_device_id_ "X" "PAD" (start scenario []))
              = Ok (Some "7")) by (vm_compute; reflexivity).
  split; [exact H|].
  exact (device_id_is_decimal tablet subprocess_run "X" "PAD" "7"
           (start scenario []) H).
Defined.

Lemma padded_type_never_found_witness :
  PyStr.isspace " " = true
  /\ get_device_id_for "X" ("PAD" ++ String " " "")
       ["X  id: 7  type: PAD "; "X  id: 7  type: PAD"] = None.
Proof.
  assert (H : PyStr.isspace " " = true) by reflexivity.
  split; [exact H|].
  exact (padded_type_never_found "X" "PAD" " "
           ["X  id: 7  type: PAD "; "X  id: 7  type: PAD"] H).
Defined.

Lemma find_mapping_file__first_existing_witness :
  find_mapping_file_ tablet sim_is_file (ArgList Bench.locations)
    (start scenario []) = (Ok (Some "map.json"), start scenario [])
  /\ find_mapping_file_ tablet sim_is_file (ArgStr "conf//../map.json")
       (start scenario []) =
       (Ok None, log (EPrint "No mapping file.") (start scenario []))
  /\ find_mapping_file_ tablet sim_is_file (ArgStr "./map.json")
       (start scenario []) = (Ok (Some "map.json"), start scenario []).
Proof.
  pose proof (find_mapping_file__first_existing tablet sim_is_file
                (ArgList Bench.locations) (start scenario []))
    as (Hfirst & _ & _ & Hstr & _).
  split; [|split].
  - apply (proj2 (Hfirst "map.json")).
    exists ["/home/user/.config/my-stuff/wacom-keymap.json"], ["five.json"].
    split; [reflexivity|]. split; [reflexivity|].
    intros q [<-|[]]. reflexivity.
  - apply (proj2 (proj2 (Hstr "conf//../map.json" ltac:(discriminate)))).
    reflexivity.
  - apply (proj1 (proj2 (Hstr "./map.json" ltac:(discriminate)))).
    reflexivity.
Defined.

Lemma check_map__reads_every_rule_witness :
  well_shaped Bench.two_rules
  /\ exists w' evs,
       check_map_ "X" "PAD" "7" Bench.two_rules
         (start scenario []) =
         (Ok (all_matched tablet subprocess_run "7"
                Bench.two_rules (world (start scenario []))),
          State w' (stdin (start scenario []))
            (trace (start scenario [])
             ++ [EPrint ("NAME: " ++ "X" ++ PyStr.nl ++ "TYPE: " ++ "PAD")]
             ++ evs
             ++ [EPrint (verdict_line
                           (all_matched tablet subprocess_run "7"
                              Bench.two_rules
                              (world (start scenario []))))])%list)
       /\ processes evs = map (reader_event "7") Bench.two_rules
       /\ List.length evs = 2 * List.length Bench.two_rules.
Proof.
  assert (H : well_shaped Bench.two_rules)
    by repeat constructor.
  split; [exact H|].
  exact (check_map__reads_every_rule tablet subprocess_run "X" "PAD" "7"
           Bench.two_rules (start scenario []) H).
Defined.

Lemma short_rule_raises_witness :
  fst (check_map_ "X" "PAD" "7" ([["Button"; "1"; "key a"]] ++ ["Button"; "2"] :: [])%list
         (start scenario ["y"])) = Raise IndexError
  /\ configure_map_ 1 "X" "PAD" "7"
       ([["Button"; "1"; "key a"]] ++ ["Button"; "2"] :: [])%list
       (start scenario ["y"]) =
       (Raise IndexError,
        snd (check_map_ "X" "PAD" "7"
               ([["Button"; "1"; "key a"]] ++ ["Button"; "2"] :: [])%list
               (start scenario ["y"])))
  /\ stdin (snd (check_map_ "X" "PAD" "7"
                   ([["Button"; "1"; "key a"]] ++ ["Button"; "2"] :: [])%list
                   (start scenario ["y"]))) = stdin (start scenario ["y"]).
Proof.
  apply (short_rule_raises tablet subprocess_run 0 "X" "PAD" "7"
           [["Button"; "1"; "key a"]] ["Button"; "2"] []
           (start scenario ["y"])).
  - repeat constructor.
  - repeat constructor.
Defined.

Lemma apply_map__stops_at_short_rule_witness :
  exists w',
    apply_map_ "7" ([["Button"; "1"; "key a"]] ++ ["Button"; "2"] :: [["Button"; "3"; "key c"]])%list
      (start scenario []) =
      (Raise IndexError,
       State w' (stdin (start scenario []))
         (trace (start scenario [])
          ++ map (writer_event "7") [["Button"; "1"; "key a"]])%list)
    /\ apply_map_ "7" [["Button"; "1"; "key a"]] (start scenario []) =
         (Ok tt,
          State w' (stdin (start scenario []))
            (trace (start scenario [])
             ++ map (writer_event "7") [["Button"; "1"; "key a"]])%list).
Proof.
  apply (apply_map__stops_at_short_rule tablet subprocess_run "7"
           [["Button"; "1"; "key a"]] ["Button"; "2"]
           [["Button"; "3"; "key c"]] (start scenario [])).
  - repeat constructor.
  - repeat constructor.
Defined.

Lemma console_end_raises_witness :
  configure_map_ 3 "X" "PAD" "7" scenario_map (start scenario ["maybe"; ""]) =
    (Raise EOFError,
     State (world (snd (check_map_ "X" "PAD" "7" scenario_map
                          (start scenario ["maybe"; ""]))))
       []
       (trace (snd (check_map_ "X" "PAD" "7" scenario_map
                      (start scenario ["maybe"; ""])))
        ++ prompted (stdin (start scenario ["maybe"; ""]))
        ++ [EInput apply_prompt None])%list).
Proof.
  apply (console_end_raises tablet subprocess_run 3 "X" "PAD" "7"
           scenario_map (start scenario ["maybe"; ""])).
  - repeat constructor.
  - vm_compute; reflexivity.
  - vm_compute; reflexivity.
  - repeat constructor.
Defined.

Lemma verdict_ignores_padding_witness :
  fst (check_map_body "7" ["Button"; "1"; " " ++ "3" ++ ""] true
         (start padded [])) =
  fst (check_map_body "7" ["Button"; "1"; "3"] true (start Bench.plain [])).
Proof.
  apply (verdict_ignores_padding tablet subprocess_run "7" "Button" "1" "3"
           [] true (start Bench.plain []) (start padded []) "" " " " " "");
    reflexivity.
Defined.

Lemma parse_mapping_file__checks_keys_only_witness :
  parse_mapping_file_ "map.json" (start scenario []) =
    (Ok (Some scenario_doc), start scenario []).
Proof.
  apply (proj1 (parse_mapping_file__checks_keys_only tablet sim_load
                  "map.json"
                  [("name", JStr "X"); ("type", JStr "PAD");
                   ("map", JList [JList [JStr "Button"; JStr "1"; JStr "key a"]])]
                  (start scenario []) eq_refl)).
  exists (JStr "X"), (JStr "PAD"),
         (JList [JList [JStr "Button"; JStr "1"; JStr "key a"]]).
  repeat split.
Defined.

Lemma script_exits_early_witness :
  script_ 2 (Some "map.json") (start Bench.no_tool ["y"]) =
    (Raise SystemExit,
     log (EPrint "Couldn't find executable: xsetwacom")
         (start Bench.no_tool ["y"]))
  /\ script_ 2 None (start scenario ["y"]) =
       (Raise SystemExit, log (EPrint "No mapping file.") (start scenario ["y"]))
  /\ exists msg,
       script_ 2 (Some "broken.json") (start scenario ["y"]) =
         (Raise SystemExit, log (EPrint msg) (start scenario ["y"])).
Proof.
  split; [|split].
  - apply (proj1 (script_exits_early tablet subprocess_run sim_load
                    sim_is_file sim_which sim_defaults 2 (Some "map.json")
                    (start Bench.no_tool ["y"]))).
    reflexivity.
  - apply (proj1 (proj2 (script_exits_early tablet subprocess_run sim_load
                           sim_is_file sim_which sim_defaults 2 None
                           (start scenario ["y"])))).
    + reflexivity.
    + intros q [<-|[<-|[]]]; reflexivity.
  - apply (proj2 (proj2 (script_exits_early tablet subprocess_run sim_load
                           sim_is_file sim_which sim_defaults 2
                           (Some "broken.json") (start scenario ["y"])))
             eq_refl "broken.json"); reflexivity.
Defined.

Lemma script_stops_on_non_object_witness :
  exists e evs,
    script_ 2 (Some "list.json") (start scenario ["y"]) =
      (Raise e,
       State (world (start scenario ["y"])) (stdin (start scenario ["y"]))
             (trace (start scenario ["y"]) ++ evs)%list)
    /\ (e = TypeError \/ e = SystemExit)
    /\ forallb (fun ev => negb (is_process ev)) evs = true.
Proof.
  apply (script_stops_on_non_object tablet subprocess_run sim_load
           sim_is_file sim_which sim_defaults 2 (Some "list.json")
           "list.json" (JList [JStr "name"; JStr "type"; JStr "map"])
           (start scenario ["y"])); first [reflexivity | exact I].
Defined.

Lemma script_reaches_reconciler_witness :
  script_ 2 (Some "map.json") (start scenario ["n"]) =
  match configure_map_ 2 "X" "PAD" "7" scenario_map
          (State (snd (subprocess_run list_cmd (world (start scenario ["n"]))))
                 (stdin (start scenario ["n"]))
                 (trace (start scenario ["n"]) ++ [ERun list_cmd])%list) with
  | (Ok _, st') => (Ok tt, st')
  | (Raise e, st') => (Raise e, st')
  | (OutOfFuel, st') => (OutOfFuel, st')
  end.
Proof.
  apply (script_reaches_reconciler tablet subprocess_run sim_load
           sim_is_file sim_which sim_defaults 2 (Some "map.json") "map.json"
           [("name", JStr "X"); ("type", JStr "PAD");
            ("map", JList [JList [JStr "Button"; JStr "1"; JStr "key a"]])]
           "X" "PAD" "7"
           (JList [JList [JStr "Button"; JStr "1"; JStr "key a"]])
           scenario_map (start scenario ["n"]));
    first [reflexivity | vm_compute; reflexivity].
Defined.

Lemma yes_rows_align_witness :
  exists row,
    trace (snd (check_map_body "7" ["Button"; "1"; "key a"] true
                  (start converged []))) =
      (trace (start converged [])
       ++ [ERun (get_cmd "7" "Button" "1"); EPrint row])%list
    /\ String.length row =
         13 + Nat.max 6 (String.length "Button") + Nat.max 2 (String.length "1")
         + Nat.max 25 (String.length "key a")
    /\ (String.length "Button" <= 6 -> String.length "1" <= 2 ->
        String.length "key a" <= 25 -> String.length row = 46).
Proof.
  apply (yes_rows_align tablet subprocess_run "7" "Button" "1" "key a" true
           (start converged [])).
  vm_compute; reflexivity.
Defined.

Lemma device_line_accepted_iff_witness :
  parse_device_line "Wacom Pad pad   id: 12   type: PAD   " <> None.
Proof.
  apply (proj2 (device_line_accepted_iff
                  "Wacom Pad pad   id: 12   type: PAD   ")).
  exists "Wacom Pad pad", "   ", " ", "12", "   ", " ", "PAD", "   ".
  repeat split; first [reflexivity | discriminate].
Defined.

Lemma device_line_round_trip_witness :
  parse_device_line
    ("Wacom Pad pad" ++ "   " ++ "id:" ++ " " ++ "12" ++ "   " ++ "type:"
     ++ " " ++ "PAD" ++ "   ")
  = Some ("Wacom Pad pad", "12", "PAD")
  /\ get_device_id_for "Wacom Pad pad" "PAD"
       ["Wacom Pad pad" ++ "   " ++ "id:" ++ " " ++ "12" ++ "   " ++ "type:"
        ++ " " ++ "PAD" ++ "   "]
     = Some "12".
Proof.
  apply (device_line_round_trip "Wacom Pad pad" "   " " " "12" "   " " "
           "PAD" "   "); first [reflexivity | discriminate].
Defined.

Lemma script_only_asks_witness :
  fst (script_ 2 (Some "map.json") (start scenario ["maybe"; "y"]))
    <> Raise OutsideModel
  /\ exists evs,
       trace (snd (script_ 2 (Some "map.json") (start scenario ["maybe"; "y"])))
         = (trace (start scenario ["maybe"; "y"]) ++ evs)%list
       /\ forallb (fun e => negb (is_process e) || is_reader e || is_listing e)
                  evs = true
       /\ forallb (fun e => negb (is_writer e)) evs = true.
Proof.
  assert (H : fst (script_ 2 (Some "map.json") (start scenario ["maybe"; "y"]))
              <> Raise OutsideModel)
    by (vm_compute; discriminate).
  split; [exact H|].
  exact (script_only_asks tablet subprocess_run returns_always sim_load
           sim_is_file sim_which sim_defaults 2 (Some "map.json")
           (start scenario ["maybe"; "y"]) H).
Defined.

End MoreRuns.
